(** * Customer-journey workflow engine: a shallow embedding

    The development follows the TypeScript sources:

    - [src/types]                     the records of the data model;
    - [src/models/customer.ts]        the [Customer] class;
    - [src/services/eventService.ts]  [publishEvent] and its wrappers;
    - [src/services/emailService.ts]  the three [send...Email] methods;
    - [src/services/workflowEngine.ts] the handlers, the timer table and
      the status queries;
    - [src/services/customerService.ts] the commands and queries of the
      API, and the customer controller above them;
    - [src/validation]                the validators, as far as they are
      code of the repository: the evaluation of a Joi schema is a
      parameter of the functions that validate.

    Representation choices.

    - A JavaScript [number] that holds a step id or a step index is an
      integer, a [Z]; the one arithmetic operation of the sources on such
      numbers, [stepNumber + 1], is the addition of IEEE-754 doubles
      ([jsAdd]), which is exact up to 2^53 and rounds beyond.
    - An ISO-8601 time stamp is the number of milliseconds it denotes
      ([Timestamp := Z]); [new Date().toISOString()] reads the clock of the
      world.
    - [Map<string, _>] is a [gmap string _].
    - The module-level variables ([customers], [timers], [isConnected]),
      the Kafka producer, the console, the logger, the clock, the uuid
      generator and the table of armed Node timeouts form one [World];
      the code is written in a state-and-exception monad [Eff] over it.
      [await] is sequencing: one handler runs to completion before the
      next one starts.
    - The logger lines carry the text of the source without its emoji
      prefixes; the discount line is without the random code.
    - Customer objects are kept in the registry by value.  A mutation
      through a reference obtained from [customers.get(k)] is written back
      at key [k].  This agrees with the reference semantics of the source
      as long as two registry entries do not share a [workflowState],
      [completedSteps] or [metadata] sub-object, which can only arise
      after [executeWorkflowStep] rebuilt a customer from the live
      snapshot of an entry that is stored under a key different from its
      own id. *)

From stdpp Require Import gmap strings list pretty.

Definition Timestamp := Z.
Bind Scope Z_scope with Timestamp.

(** ** [src/types] *)

Record ProductVisit := mkProductVisit {
  productId : string;
  productName : string;
  category : string;
  visitedAt : Timestamp
}.

Record CustomerMetadata := mkCustomerMetadata {
  lastProductVisit : option ProductVisit;
  (* the index signature [[key: string]: any] *)
  otherMetadata : gmap string string
}.

Module WorkflowState.
Record t := mk {
  currentStep : Z;
  completedSteps : list Z;
  welcomeEmailSent : bool;
  discountCodeSent : bool;
  reminderSent : bool;
  lastEmailSent : option Timestamp
}.

(** [Partial<WorkflowState>]: every key may be absent. *)
Record partial := mkPartial {
  p_currentStep : option Z;
  p_completedSteps : option (list Z);
  p_welcomeEmailSent : option bool;
  p_discountCodeSent : option bool;
  p_reminderSent : option bool;
  p_lastEmailSent : option (option Timestamp)
}.

(** The object spread [{ ...ws, ...updates }]. *)
Definition spread (ws : t) (updates : partial) : t :=
  mk (default (currentStep ws) (p_currentStep updates))
     (default (completedSteps ws) (p_completedSteps updates))
     (default (welcomeEmailSent ws) (p_welcomeEmailSent updates))
     (default (discountCodeSent ws) (p_discountCodeSent updates))
     (default (reminderSent ws) (p_reminderSent updates))
     (default (lastEmailSent ws) (p_lastEmailSent updates)).
End WorkflowState.

Module CustomerData.
Record t := mk {
  id : string;
  email : string;
  name : string;
  signupDate : option Timestamp;
  lastActivity : option Timestamp;
  preferences : gmap string string;
  workflowState : option WorkflowState.t;
  metadata : option CustomerMetadata
}.
End CustomerData.

(** ** JavaScript numbers

    The nearest double of an integer, ties to the even significand: a
    double has 53 significant bits, so an integer of magnitude at most
    2^53 is a double, and a larger one is rounded at the position of its
    53rd bit.  (Integers beyond the largest finite double, about 2^1024,
    are of no concern here.) *)
Definition roundToDouble (x : Z) : Z :=
  let e := (Z.log2 (Z.abs x) - 52)%Z in
  if (e <=? 0)%Z then x
  else
    let ulp := (2 ^ e)%Z in
    let q := (Z.abs x / ulp)%Z in
    let r := (Z.abs x mod ulp)%Z in
    let half := (ulp / 2)%Z in
    let q' := if (half <? r)%Z || ((r =? half)%Z && Z.odd q)
              then (q + 1)%Z else q in
    (Z.sgn x * (q' * ulp))%Z.

(** [a + b] on two integer-valued numbers. *)
Definition jsAdd (a b : Z) : Z := roundToDouble (a + b).
Arguments roundToDouble : simpl never.
Arguments jsAdd : simpl never.

(** ** [src/models/customer.ts] *)

Module Customer.
Record t := mk {
  id : string;
  email : string;
  name : string;
  signupDate : Timestamp;
  lastActivity : Timestamp;
  preferences : gmap string string;
  workflowState : WorkflowState.t;
  metadata : CustomerMetadata
}.

(** The literal of the constructor that stands in for an absent
    [data.workflowState]. *)
Definition initialWorkflowState : WorkflowState.t :=
  WorkflowState.mk 0 [] false false false None.

(** [constructor(data)]; [now] is what [new Date().toISOString()] reads. *)
Definition new (now : Timestamp) (data : CustomerData.t) : t :=
  mk (CustomerData.id data)
     (CustomerData.email data)
     (CustomerData.name data)
     (default now (CustomerData.signupDate data))
     (default now (CustomerData.lastActivity data))
     (CustomerData.preferences data)
     (default initialWorkflowState (CustomerData.workflowState data))
     (default (mkCustomerMetadata None ∅) (CustomerData.metadata data)).

Definition set_workflowState (ws : WorkflowState.t) (c : t) : t :=
  mk (id c) (email c) (name c) (signupDate c) (lastActivity c)
     (preferences c) ws (metadata c).

Definition set_metadata (m : CustomerMetadata) (c : t) : t :=
  mk (id c) (email c) (name c) (signupDate c) (lastActivity c)
     (preferences c) (workflowState c) m.

Definition updateLastActivity (now : Timestamp) (c : t) : t :=
  mk (id c) (email c) (name c) (signupDate c) now
     (preferences c) (workflowState c) (metadata c).

Definition updateWorkflowState (updates : WorkflowState.partial) (c : t) : t :=
  set_workflowState (WorkflowState.spread (workflowState c) updates) c.

(** [Array.prototype.includes] on an array of numbers. *)
Definition includes (l : list Z) (x : Z) : bool := bool_decide (x ∈ l).

Definition markStepCompleted (stepNumber : Z) (c : t) : t :=
  let ws := workflowState c in
  let steps :=
    if negb (includes (WorkflowState.completedSteps ws) stepNumber)
    then WorkflowState.completedSteps ws ++ [stepNumber]
    else WorkflowState.completedSteps ws in
  set_workflowState
    (WorkflowState.mk
       (Z.max (WorkflowState.currentStep ws) (jsAdd stepNumber 1))
       steps
       (WorkflowState.welcomeEmailSent ws)
       (WorkflowState.discountCodeSent ws)
       (WorkflowState.reminderSent ws)
       (WorkflowState.lastEmailSent ws))
    c.

Definition isStepCompleted (stepNumber : Z) (c : t) : bool :=
  includes (WorkflowState.completedSteps (workflowState c)) stepNumber.

(** [toJSON()]: the eight fields of [CustomerData].  The source adds two
    derived counters to the object, [daysSinceSignup] and
    [daysSinceLastActivity], which are doubles computed from the clock
    and are not part of [CustomerData]; they are not represented.  No
    code of the repository reads them: the constructor, the email service
    and the engine read fields of [CustomerData] only. *)
Definition toJSON (c : t) : CustomerData.t :=
  CustomerData.mk (id c) (email c) (name c)
    (Some (signupDate c)) (Some (lastActivity c)) (preferences c)
    (Some (workflowState c)) (Some (metadata c)).

(** A sequence of operations on one customer object. *)
Inductive op :=
  | MarkStepCompleted (stepNumber : Z)
  | UpdateWorkflowState (updates : WorkflowState.partial).

Definition apply (o : op) (c : t) : t :=
  match o with
  | MarkStepCompleted n => markStepCompleted n c
  | UpdateWorkflowState u => updateWorkflowState u c
  end.

Definition run (ops : list op) (c : t) : t :=
  foldl (fun c o => apply o c) c ops.
End Customer.

(** ** Events ([src/types], [src/config/kafka.ts]) *)

Inductive EventType :=
| CUSTOMER_SIGNUP
| PRODUCT_PAGE_VISIT
| CUSTOMER_INACTIVE
| WORKFLOW_TRIGGER
| WORKFLOW_STEP
| EMAIL_REQUEST
| EMAIL_SENT.

Definition EventType_name (t : EventType) : string :=
  match t with
  | CUSTOMER_SIGNUP => "CUSTOMER_SIGNUP"
  | PRODUCT_PAGE_VISIT => "PRODUCT_PAGE_VISIT"
  | CUSTOMER_INACTIVE => "CUSTOMER_INACTIVE"
  | WORKFLOW_TRIGGER => "WORKFLOW_TRIGGER"
  | WORKFLOW_STEP => "WORKFLOW_STEP"
  | EMAIL_REQUEST => "EMAIL_REQUEST"
  | EMAIL_SENT => "EMAIL_SENT"
  end.

Inductive EmailKind := welcome | discount | reminder.

(** [EmailData].  [subject] and [html] are rendered from the fixed
    templates of the email service; the rendering is not represented.  Of
    the template data of the discount email only the product category is
    kept (the discount code is random, the expiry date is a calendar
    computation). *)
Record EmailData := mkEmailData {
  to : string;
  type : EmailKind;
  emailCustomerId : string;
  productCategory : option string
}.

Record EmailSentData := mkEmailSentData {
  sentCustomerId : string;
  emailType : EmailKind;
  emailData : EmailData;
  sentAt : Timestamp
}.

(** [ProductVisit & { customerId: string }]; [visitedAt] may be absent
    ([visitData.visitedAt || new Date().toISOString()]). *)
Record VisitData := mkVisitData {
  visitCustomerId : string;
  visitProductId : string;
  visitProductName : string;
  visitCategory : string;
  visitVisitedAt : option Timestamp
}.

Record WorkflowStep := mkWorkflowStep {
  stepIdOf : Z;
  stepNameOf : string;
  description : string;
  trigger : string;
  actionOf : string;
  delay : Z
}.

(** The object literal built by [triggerWorkflowStep] and destructured by
    [executeWorkflowStep].  An event that arrives from the bus need not
    carry the [customer] or [productData] keys. *)
Record WorkflowData := mkWorkflowData {
  customerId : string;
  stepId : Z;
  stepName : string;
  action : string;
  customer : option CustomerData.t;
  productData : option ProductVisit
}.

(** The pair of [type] and [data] of an event.  The source types [data]
    as [any]; each event type is published through one wrapper of
    [publishEvent], which fixes the type of the payload, and the tagged
    union follows the wrappers. *)
Inductive EventBody :=
| CustomerSignup (data : CustomerData.t)
| ProductPageVisit (data : VisitData)
| CustomerInactive (dataCustomerId : string)
| WorkflowTrigger (data : WorkflowData)
| WorkflowStepEvent (data : WorkflowData)
| EmailRequest (data : EmailData)
| EmailSent (data : EmailSentData).

Definition eventType (b : EventBody) : EventType :=
  match b with
  | CustomerSignup _ => CUSTOMER_SIGNUP
  | ProductPageVisit _ => PRODUCT_PAGE_VISIT
  | CustomerInactive _ => CUSTOMER_INACTIVE
  | WorkflowTrigger _ => WORKFLOW_TRIGGER
  | WorkflowStepEvent _ => WORKFLOW_STEP
  | EmailRequest _ => EMAIL_REQUEST
  | EmailSent _ => EMAIL_SENT
  end.

(** [data.customerId]: [undefined] for a payload without that key. *)
Definition data_customerId (b : EventBody) : option string :=
  match b with
  | CustomerSignup _ => None
  | ProductPageVisit v => Some (visitCustomerId v)
  | CustomerInactive c => Some c
  | WorkflowTrigger w | WorkflowStepEvent w => Some (customerId w)
  | EmailRequest e => Some (emailCustomerId e)
  | EmailSent e => Some (sentCustomerId e)
  end.

Module Event.
Record t := mk {
  id : string;
  timestamp : Timestamp;
  body : EventBody
}.
Definition type (e : t) : EventType := eventType (body e).
End Event.

(** One element of [messages] in a call of [producer.send], with its topic.
    [value] is the event that [JSON.stringify] serialises. *)
Record ProducerRecord := mkProducerRecord {
  topic : string;
  key : string;
  value : Event.t;
  header_event_type : EventType;
  header_correlation_id : string
}.

Module topics.
Definition CUSTOMER_EVENTS : string := "customer-events".
Definition WORKFLOW_TRIGGERS : string := "workflow-triggers".
Definition EMAIL_NOTIFICATIONS : string := "email-notifications".
End topics.

(** ** The world and the effect monad *)

Record JsError := mkError { message : string }.

Inductive LogLevel := INFO | WARN | ERROR.

(** A timeout armed by [setTimeout] in [scheduleReminderCheck]: the
    closure captures [customer], of which it reads [customer.id]. *)
Record TimeoutTask := mkTimeoutTask {
  taskCustomerId : string;
  taskDelay : Z
}.

Record World := mkWorld {
  (* workflowEngine.ts *)
  customers : gmap string Customer.t;
  timers : gmap string nat;
  reminderDelay : Z;            (* workflowSteps.STEP_3_REMINDER.delay *)
  demoMode : bool;
  (* eventService.ts *)
  isConnected : bool;
  (* the Node runtime: armed timeouts by handle, and the next handle *)
  timeouts : gmap nat TimeoutTask;
  nextTimeout : nat;
  (* the Kafka producer: accepted records, number of calls of [send], and
     for each call whether the broker rejects it *)
  produced : list ProducerRecord;
  sendCount : nat;
  broker : nat -> option JsError;
  (* the console blocks of the email service, the logger *)
  console : list EmailData;
  logs : list (LogLevel * string);
  (* the clock and the uuid generator *)
  clock : Timestamp;
  uuidCount : nat
}.

Inductive Completion (A : Type) :=
| Normal (a : A)
| Throw (e : JsError).
Arguments Normal {A} a.
Arguments Throw {A} e.

Definition Eff (A : Type) : Type := World -> Completion A * World.

Definition ret {A} (a : A) : Eff A := fun w => (Normal a, w).

Definition bind {A B} (m : Eff A) (k : A -> Eff B) : Eff B :=
  fun w => match m w with
           | (Normal a, w') => k a w'
           | (Throw e, w') => (Throw e, w')
           end.

Definition throw {A} (e : JsError) : Eff A := fun w => (Throw e, w).

(** [try { m } catch (error) { h error }] *)
Definition tryCatch {A} (m : Eff A) (h : JsError -> Eff A) : Eff A :=
  fun w => match m w with
           | (Normal a, w') => (Normal a, w')
           | (Throw e, w') => h e w'
           end.

Definition gets {A} (f : World -> A) : Eff A := fun w => (Normal (f w), w).
Definition modify (f : World -> World) : Eff unit := fun w => (Normal tt, f w).

#[global] Instance Eff_ret : MRet Eff := @ret.
#[global] Instance Eff_bind : MBind Eff := fun A B k m => bind m k.

(** The state after a computation, and its completion. *)
Definition exec {A} (m : Eff A) (w : World) : World := snd (m w).
Definition result {A} (m : Eff A) (w : World) : Completion A := fst (m w).

(** *** Primitives of the environment *)

Definition set_customers (f : gmap string Customer.t -> gmap string Customer.t)
    (w : World) : World :=
  mkWorld (f (customers w)) (timers w) (reminderDelay w) (demoMode w)
    (isConnected w) (timeouts w) (nextTimeout w) (produced w) (sendCount w)
    (broker w) (console w) (logs w) (clock w) (uuidCount w).

Definition set_timers (f : gmap string nat -> gmap string nat) (w : World) : World :=
  mkWorld (customers w) (f (timers w)) (reminderDelay w) (demoMode w)
    (isConnected w) (timeouts w) (nextTimeout w) (produced w) (sendCount w)
    (broker w) (console w) (logs w) (clock w) (uuidCount w).

Definition set_isConnected (b : bool) (w : World) : World :=
  mkWorld (customers w) (timers w) (reminderDelay w) (demoMode w)
    b (timeouts w) (nextTimeout w) (produced w) (sendCount w)
    (broker w) (console w) (logs w) (clock w) (uuidCount w).

Definition set_timeouts (f : gmap nat TimeoutTask -> gmap nat TimeoutTask)
    (g : nat -> nat) (w : World) : World :=
  mkWorld (customers w) (timers w) (reminderDelay w) (demoMode w)
    (isConnected w) (f (timeouts w)) (g (nextTimeout w)) (produced w)
    (sendCount w) (broker w) (console w) (logs w) (clock w) (uuidCount w).

Definition set_producer (f : list ProducerRecord -> list ProducerRecord)
    (w : World) : World :=
  mkWorld (customers w) (timers w) (reminderDelay w) (demoMode w)
    (isConnected w) (timeouts w) (nextTimeout w) (f (produced w))
    (S (sendCount w)) (broker w) (console w) (logs w) (clock w) (uuidCount w).

Definition set_console (f : list EmailData -> list EmailData) (w : World) : World :=
  mkWorld (customers w) (timers w) (reminderDelay w) (demoMode w)
    (isConnected w) (timeouts w) (nextTimeout w) (produced w) (sendCount w)
    (broker w) (f (console w)) (logs w) (clock w) (uuidCount w).

Definition set_logs (f : list (LogLevel * string) -> list (LogLevel * string))
    (w : World) : World :=
  mkWorld (customers w) (timers w) (reminderDelay w) (demoMode w)
    (isConnected w) (timeouts w) (nextTimeout w) (produced w) (sendCount w)
    (broker w) (console w) (f (logs w)) (clock w) (uuidCount w).

Definition set_uuidCount (g : nat -> nat) (w : World) : World :=
  mkWorld (customers w) (timers w) (reminderDelay w) (demoMode w)
    (isConnected w) (timeouts w) (nextTimeout w) (produced w) (sendCount w)
    (broker w) (console w) (logs w) (clock w) (g (uuidCount w)).

Module logger.
Definition log (level : LogLevel) (msg : string) : Eff unit :=
  modify (set_logs (fun l => l ++ [(level, msg)])).
Definition info := log INFO.
Definition warn := log WARN.
Definition error := log ERROR.
End logger.

(** [new Date().toISOString()] *)
Definition newDate : Eff Timestamp := gets clock.

(** [uuidv4()]: the n-th draw of the generator; distinct draws give
    distinct strings. *)
Definition uuid_of (n : nat) : string := "uuid-" +:+ pretty n.

Definition uuidv4 : Eff string :=
  n ← gets uuidCount;
  modify (set_uuidCount S);;
  mret (uuid_of n).

(** [await producer.send({ topic, messages: [m] })]: the broker of the
    world decides whether the call is rejected. *)
Definition producer_send (r : ProducerRecord) : Eff unit :=
  n ← gets sendCount;
  verdict ← gets broker;
  match verdict n with
  | Some e => modify (set_producer (fun accepted => accepted));; throw e
  | None => modify (set_producer (fun accepted => accepted ++ [r]))
  end.

(** [setTimeout(callback, delay)] returns a handle that was not in use. *)
Definition setTimeout (task : TimeoutTask) : Eff nat :=
  h ← gets nextTimeout;
  modify (set_timeouts (<[h := task]>) S);;
  mret h.

Definition clearTimeout (h : nat) : Eff unit :=
  modify (set_timeouts (delete h) (fun next => next)).

(** The console block of an email. *)
Definition console_log (e : EmailData) : Eff unit :=
  modify (set_console (fun printed => printed ++ [e])).

(** [a || b] on strings: [undefined] and the empty string are falsy. *)
Definition string_or (a : option string) (b : string) : string :=
  match a with
  | Some s => if bool_decide (s = "") then b else s
  | None => b
  end.

(** ** [src/services/eventService.ts] *)

Module eventService.

Definition publishEvent (topic : string) (body : EventBody) : Eff Event.t :=
  connected ← gets isConnected;
  if negb connected then throw (mkError "Event service not connected")
  else
    id ← uuidv4;
    timestamp ← newDate;
    let event := Event.mk id timestamp body in
    tryCatch
      (producer_send
         (mkProducerRecord topic (string_or (data_customerId body) (Event.id event))
            event (eventType body) (Event.id event));;
       logger.info ("Event published: " +:+ EventType_name (eventType body)
                    +:+ " to " +:+ topic);;
       mret event)
      (fun error =>
         logger.error ("Failed to publish event: "
                       +:+ EventType_name (eventType body));;
         throw error).

Definition publishCustomerSignup (customerData : CustomerData.t) : Eff Event.t :=
  publishEvent topics.CUSTOMER_EVENTS (CustomerSignup customerData).

Definition publishProductPageVisit (visitData : VisitData) : Eff Event.t :=
  publishEvent topics.CUSTOMER_EVENTS (ProductPageVisit visitData).

Definition publishCustomerInactive (customerId : string) : Eff Event.t :=
  publishEvent topics.CUSTOMER_EVENTS (CustomerInactive customerId).

Definition publishWorkflowTrigger (workflowData : WorkflowData) : Eff Event.t :=
  publishEvent topics.WORKFLOW_TRIGGERS (WorkflowTrigger workflowData).

Definition publishWorkflowStep (stepData : WorkflowData) : Eff Event.t :=
  publishEvent topics.WORKFLOW_TRIGGERS (WorkflowStepEvent stepData).

Definition publishEmailRequest (emailData : EmailData) : Eff Event.t :=
  publishEvent topics.EMAIL_NOTIFICATIONS (EmailRequest emailData).

Definition publishEmailSent (emailData : EmailSentData) : Eff Event.t :=
  publishEvent topics.EMAIL_NOTIFICATIONS (EmailSent emailData).

End eventService.

(** ** [src/services/emailService.ts]

    [simulateEmailDelivery] only waits; it has no counterpart here. *)

Module emailService.

Definition sendWelcomeEmail (customer : CustomerData.t) : Eff EmailData :=
  tryCatch
    (let emailData :=
       mkEmailData (CustomerData.email customer) welcome
         (CustomerData.id customer) None in
     logger.info ("Welcome email sent to " +:+ CustomerData.name customer
                  +:+ " (" +:+ CustomerData.email customer +:+ ")");;
     console_log emailData;;
     sentAt ← newDate;
     eventService.publishEmailSent
       (mkEmailSentData (CustomerData.id customer) welcome emailData sentAt);;
     mret emailData)
    (fun error => logger.error "Failed to send welcome email:";; throw error).

Definition sendDiscountEmail (customer : CustomerData.t)
    (productData : option ProductVisit) : Eff EmailData :=
  tryCatch
    (let productCategory :=
       string_or (category <$> productData) "amazing products" in
     let emailData :=
       mkEmailData (CustomerData.email customer) discount
         (CustomerData.id customer) (Some productCategory) in
     logger.info ("Discount email sent to " +:+ CustomerData.name customer
                  +:+ " (" +:+ CustomerData.email customer +:+ ")");;
     console_log emailData;;
     sentAt ← newDate;
     eventService.publishEmailSent
       (mkEmailSentData (CustomerData.id customer) discount emailData sentAt);;
     mret emailData)
    (fun error => logger.error "Failed to send discount email:";; throw error).

Definition sendReminderEmail (customer : CustomerData.t) : Eff EmailData :=
  tryCatch
    (let emailData :=
       mkEmailData (CustomerData.email customer) reminder
         (CustomerData.id customer) None in
     logger.info ("Reminder email sent to " +:+ CustomerData.name customer
                  +:+ " (" +:+ CustomerData.email customer +:+ ")");;
     console_log emailData;;
     sentAt ← newDate;
     eventService.publishEmailSent
       (mkEmailSentData (CustomerData.id customer) reminder emailData sentAt);;
     mret emailData)
    (fun error => logger.error "Failed to send reminder email:";; throw error).

End emailService.

(** ** [src/services/workflowEngine.ts] *)

Module workflowSteps.
Definition STEP_1_WELCOME : WorkflowStep :=
  mkWorkflowStep 1 "Send Welcome Email"
    "Send welcome email immediately after signup"
    "CUSTOMER_SIGNUP" "SEND_WELCOME_EMAIL" 0.
Definition STEP_2_DISCOUNT : WorkflowStep :=
  mkWorkflowStep 2 "Send Discount Code"
    "Send discount code after product page visit"
    "PRODUCT_PAGE_VISIT" "SEND_DISCOUNT_EMAIL" 0.
(** The [delay] of this entry is assigned by [initializeWorkflowConfig];
    its current value is [reminderDelay] of the world. *)
Definition STEP_3_REMINDER (delay : Z) : WorkflowStep :=
  mkWorkflowStep 3 "Send Reminder Email"
    "Send reminder if no activity after 7 days"
    "CUSTOMER_INACTIVE" "SEND_REMINDER_EMAIL" delay.
(** [Object.values(workflowSteps)] *)
Definition values (delay : Z) : list WorkflowStep :=
  [STEP_1_WELCOME; STEP_2_DISCOUNT; STEP_3_REMINDER delay].
End workflowSteps.

Module WorkflowStatus.
Record step := mkStep {
  id : Z;
  name : string;
  description : string;
  completed : bool;
  completedAt : option Timestamp
}.
Record workflow_t := mkWorkflow {
  steps : list step;
  currentStep : Z;
  completedSteps : list Z;
  hasActiveReminder : bool
}.
Record t := mk {
  customer : CustomerData.t;
  workflow : workflow_t
}.
End WorkflowStatus.

Module workflowEngine.

Definition cancelReminderTimer (customerId : string) : Eff unit :=
  table ← gets timers;
  match table !! customerId with
  | Some timer =>
      clearTimeout timer;;
      modify (set_timers (delete customerId));;
      logger.info ("Cancelled reminder timer for customer " +:+ customerId)
  | None => mret tt
  end.

(** The body of the arrow function passed to [setTimeout]. *)
Definition reminderCallback (task : TimeoutTask) : Eff unit :=
  registry ← gets customers;
  match registry !! taskCustomerId task with
  | Some currentCustomer =>
      if negb (Customer.isStepCompleted 3 currentCustomer) then
        logger.info ("Customer " +:+ Customer.name currentCustomer
                     +:+ " has been inactive, triggering reminder workflow");;
        eventService.publishCustomerInactive (Customer.id currentCustomer);;
        mret tt
      else mret tt
  | None => mret tt
  end.

Definition scheduleReminderCheck (customer : Customer.t) : Eff unit :=
  cancelReminderTimer (Customer.id customer);;
  delay ← gets reminderDelay;
  demo ← gets demoMode;
  logger.info ("Scheduling reminder check for " +:+ Customer.name customer
               +:+ " in " +:+ (if (demo : bool) then "30 seconds" else "7 days"));;
  timer ← setTimeout (mkTimeoutTask (Customer.id customer) delay);
  modify (set_timers (<[Customer.id customer := timer]>)).

(** The Node runtime runs the callback of an armed timeout and forgets the
    timeout; a handle that is not armed does nothing. *)
Definition fireTimeout (h : nat) : Eff unit :=
  armed ← gets timeouts;
  match armed !! h with
  | Some task =>
      modify (set_timeouts (delete h) (fun next => next));;
      reminderCallback task
  | None => mret tt
  end.

(** The [switch (action)] statement of [executeWorkflowStep]: it sends
    the email of the action and sets the flag of the step on
    [customerObj]; the [default] arm throws. *)
Definition switchAction (action : string) (customerObj : Customer.t)
    (productData : option ProductVisit) : Eff Customer.t :=
  if bool_decide (action = "SEND_WELCOME_EMAIL") then
    emailService.sendWelcomeEmail (Customer.toJSON customerObj);;
    now ← newDate;
    mret (Customer.updateWorkflowState
            (WorkflowState.mkPartial None None (Some true) None None
               (Some (Some now)))
            customerObj)
  else if bool_decide (action = "SEND_DISCOUNT_EMAIL") then
    emailService.sendDiscountEmail (Customer.toJSON customerObj) productData;;
    now ← newDate;
    mret (Customer.updateWorkflowState
            (WorkflowState.mkPartial None None None (Some true) None
               (Some (Some now)))
            customerObj)
  else if bool_decide (action = "SEND_REMINDER_EMAIL") then
    emailService.sendReminderEmail (Customer.toJSON customerObj);;
    now ← newDate;
    mret (Customer.updateWorkflowState
            (WorkflowState.mkPartial None None None None (Some true)
               (Some (Some now)))
            customerObj)
  else
    throw (mkError ("Unknown workflow action: " +:+ action)).

(** [customers.get(customerId) || new Customer(customer)]; the constructor
    throws a [TypeError] when the payload has no [customer]. *)
Definition customerObjOf (workflowData : WorkflowData) : Eff Customer.t :=
  registry ← gets customers;
  match registry !! customerId workflowData with
  | Some c => mret c
  | None =>
      match customer workflowData with
      | Some data => now ← newDate; mret (Customer.new now data)
      | None =>
          throw (mkError "Cannot read properties of undefined (reading 'id')")
      end
  end.

Definition executeWorkflowStep (workflowData : WorkflowData) : Eff unit :=
  customerObj ← customerObjOf workflowData;
  tryCatch
    (customerObj ← switchAction (action workflowData) customerObj
                     (productData workflowData);
     let customerObj := Customer.markStepCompleted (stepId workflowData) customerObj in
     modify (set_customers (<[customerId workflowData := customerObj]>));;
     logger.info ("Workflow step completed: " +:+ stepName workflowData
                  +:+ " for customer " +:+ Customer.name customerObj))
    (fun error =>
       logger.error ("Workflow step failed: " +:+ stepName workflowData)).

Definition triggerWorkflowStep (customer : Customer.t) (step : WorkflowStep)
    (additionalData : option ProductVisit) : Eff unit :=
  tryCatch
    (logger.info ("Triggering workflow step: " +:+ stepNameOf step
                  +:+ " for customer " +:+ Customer.name customer);;
     let workflowData :=
       mkWorkflowData (Customer.id customer) (stepIdOf step) (stepNameOf step)
         (actionOf step) (Some (Customer.toJSON customer)) additionalData in
     eventService.publishWorkflowStep workflowData;;
     executeWorkflowStep workflowData)
    (fun error =>
       logger.error ("Failed to trigger workflow step " +:+ stepNameOf step +:+ ":")).

Definition handleCustomerSignup (customerData : CustomerData.t) : Eff unit :=
  now ← newDate;
  let customer := Customer.new now customerData in
  modify (set_customers (<[Customer.id customer := customer]>));;
  logger.info ("New customer signup: " +:+ Customer.name customer
               +:+ " (" +:+ Customer.email customer +:+ ")");;
  triggerWorkflowStep customer workflowSteps.STEP_1_WELCOME None;;
  scheduleReminderCheck customer.

Definition handleProductPageVisit (visitData : VisitData) : Eff unit :=
  registry ← gets customers;
  match registry !! visitCustomerId visitData with
  | None =>
      logger.warn ("Customer not found for product visit: "
                   +:+ visitCustomerId visitData)
  | Some customer =>
      now ← newDate;
      let customer := Customer.updateLastActivity now customer in
      now ← newDate;
      let visit :=
        mkProductVisit (visitProductId visitData) (visitProductName visitData)
          (visitCategory visitData) (default now (visitVisitedAt visitData)) in
      let customer :=
        Customer.set_metadata
          (mkCustomerMetadata (Some visit)
             (otherMetadata (Customer.metadata customer)))
          customer in
      modify (set_customers (<[visitCustomerId visitData := customer]>));;
      logger.info ("Product page visit: " +:+ Customer.name customer
                   +:+ " visited " +:+ visitProductName visitData);;
      (if negb (Customer.isStepCompleted 2 customer) then
         triggerWorkflowStep customer workflowSteps.STEP_2_DISCOUNT
           (lastProductVisit (Customer.metadata customer))
       else mret tt);;
      cancelReminderTimer (Customer.id customer);;
      scheduleReminderCheck customer
  end.

Definition handleCustomerInactive (customerId : string) : Eff unit :=
  registry ← gets customers;
  match registry !! customerId with
  | None =>
      logger.warn ("Customer not found for inactivity check: " +:+ customerId)
  | Some customer =>
      if negb (Customer.isStepCompleted 3 customer) then
        delay ← gets reminderDelay;
        triggerWorkflowStep customer (workflowSteps.STEP_3_REMINDER delay) None
      else mret tt
  end.

(** [handleEvent(topic, event, headers)]; the handler reads neither the
    topic nor the headers. *)
Definition handleEvent (topic : string) (event : Event.t) : Eff unit :=
  tryCatch
    (logger.info ("Processing workflow event: "
                  +:+ EventType_name (Event.type event) +:+ " for customer "
                  +:+ default "undefined" (data_customerId (Event.body event)));;
     match Event.body event with
     | CustomerSignup data => handleCustomerSignup data
     | ProductPageVisit data => handleProductPageVisit data
     | CustomerInactive customerId => handleCustomerInactive customerId
     | WorkflowTrigger data | WorkflowStepEvent data => executeWorkflowStep data
     | EmailRequest _ | EmailSent _ =>
         logger.warn ("Unknown event type: " +:+ EventType_name (Event.type event))
     end)
    (fun error => logger.error "Error processing workflow event:").

Definition getCustomer (customerId : string) (w : World) : option Customer.t :=
  customers w !! customerId.

Definition getWorkflowStatus (customerId : string) (w : World)
    : option WorkflowStatus.t :=
  match customers w !! customerId with
  | None => None
  | Some customer =>
      Some (WorkflowStatus.mk (Customer.toJSON customer)
        (WorkflowStatus.mkWorkflow
           ((fun step =>
               WorkflowStatus.mkStep (stepIdOf step) (stepNameOf step)
                 (description step)
                 (Customer.isStepCompleted (stepIdOf step) customer)
                 (if Customer.isStepCompleted (stepIdOf step) customer
                  then WorkflowState.lastEmailSent (Customer.workflowState customer)
                  else None))
              <$> workflowSteps.values (reminderDelay w))
           (WorkflowState.currentStep (Customer.workflowState customer))
           (WorkflowState.completedSteps (Customer.workflowState customer))
           (bool_decide (is_Some (timers w !! customerId)))))
  end.

Definition simulateTimePassage (customerId : string) : Eff unit :=
  registry ← gets customers;
  table ← gets timers;
  match registry !! customerId, table !! customerId with
  | Some customer, Some _ =>
      logger.info ("Demo: Fast-forwarding time for customer "
                   +:+ Customer.name customer);;
      cancelReminderTimer customerId;;
      eventService.publishCustomerInactive customerId;;
      mret tt
  | _, _ => mret tt
  end.

End workflowEngine.

(** ** [src/validation] and [src/services/customerService.ts] *)

Record ValidationResult := mkValidationResult {
  isValid : bool;
  validationError : option string
}.

Module ApiResponse.
Record t (T : Type) := mk {
  success : bool;
  error : option string;
  message : option string;
  data : option T
}.
Arguments mk {T}.
Arguments success {T}.
Arguments error {T}.
Arguments message {T}.
Arguments data {T}.
End ApiResponse.

Section customerService.

(** [this.customerIdSchema.validate(customerId)]: the message of the first
    detail of the error that the Joi schema
    [Joi.string().uuid().required()] reports, if it reports one.  Joi is a
    library outside the repository. *)
Variable customerIdSchema : string -> option string.

(** [CustomerValidator.validateCustomerId] *)
Definition validateCustomerId (customerId : string) : ValidationResult :=
  match customerIdSchema customerId with
  | Some msg => mkValidationResult false (Some msg)
  | None => mkValidationResult true None
  end.

Definition getCustomerById (customerId : string)
    : Eff (ApiResponse.t CustomerData.t) :=
  tryCatch
    (let customerIdValidation := validateCustomerId customerId in
     if negb (isValid customerIdValidation) then
       mret (ApiResponse.mk false (validationError customerIdValidation) None None)
     else
       customer ← gets (workflowEngine.getCustomer customerId);
       match customer with
       | None => mret (ApiResponse.mk false (Some "Customer not found") None None)
       | Some customer =>
           mret (ApiResponse.mk true None None (Some (Customer.toJSON customer)))
       end)
    (fun error =>
       logger.error "Get customer error:";;
       mret (ApiResponse.mk false
               (Some "Internal server error while fetching customer") None None)).

Definition getCustomerWorkflowStatus (customerId : string)
    : Eff (ApiResponse.t WorkflowStatus.t) :=
  tryCatch
    (let customerIdValidation := validateCustomerId customerId in
     if negb (isValid customerIdValidation) then
       mret (ApiResponse.mk false (validationError customerIdValidation) None None)
     else
       workflowStatus ← gets (workflowEngine.getWorkflowStatus customerId);
       match workflowStatus with
       | None => mret (ApiResponse.mk false (Some "Customer not found") None None)
       | Some workflowStatus =>
           mret (ApiResponse.mk true None None (Some workflowStatus))
       end)
    (fun error =>
       logger.error "Get workflow status error:";;
       mret (ApiResponse.mk false
               (Some "Internal server error while fetching workflow status")
               None None)).

(** The [data] of the response is [{ customerId }]. *)
Definition simulateTimePassage (customerId : string)
    : Eff (ApiResponse.t string) :=
  tryCatch
    (let customerIdValidation := validateCustomerId customerId in
     if negb (isValid customerIdValidation) then
       mret (ApiResponse.mk false (validationError customerIdValidation) None None)
     else
       customer ← gets (workflowEngine.getCustomer customerId);
       match customer with
       | None => mret (ApiResponse.mk false (Some "Customer not found") None None)
       | Some _ =>
           workflowEngine.simulateTimePassage customerId;;
           mret (ApiResponse.mk true None
                   (Some "Time passage simulated! Reminder email should be triggered if applicable.")
                   (Some customerId))
       end)
    (fun error =>
       logger.error "Simulate time passage error:";;
       mret (ApiResponse.mk false
               (Some "Internal server error during time simulation") None None)).

End customerService.

(** An evaluation of [customerIdSchema] for concrete runs, after the rule
    of the Joi library for [Joi.string().uuid()].  The empty string is
    reported with the default message of ['string.empty'].  A string
    passes when it is 32 hexadecimal digits in groups of 8, 4, 4, 4 and
    12, where the separator that follows the first group (':' or '-', or
    nothing) may stand between the further groups, the whole optionally
    enclosed in a matching pair of brackets.  Every other string is
    reported with the message that the schema configures for
    ['string.guid']. *)
Definition is_hex (c : Ascii.ascii) : bool :=
  let n := Ascii.nat_of_ascii c in
  ((48 <=? n) && (n <=? 57)) || ((65 <=? n) && (n <=? 70))
  || ((97 <=? n) && (n <=? 102)).

(** [[0-9A-F]{n}], case-insensitive: the rest of the string. *)
Fixpoint hexDigits (n : nat) (s : string) : option string :=
  match n, s with
  | O, _ => Some s
  | S n', String c rest => if is_hex c then hexDigits n' rest else None
  | S _, EmptyString => None
  end.

(** An optional character of a class, given by its codes. *)
Definition oneOf (codes : list nat) (s : string) : option Ascii.ascii * string :=
  match s with
  | String c rest =>
      if bool_decide (Ascii.nat_of_ascii c ∈ codes) then (Some c, rest)
      else (None, s)
  | EmptyString => (None, s)
  end.

(** The optional back-reference to the separator. *)
Definition sameSeparator (sep : option Ascii.ascii) (s : string) : string :=
  match sep, s with
  | Some c, String c' rest => if Ascii.eqb c c' then rest else s
  | _, _ => s
  end.

(** The code of the bracket that closes an opening bracket. *)
Definition closingBracket (opener : option Ascii.ascii) : option nat :=
  match opener with
  | None => None
  | Some c =>
      let n := Ascii.nat_of_ascii c in
      Some (if n =? 123 then 125 else if n =? 91 then 93 else 41)%nat
  end.

Definition joiGuid (s : string) : bool :=
  let '(opener, s) := oneOf [91; 123; 40]%nat s in
  match hexDigits 8 s with
  | None => false
  | Some s =>
      let '(sep, s) := oneOf [58; 45]%nat s in
      match
        s ← hexDigits 4 s;
        s ← hexDigits 4 (sameSeparator sep s);
        s ← hexDigits 4 (sameSeparator sep s);
        hexDigits 12 (sameSeparator sep s)
      with
      | None => false
      | Some s =>
          let '(closer, s) := oneOf [93; 125; 41]%nat s in
          bool_decide (s = EmptyString)
          && bool_decide (Ascii.nat_of_ascii <$> closer = closingBracket opener)
      end
  end.

(** The label of a value in a default message of Joi, in double quotes. *)
Definition quoted (label : string) : string :=
  String (Ascii.ascii_of_nat 34) label +:+ String (Ascii.ascii_of_nat 34) EmptyString.

Definition joiCustomerIdSchema (s : string) : option string :=
  if bool_decide (s = EmptyString)
  then Some (quoted "value" +:+ " is not allowed to be empty")
  else if joiGuid s then None
  else Some "Invalid customer ID format".

(** ** The engine as a transition system

    What can happen to the world between two observations: the consumer
    delivers an event to [handleEvent], an armed timeout elapses, the API
    calls [simulateTimePassage], the event service connects or
    disconnects, the clock advances. *)

Inductive Transition :=
| Deliver (topic : string) (event : Event.t)
| Elapse (handle : nat)
| Simulate (customerId : string)
| SetConnected (connected : bool)
| Tick (now : Timestamp).

Definition set_clock (now : Timestamp) (w : World) : World :=
  mkWorld (customers w) (timers w) (reminderDelay w) (demoMode w)
    (isConnected w) (timeouts w) (nextTimeout w) (produced w) (sendCount w)
    (broker w) (console w) (logs w) now (uuidCount w).

Definition transition (t : Transition) (w : World) : World :=
  match t with
  | Deliver topic event => exec (workflowEngine.handleEvent topic event) w
  | Elapse h => exec (workflowEngine.fireTimeout h) w
  | Simulate customerId => exec (workflowEngine.simulateTimePassage customerId) w
  | SetConnected b => set_isConnected b w
  | Tick now => set_clock now w
  end.

Definition run (ts : list Transition) (w : World) : World :=
  foldl (fun w t => transition t w) w ts.

(** The world at start-up: the module-level maps are empty. *)
Definition initialWorld (brk : nat -> option JsError) (now : Timestamp)
    (demo : bool) (delay : Z) : World :=
  mkWorld ∅ ∅ delay demo false ∅ 0 [] 0 brk [] [] now 0.

(** Every armed timeout is the one that the timer table records for its
    customer, and no handle of the table will be handed out again. *)
Definition timers_wf (w : World) : Prop :=
  (forall h task, timeouts w !! h = Some task ->
     timers w !! taskCustomerId task = Some h) /\
  (forall customerId h, timers w !! customerId = Some h ->
     (h < nextTimeout w)%nat).

(** ** Specification vocabulary *)

(** The invariant of a workflow state: no step id occurs twice in the
    completed steps, and the current step is beyond every completed one. *)
Definition ws_invariant (ws : WorkflowState.t) : Prop :=
  NoDup (WorkflowState.completedSteps ws) /\
  forall s, s ∈ WorkflowState.completedSteps ws ->
            (s + 1 <= WorkflowState.currentStep ws)%Z.

(** An operation that does not assign [currentStep] or [completedSteps]
    through [updateWorkflowState]; the three calls of
    [executeWorkflowStep] pass a flag and [lastEmailSent]. *)
Definition keepsProgress (o : Customer.op) : Prop :=
  match o with
  | Customer.MarkStepCompleted _ => True
  | Customer.UpdateWorkflowState u =>
      WorkflowState.p_currentStep u = None /\
      WorkflowState.p_completedSteps u = None
  end.

(** [Number.isSafeInteger(n)]: the integers on which [n + 1] is exact. *)
Definition safeInteger (n : Z) : Prop := (- 2 ^ 53 < n < 2 ^ 53)%Z.

(** An operation whose step id, if it has one, is a safe integer. *)
Definition safeStep (o : Customer.op) : Prop :=
  match o with
  | Customer.MarkStepCompleted n => safeInteger n
  | Customer.UpdateWorkflowState _ => True
  end.

Definition currentStepOf (c : Customer.t) : Z :=
  WorkflowState.currentStep (Customer.workflowState c).

(** A computation preserves a property of the world, whether it returns
    or throws. *)
Definition preserves {A} (P : World -> Prop) (m : Eff A) : Prop :=
  forall w, P w -> P (exec m w).

(** Properties that do not read the logger, the producer, the console or
    the uuid generator. *)
Class EnvFrame (P : World -> Prop) : Prop := {
  frame_logs : forall f w, P w -> P (set_logs f w);
  frame_producer : forall f w, P w -> P (set_producer f w);
  frame_console : forall f w, P w -> P (set_console f w);
  frame_uuidCount : forall g w, P w -> P (set_uuidCount g w)
}.

(** Properties that do not read the customer registry. *)
Class RegistryFrame (P : World -> Prop) : Prop :=
  frame_customers : forall f w, P w -> P (set_customers f w).

(** At most one armed timeout per customer id. *)
Definition atMostOnePending (w : World) : Prop :=
  forall h1 h2 t1 t2,
    timeouts w !! h1 = Some t1 -> timeouts w !! h2 = Some t2 ->
    taskCustomerId t1 = taskCustomerId t2 -> h1 = h2.

(** The world after [cancelReminderTimer(customerId)]. *)
Definition cancelled (customerId : string) (w : World) : World :=
  match timers w !! customerId with
  | Some timer =>
      set_logs (fun l => l ++ [(INFO, "Cancelled reminder timer for customer "
                                      +:+ customerId)])
        (set_timers (delete customerId)
           (set_timeouts (delete timer) (fun next => next) w))
  | None => w
  end.

(** The world after the part of [scheduleReminderCheck(customer)] that
    follows the cancellation. *)
Definition armed (c : Customer.t) (w : World) : World :=
  set_timers (<[Customer.id c := nextTimeout w]>)
    (set_timeouts
       (<[nextTimeout w := mkTimeoutTask (Customer.id c) (reminderDelay w)]>) S
       (set_logs
          (fun l => l ++ [(INFO, "Scheduling reminder check for "
                                 +:+ Customer.name c +:+ " in "
                                 +:+ (if demoMode w then "30 seconds" else "7 days"))])
          w)).

(** The envelope that [publishEvent] builds in a world, and the world
    after a publication that the broker accepted. *)
Definition envelope (body : EventBody) (w : World) : Event.t :=
  Event.mk (uuid_of (uuidCount w)) (clock w) body.

Definition published (topic : string) (body : EventBody) (w : World) : World :=
  set_logs
    (fun l => l ++ [(INFO, "Event published: "
                           +:+ EventType_name (eventType body)
                           +:+ " to " +:+ topic)])
    (set_producer
       (fun accepted =>
          accepted
          ++ [mkProducerRecord topic
                (string_or (data_customerId body) (uuid_of (uuidCount w)))
                (envelope body w) (eventType body) (uuid_of (uuidCount w))])
       (set_uuidCount S w)).

(** The world after an email that was printed and whose [EMAIL_SENT] event
    was accepted; [line] is the line of the logger. *)
Definition mailed (mail : EmailData) (line : string) (w : World) : World :=
  published topics.EMAIL_NOTIFICATIONS
    (EmailSent (mkEmailSentData (emailCustomerId mail) (type mail) mail (clock w)))
    (set_console (fun printed => printed ++ [mail])
       (set_logs (fun l => l ++ [(INFO, line)]) w)).

Definition welcomeMail (c : CustomerData.t) : EmailData :=
  mkEmailData (CustomerData.email c) welcome (CustomerData.id c) None.

(** [{ welcomeEmailSent: true, lastEmailSent: ... }] *)
Definition welcomeFlags (now : Timestamp) : WorkflowState.partial :=
  WorkflowState.mkPartial None None (Some true) None None (Some (Some now)).

(** [{ discountCodeSent: true, lastEmailSent: ... }] and
    [{ reminderSent: true, lastEmailSent: ... }] *)
Definition discountFlags (now : Timestamp) : WorkflowState.partial :=
  WorkflowState.mkPartial None None None (Some true) None (Some (Some now)).

Definition reminderFlags (now : Timestamp) : WorkflowState.partial :=
  WorkflowState.mkPartial None None None None (Some true) (Some (Some now)).

Definition discountMail (c : CustomerData.t) (p : option ProductVisit) : EmailData :=
  mkEmailData (CustomerData.email c) discount (CustomerData.id c)
    (Some (string_or (category <$> p) "amazing products")).

Definition reminderMail (c : CustomerData.t) : EmailData :=
  mkEmailData (CustomerData.email c) reminder (CustomerData.id c) None.

(** The flags that [executeWorkflowStep] sets and the email that it sends
    for one of the three actions. *)
Definition flagsOf (action : string) (now : Timestamp) : WorkflowState.partial :=
  if bool_decide (action = "SEND_WELCOME_EMAIL") then welcomeFlags now
  else if bool_decide (action = "SEND_DISCOUNT_EMAIL") then discountFlags now
  else reminderFlags now.

Definition mailOf (action : string) (c : CustomerData.t)
    (p : option ProductVisit) : EmailData :=
  if bool_decide (action = "SEND_WELCOME_EMAIL") then welcomeMail c
  else if bool_decide (action = "SEND_DISCOUNT_EMAIL") then discountMail c p
  else reminderMail c.

Definition knownAction (action : string) : Prop :=
  action = "SEND_WELCOME_EMAIL" \/ action = "SEND_DISCOUNT_EMAIL" \/
  action = "SEND_REMINDER_EMAIL".

(** The notification dispatch of a step fails: the email service throws
    on the email of the action, or the action is none of the three. *)
Definition dispatchFails (wd : WorkflowData) (c : Customer.t) (w : World) : Prop :=
  (action wd = "SEND_WELCOME_EMAIL" /\
   exists e, result (emailService.sendWelcomeEmail (Customer.toJSON c)) w = Throw e) \/
  (action wd = "SEND_DISCOUNT_EMAIL" /\
   exists e, result (emailService.sendDiscountEmail (Customer.toJSON c)
                       (productData wd)) w = Throw e) \/
  (action wd = "SEND_REMINDER_EMAIL" /\
   exists e, result (emailService.sendReminderEmail (Customer.toJSON c)) w = Throw e) \/
  (action wd <> "SEND_WELCOME_EMAIL" /\ action wd <> "SEND_DISCOUNT_EMAIL" /\
   action wd <> "SEND_REMINDER_EMAIL").

(** ** Sample data for concrete runs *)

Definition alice : CustomerData.t :=
  CustomerData.mk "c1" "alice@x.com" "Alice" (Some 5%Z) None ∅ None None.

(** A world whose broker accepts every record. *)
Definition acceptAll : nat -> option JsError := fun _ => None.

Definition offline : World := initialWorld acceptAll 100%Z true 30000%Z.
Definition online : World := set_isConnected true offline.

(** [{ currentStep: 0 }] *)
Definition resetCurrentStep : WorkflowState.partial :=
  WorkflowState.mkPartial (Some 0%Z) None None None None None.

(** The world at start-up, before any transition. *)
Definition startup : World := run [] offline.

(** Alice after the welcome, discount and reminder steps, and a world in
    which she is registered with an armed timeout. *)
Definition aliceDone : Customer.t :=
  Customer.markStepCompleted 3
    (Customer.markStepCompleted 2
       (Customer.markStepCompleted 1 (Customer.new 0 alice))).

Definition reminded : World :=
  set_timers (<["c1" := 0%nat]>)
    (set_timeouts (<[0%nat := mkTimeoutTask "c1" 30000]>) S
       (set_customers (<["c1" := aliceDone]>) online)).

Definition inactiveEvent : Event.t :=
  Event.mk "e1" 200 (CustomerInactive "c1").

Definition shoes : VisitData := mkVisitData "c1" "P1" "Runner" "Shoes" None.

Definition visitEvent : Event.t := Event.mk "e2" 300 (ProductPageVisit shoes).

Definition signupEvent : Event.t := Event.mk "e3" 400 (CustomerSignup alice).

(** The world after Alice signed up and got her welcome email. *)
Definition welcomed : World :=
  exec (workflowEngine.handleCustomerSignup alice) online.

(** A WORKFLOW_STEP event for a customer, with the snapshot of the
    customer in its payload. *)
Definition strayData : WorkflowData :=
  mkWorkflowData "c1" 1 "Send Welcome Email" "SEND_WELCOME_EMAIL"
    (Some alice) None.

Definition strayStep : Event.t := Event.mk "e4" 500 (WorkflowStepEvent strayData).

Definition aliceWelcomed : Customer.t :=
  Customer.markStepCompleted 1
    (Customer.updateWorkflowState (welcomeFlags 100) (Customer.new 100 alice)).

(** A workflow payload for step 2 with an action that the switch does not
    know. *)
Definition unknownAction : WorkflowData :=
  mkWorkflowData "c1" 2 "Send Discount Code" "SEND_SMS" None None.

(** A signup payload that carries a workflow state. *)
Definition returning : CustomerData.t :=
  CustomerData.mk "c1" "alice@x.com" "Alice" (Some 5%Z) None ∅
    (Some (WorkflowState.mk 3 [1%Z; 2%Z] true true false (Some 7%Z))) None.

(** A payload whose workflow state lists a step twice. *)
Definition duplicated : CustomerData.t :=
  CustomerData.mk "c1" "alice@x.com" "Alice" (Some 5%Z) None ∅
    (Some (WorkflowState.mk 2 [1%Z; 1%Z] true false false None)) None.

(** ** More of the sources *)

(** *** [src/services/emailService.ts]: [processEmailQueue] *)
Definition processEmailQueue (kind : string) (customer : CustomerData.t)
    (data : option ProductVisit) : Eff EmailData :=
  if bool_decide (kind = "welcome") then emailService.sendWelcomeEmail customer
  else if bool_decide (kind = "discount") then
    emailService.sendDiscountEmail customer data
  else if bool_decide (kind = "reminder") then
    emailService.sendReminderEmail customer
  else throw (mkError ("Unknown email type: " +:+ kind)).

(** *** [src/services/customerService.ts]: the commands *)

Record CustomerSignupRequest := mkCustomerSignupRequest {
  requestName : string;
  requestEmail : string;
  requestPreferences : option (gmap string string)
}.

Record ProductVisitRequest := mkProductVisitRequest {
  requestProductId : string;
  requestProductName : string;
  requestCategory : option string
}.

(** [BaseValidator.validateWithJoi]: [details] are the messages of
    [error.details] of [schema.validate(data, { abortEarly: false })],
    empty when the schema reports no error. *)
Definition validateWithJoi (details : list string) : ValidationResult :=
  match details with
  | [] => mkValidationResult true None
  | _ => mkValidationResult false (Some (String.concat ", " details))
  end.

(** The evaluations of the three Joi schemas of [CustomerValidator]. *)
Record JoiSchemas := mkJoiSchemas {
  customerIdSchema : string -> option string;
  customerSignupSchema : CustomerSignupRequest -> list string;
  productVisitSchema : ProductVisitRequest -> list string
}.

Definition createCustomer (joi : JoiSchemas) (signupData : CustomerSignupRequest)
    : Eff (ApiResponse.t CustomerData.t) :=
  tryCatch
    (let validation := validateWithJoi (customerSignupSchema joi signupData) in
     if negb (isValid validation) then
       mret (ApiResponse.mk false (validationError validation) None None)
     else
       id ← uuidv4;
       signupDate ← newDate;
       let customerData :=
         CustomerData.mk id (requestEmail signupData) (requestName signupData)
           (Some signupDate) None
           (default ∅ (requestPreferences signupData)) None None in
       eventService.publishCustomerSignup customerData;;
       logger.info ("New customer created: " +:+ CustomerData.name customerData
                    +:+ " (" +:+ CustomerData.email customerData +:+ ")");;
       mret (ApiResponse.mk true None
               (Some "Customer signup successful! Welcome email will be sent shortly.")
               (Some customerData)))
    (fun error =>
       logger.error "Customer creation error:";;
       mret (ApiResponse.mk false
               (Some "Internal server error during signup") None None)).

Definition recordProductVisit (joi : JoiSchemas) (customerId : string)
    (visitData : ProductVisitRequest) : Eff (ApiResponse.t VisitData) :=
  tryCatch
    (let customerIdValidation := validateCustomerId (customerIdSchema joi) customerId in
     if negb (isValid customerIdValidation) then
       mret (ApiResponse.mk false (validationError customerIdValidation) None None)
     else
       let visitValidation := validateWithJoi (productVisitSchema joi visitData) in
       if negb (isValid visitValidation) then
         mret (ApiResponse.mk false (validationError visitValidation) None None)
       else
         customer ← gets (workflowEngine.getCustomer customerId);
         match customer with
         | None => mret (ApiResponse.mk false (Some "Customer not found") None None)
         | Some customer =>
             visitedAt ← newDate;
             let fullVisitData :=
               mkVisitData customerId (requestProductId visitData)
                 (requestProductName visitData)
                 (string_or (requestCategory visitData) "General")
                 (Some visitedAt) in
             eventService.publishProductPageVisit fullVisitData;;
             logger.info ("Product page visit recorded: "
                          +:+ Customer.name customer +:+ " visited "
                          +:+ requestProductName visitData);;
             mret (ApiResponse.mk true None
                     (Some "Product page visit recorded! Discount email may be triggered.")
                     (Some fullVisitData))
         end)
    (fun error =>
       logger.error "Product page visit error:";;
       mret (ApiResponse.mk false
               (Some "Internal server error during product visit recording")
               None None)).

(** *** The customer controller

    [String.prototype.includes], and [getStatusCode].  A controller
    function answers with [res.status(statusCode).json(result)]: the pair
    of the status code and the body. *)
Fixpoint str_includes (sub s : string) : bool :=
  String.prefix sub s
  || match s with
     | EmptyString => false
     | String _ rest => str_includes sub rest
     end.

Definition getStatusCode (error : string) : nat :=
  if bool_decide (error = "Customer not found") then 404
  else if str_includes "required" error || str_includes "Invalid" error then 400
  else 500.

Module customerController.

Definition statusCode {T} (ok : nat) (r : ApiResponse.t T) : nat :=
  if ApiResponse.success r then ok
  else getStatusCode (string_or (ApiResponse.error r) "").


Definition productPageVisit (joi : JoiSchemas) (customerId : string)
    (body : ProductVisitRequest) : Eff (nat * ApiResponse.t VisitData) :=
  r ← recordProductVisit joi customerId body;
  mret (statusCode 200 r, r).

Definition getCustomer (joi : JoiSchemas) (customerId : string)
    : Eff (nat * ApiResponse.t CustomerData.t) :=
  r ← getCustomerById (customerIdSchema joi) customerId;
  mret (statusCode 200 r, r).

Definition getWorkflowStatus (joi : JoiSchemas) (customerId : string)
    : Eff (nat * ApiResponse.t WorkflowStatus.t) :=
  r ← getCustomerWorkflowStatus (customerIdSchema joi) customerId;
  mret (statusCode 200 r, r).

Definition simulateTimePassage (joi : JoiSchemas) (customerId : string)
    : Eff (nat * ApiResponse.t string) :=
  tryCatch
    (r ← simulateTimePassage (customerIdSchema joi) customerId;
     mret (statusCode 200 r, r))
    (fun error =>
       logger.error "Simulate time passage error:";;
       mret (500%nat,
             ApiResponse.mk false
               (Some "Internal server error during time simulation") None None)).

End customerController.

(** *** Vocabulary for the properties of these functions *)

(** Every entry of the registry is stored under its own id. *)
Definition registry_keyed (w : World) : Prop :=
  forall k c, customers w !! k = Some c -> Customer.id c = k.

(** A workflow event whose payload names the customer it carries. *)
Definition coherent (event : Event.t) : Prop :=
  match Event.body event with
  | WorkflowTrigger wd | WorkflowStepEvent wd =>
      forall data, customer wd = Some data -> CustomerData.id data = customerId wd
  | _ => True
  end.

Definition coherentTransition (t : Transition) : Prop :=
  match t with
  | Deliver _ event => coherent event
  | _ => True
  end.

(** A broker that rejects every record. *)
Definition rejectAll : nat -> option JsError :=
  fun _ => Some (mkError "broker unavailable").

(** Evaluations of the two object schemas for concrete runs, after the
    rules that [CustomerValidator] declares, with [abortEarly: false]: the
    messages of all keys, in the order of the keys.  An empty string is
    reported with the message configured for ['string.empty'], or with the
    default one; then the length rules apply (lengths are those of ASCII
    strings).  Of the email rule of Joi only the shape is represented: one
    '@' after a non-empty local part, and a domain of at least two
    non-empty segments; the registry of top-level domains that Joi
    consults is not.  The optional [preferences] of a signup are not
    examined. *)
Definition stringRule (s : string) (empty : string) (checks : list (bool * string))
    : list string :=
  if bool_decide (s = EmptyString) then [empty]
  else (filter (fun check => fst check = false) checks).*2.

(** [String.prototype.split] with a separator of one character. *)
Fixpoint splitOn (sep : Ascii.ascii) (s : string) : list string :=
  match s with
  | EmptyString => [EmptyString]
  | String c rest =>
      if Ascii.eqb c sep then EmptyString :: splitOn sep rest
      else match splitOn sep rest with
           | segment :: segments => String c segment :: segments
           | [] => [String c EmptyString]
           end
  end.

Definition emailShape (s : string) : bool :=
  match splitOn (Ascii.ascii_of_nat 64) s with
  | [localPart; domain] =>
      let segments := splitOn (Ascii.ascii_of_nat 46) domain in
      negb (String.eqb localPart EmptyString)
      && (2 <=? length segments)%nat
      && forallb (fun segment => negb (String.eqb segment EmptyString)) segments
  | _ => false
  end.

Definition joiCustomerSignupSchema (data : CustomerSignupRequest) : list string :=
  stringRule (requestName data) "Name is required"
    [((2 <=? String.length (requestName data))%nat,
      "Name must be at least 2 characters long");
     ((String.length (requestName data) <=? 100)%nat,
      "Name must not exceed 100 characters")]
  ++ stringRule (requestEmail data) "Email is required"
       [(emailShape (requestEmail data), "Invalid email format")].

Definition joiProductVisitSchema (data : ProductVisitRequest) : list string :=
  stringRule (requestProductId data) "Product ID is required" []
  ++ stringRule (requestProductName data) "Product name is required"
       [((2 <=? String.length (requestProductName data))%nat,
         "Product name must be at least 2 characters long");
        ((String.length (requestProductName data) <=? 200)%nat,
         "Product name must not exceed 200 characters")]
  ++ match requestCategory data with
     | None => []
     | Some category =>
         stringRule category (quoted "category" +:+ " is not allowed to be empty")
           [((String.length category <=? 50)%nat,
             "Category must not exceed 50 characters")]
     end.

Definition joiSchemas : JoiSchemas :=
  mkJoiSchemas joiCustomerIdSchema joiCustomerSignupSchema joiProductVisitSchema.

Definition aliceRequest : CustomerSignupRequest :=
  mkCustomerSignupRequest "Alice" "alice@x.com" None.

Definition shoesRequest : ProductVisitRequest :=
  mkProductVisitRequest "P1" "Runner" (Some "Shoes").

(** * Theorems *)

(** ** Reasoning about [Eff] *)

Lemma bind_run {A B} (m : Eff A) (k : A -> Eff B) w :
  (m ≫= k) w = match m w with
               | (Normal a, w') => k a w'
               | (Throw e, w') => (Throw e, w')
               end.
Proof. reflexivity. Qed.

Lemma tryCatch_logged (m : Eff unit) line w :
  result (tryCatch m (fun _ => logger.error line)) w = Normal tt.
Proof.
  unfold result, tryCatch. destruct (m w) as [[[] | e] w1]; reflexivity.
Qed.

Lemma preserves_ret {A} P (a : A) : preserves P (mret a).
Proof. intros w Hw. exact Hw. Qed.

Lemma preserves_throw {A} P e : preserves P (@throw A e).
Proof. intros w Hw. exact Hw. Qed.

Lemma preserves_gets {A} P (f : World -> A) : preserves P (gets f).
Proof. intros w Hw. exact Hw. Qed.

Lemma preserves_modify P f :
  (forall w, P w -> P (f w)) -> preserves P (modify f).
Proof. intros Hf w Hw. apply Hf, Hw. Qed.

Lemma preserves_bind {A B} P (m : Eff A) (k : A -> Eff B) :
  preserves P m -> (forall a, preserves P (k a)) -> preserves P (m ≫= k).
Proof.
  intros Hm Hk w Hw. specialize (Hm w Hw). unfold exec in *.
  rewrite bind_run. destruct (m w) as [[a | e] w']; cbn in *.
  - apply Hk, Hm.
  - exact Hm.
Qed.

Lemma preserves_tryCatch {A} P (m : Eff A) h :
  preserves P m -> (forall e, preserves P (h e)) -> preserves P (tryCatch m h).
Proof.
  intros Hm Hh w Hw. specialize (Hm w Hw). unfold exec, tryCatch in *.
  destruct (m w) as [[a | e] w']; cbn in *.
  - exact Hm.
  - apply Hh, Hm.
Qed.

Create HintDb preserves discriminated.

#[local] Hint Resolve preserves_ret preserves_throw preserves_gets : preserves.

(** One structural step of a preservation proof. *)
Ltac preserves_step :=
  lazymatch goal with
  | |- preserves _ (_ ≫= _) => apply preserves_bind; [| intros ?]
  | |- preserves _ (tryCatch _ _) => apply preserves_tryCatch; [| intros ?]
  | |- preserves _ (mret _) => apply preserves_ret
  | |- preserves _ (throw _) => apply preserves_throw
  | |- preserves _ (gets _) => apply preserves_gets
  | |- preserves _ (logger.info _) => apply preserves_modify; intros ? ?
  | |- preserves _ (logger.warn _) => apply preserves_modify; intros ? ?
  | |- preserves _ (logger.error _) => apply preserves_modify; intros ? ?
  | |- preserves _ (modify _) => apply preserves_modify; intros ? ?
  | |- preserves _ (match ?x with _ => _ end) => destruct x
  end.

Ltac frame_step :=
  cbv beta;
  first [ assumption
        | apply frame_logs | apply frame_producer | apply frame_console
        | apply frame_uuidCount | apply frame_customers ].

Ltac preserves_auto :=
  repeat first
    [ solve [eauto with preserves]
    | preserves_step
    | frame_step ].

Section Frames.
Context (P : World -> Prop) `{!EnvFrame P}.

Lemma uuidv4_preserves : preserves P uuidv4.
Proof. unfold uuidv4. preserves_auto. Qed.

Lemma producer_send_preserves r : preserves P (producer_send r).
Proof. unfold producer_send. preserves_auto. Qed.

Lemma console_log_preserves e : preserves P (console_log e).
Proof. unfold console_log. preserves_auto. Qed.

Lemma publishEvent_preserves topic body :
  preserves P (eventService.publishEvent topic body).
Proof.
  unfold eventService.publishEvent, newDate.
  pose proof uuidv4_preserves. pose proof producer_send_preserves.
  preserves_auto.
Qed.

Lemma sendWelcomeEmail_preserves c :
  preserves P (emailService.sendWelcomeEmail c).
Proof.
  unfold emailService.sendWelcomeEmail, eventService.publishEmailSent, newDate.
  pose proof publishEvent_preserves. pose proof console_log_preserves.
  preserves_auto.
Qed.

Lemma sendDiscountEmail_preserves c p :
  preserves P (emailService.sendDiscountEmail c p).
Proof.
  unfold emailService.sendDiscountEmail, eventService.publishEmailSent, newDate.
  pose proof publishEvent_preserves. pose proof console_log_preserves.
  preserves_auto.
Qed.

Lemma sendReminderEmail_preserves c :
  preserves P (emailService.sendReminderEmail c).
Proof.
  unfold emailService.sendReminderEmail, eventService.publishEmailSent, newDate.
  pose proof publishEvent_preserves. pose proof console_log_preserves.
  preserves_auto.
Qed.

Lemma switchAction_preserves a c p :
  preserves P (workflowEngine.switchAction a c p).
Proof.
  unfold workflowEngine.switchAction, newDate.
  pose proof sendWelcomeEmail_preserves. pose proof sendDiscountEmail_preserves.
  pose proof sendReminderEmail_preserves.
  preserves_auto.
Qed.

Context `{!RegistryFrame P}.

Lemma executeWorkflowStep_preserves wd :
  preserves P (workflowEngine.executeWorkflowStep wd).
Proof.
  unfold workflowEngine.executeWorkflowStep, workflowEngine.switchAction,
    workflowEngine.customerObjOf, newDate.
  pose proof sendWelcomeEmail_preserves. pose proof sendDiscountEmail_preserves.
  pose proof sendReminderEmail_preserves.
  preserves_auto.
Qed.

Lemma triggerWorkflowStep_preserves c step extra :
  preserves P (workflowEngine.triggerWorkflowStep c step extra).
Proof.
  unfold workflowEngine.triggerWorkflowStep, eventService.publishWorkflowStep.
  pose proof publishEvent_preserves. pose proof executeWorkflowStep_preserves.
  preserves_auto.
Qed.

End Frames.

(** Unfolding of the monad and of the primitives of the environment. *)
Ltac eff_run :=
  cbv [exec result mbind Eff_bind bind mret Eff_ret ret gets modify throw
       tryCatch logger.info logger.warn logger.error logger.log newDate
       uuidv4 producer_send setTimeout clearTimeout console_log];
  cbn [fst snd negb customers timers reminderDelay demoMode isConnected
       timeouts nextTimeout produced sendCount broker console logs clock
       uuidCount set_customers set_timers set_isConnected set_timeouts
       set_producer set_console set_logs set_uuidCount set_clock].

(** ** The timer table *)

#[local] Instance timers_wf_env : EnvFrame timers_wf.
Proof. split; intros; assumption. Qed.

#[local] Instance timers_wf_registry : RegistryFrame timers_wf.
Proof. intros f w Hw. exact Hw. Qed.

Lemma timers_wf_atMostOnePending w : timers_wf w -> atMostOnePending w.
Proof.
  intros [Hwf _] h1 h2 t1 t2 H1 H2 Heq.
  pose proof (Hwf _ _ H1) as E1. pose proof (Hwf _ _ H2) as E2.
  rewrite Heq in E1. congruence.
Qed.

Lemma cancelReminderTimer_run customerId w :
  workflowEngine.cancelReminderTimer customerId w
  = (Normal tt, cancelled customerId w).
Proof.
  unfold workflowEngine.cancelReminderTimer, cancelled. rewrite bind_run.
  cbn [gets]. destruct (timers w !! customerId); reflexivity.
Qed.

Lemma cancelled_timers customerId w :
  timers (cancelled customerId w) = delete customerId (timers w).
Proof.
  unfold cancelled. destruct (timers w !! customerId) eqn:E; cbn.
  - reflexivity.
  - symmetry. apply delete_id. exact E.
Qed.

Lemma cancelled_nextTimeout customerId w :
  nextTimeout (cancelled customerId w) = nextTimeout w.
Proof. unfold cancelled. destruct (timers w !! customerId); reflexivity. Qed.

Lemma cancelled_timeouts customerId w :
  timeouts (cancelled customerId w)
  = match timers w !! customerId with
    | Some timer => delete timer (timeouts w)
    | None => timeouts w
    end.
Proof. unfold cancelled. destruct (timers w !! customerId); reflexivity. Qed.

Lemma cancelled_wf customerId w : timers_wf w -> timers_wf (cancelled customerId w).
Proof.
  intros [Harmed Hbound]. unfold timers_wf.
  rewrite cancelled_timers, cancelled_nextTimeout, cancelled_timeouts.
  split.
  - intros h task Hl.
    assert (Hl' : timeouts w !! h = Some task).
    { destruct (timers w !! customerId); [| exact Hl].
      apply lookup_delete_Some in Hl as [_ Hl]. exact Hl. }
    pose proof (Harmed _ _ Hl') as Ht.
    rewrite lookup_delete_ne; [exact Ht |].
    intros ->. rewrite Ht in Hl. apply lookup_delete_Some in Hl as [Hne _].
    congruence.
  - intros k h [_ Hl]%lookup_delete_Some. apply (Hbound _ _ Hl).
Qed.

Lemma cancelReminderTimer_wf customerId :
  preserves timers_wf (workflowEngine.cancelReminderTimer customerId).
Proof.
  intros w Hw. unfold exec. rewrite cancelReminderTimer_run.
  apply cancelled_wf, Hw.
Qed.

Lemma scheduleReminderCheck_run c w :
  workflowEngine.scheduleReminderCheck c w
  = (Normal tt, armed c (cancelled (Customer.id c) w)).
Proof.
  unfold workflowEngine.scheduleReminderCheck. rewrite bind_run.
  rewrite cancelReminderTimer_run. reflexivity.
Qed.

Lemma armed_wf c w :
  timers_wf w -> timers w !! Customer.id c = None -> timers_wf (armed c w).
Proof.
  intros [Harmed Hbound] Hnone. unfold timers_wf, armed. eff_run. split.
  - intros h task.
    destruct (decide (h = nextTimeout w)) as [-> | Hne].
    + rewrite lookup_insert_eq. intros [= <-]. cbn.
      rewrite lookup_insert_eq. reflexivity.
    + rewrite lookup_insert_ne by congruence. intros Hl.
      pose proof (Harmed _ _ Hl) as Ht.
      rewrite lookup_insert_ne; [exact Ht |]. intros Heq.
      rewrite <- Heq in Ht. congruence.
  - intros k h. destruct (decide (k = Customer.id c)) as [-> | Hne].
    + rewrite lookup_insert_eq. intros [= <-]. lia.
    + rewrite lookup_insert_ne by congruence. intros Hl.
      pose proof (Hbound _ _ Hl). lia.
Qed.

Lemma scheduleReminderCheck_wf c :
  preserves timers_wf (workflowEngine.scheduleReminderCheck c).
Proof.
  intros w Hw. unfold exec. rewrite scheduleReminderCheck_run. cbn [snd].
  apply armed_wf.
  - apply cancelled_wf, Hw.
  - rewrite cancelled_timers. apply lookup_delete_eq.
Qed.

Lemma reminderCallback_wf task :
  preserves timers_wf (workflowEngine.reminderCallback task).
Proof.
  unfold workflowEngine.reminderCallback, eventService.publishCustomerInactive.
  pose proof (publishEvent_preserves timers_wf).
  preserves_auto.
Qed.

Lemma fireTimeout_wf h : preserves timers_wf (workflowEngine.fireTimeout h).
Proof.
  unfold workflowEngine.fireTimeout.
  pose proof reminderCallback_wf.
  apply preserves_bind; [apply preserves_gets | intros armedNow].
  destruct (armedNow !! h); [| apply preserves_ret].
  apply preserves_bind; [| auto].
  apply preserves_modify. intros w [Harmed Hbound]. unfold timers_wf.
  eff_run. split.
  - intros h' task' [Hne Hl]%lookup_delete_Some. apply (Harmed _ _ Hl).
  - exact Hbound.
Qed.

#[local] Hint Resolve cancelReminderTimer_wf scheduleReminderCheck_wf
  reminderCallback_wf fireTimeout_wf : preserves.

Lemma handleEvent_wf topic event :
  preserves timers_wf (workflowEngine.handleEvent topic event).
Proof.
  unfold workflowEngine.handleEvent, workflowEngine.handleCustomerSignup,
    workflowEngine.handleProductPageVisit,
    workflowEngine.handleCustomerInactive, newDate.
  pose proof (triggerWorkflowStep_preserves timers_wf).
  pose proof (executeWorkflowStep_preserves timers_wf).
  preserves_auto.
Qed.

Lemma simulateTimePassage_wf customerId :
  preserves timers_wf (workflowEngine.simulateTimePassage customerId).
Proof.
  unfold workflowEngine.simulateTimePassage,
    eventService.publishCustomerInactive.
  pose proof (publishEvent_preserves timers_wf).
  preserves_auto.
Qed.

Lemma transition_wf t w : timers_wf w -> timers_wf (transition t w).
Proof.
  destruct t; cbn [transition].
  - apply handleEvent_wf.
  - apply fireTimeout_wf.
  - apply simulateTimePassage_wf.
  - intros Hw; exact Hw.
  - intros Hw; exact Hw.
Qed.

Lemma run_wf ts w : timers_wf w -> timers_wf (run ts w).
Proof.
  revert w. induction ts as [| t ts IH]; intros w Hw; cbn.
  - exact Hw.
  - apply IH, transition_wf, Hw.
Qed.

Lemma initialWorld_wf brk now demo delay :
  timers_wf (initialWorld brk now demo delay).
Proof.
  split; cbn.
  - intros h task Hl. rewrite lookup_empty in Hl. discriminate.
  - intros k h Hl. rewrite lookup_empty in Hl. discriminate.
Qed.

(** ** The customer model *)

Lemma includes_true l x : Customer.includes l x = true <-> x ∈ l.
Proof. unfold Customer.includes. apply bool_decide_eq_true. Qed.

Lemma includes_false l x : Customer.includes l x = false <-> x ∉ l.
Proof. unfold Customer.includes. apply bool_decide_eq_false. Qed.

Lemma roundToDouble_exact x : (Z.abs x <= 2 ^ 53)%Z -> roundToDouble x = x.
Proof.
  intros Hx. unfold roundToDouble.
  destruct (Z.leb_spec (Z.log2 (Z.abs x) - 52) 0) as [He | He]; [reflexivity |].
  assert (Hpos : (0 < Z.abs x)%Z).
  { destruct (Z.eq_dec (Z.abs x) 0%Z) as [H0 | H0]; [| lia].
    rewrite H0 in He. cbn in He. lia. }
  assert (Hlow : (2 ^ 53 <= Z.abs x)%Z).
  { apply Z.log2_le_pow2; lia. }
  change (2 ^ 53)%Z with 9007199254740992%Z in *.
  assert (Hcases : x = 9007199254740992%Z \/ x = (- 9007199254740992)%Z) by lia.
  destruct Hcases as [-> | ->]; vm_compute; reflexivity.
Qed.

Lemma jsAdd_safe n : safeInteger n -> jsAdd n 1 = (n + 1)%Z.
Proof.
  unfold safeInteger, jsAdd. intros Hn. apply roundToDouble_exact.
  change (2 ^ 53)%Z with 9007199254740992%Z in *. lia.
Qed.

Lemma markStepCompleted_invariant n c :
  safeInteger n ->
  ws_invariant (Customer.workflowState c) ->
  ws_invariant (Customer.workflowState (Customer.markStepCompleted n c)).
Proof.
  intros Hn [Hnd Hle]. unfold ws_invariant, Customer.markStepCompleted.
  cbn [Customer.workflowState Customer.set_workflowState
       WorkflowState.completedSteps WorkflowState.currentStep].
  rewrite (jsAdd_safe n Hn).
  destruct (Customer.includes (WorkflowState.completedSteps _) n) eqn:Hin;
    cbn [negb]; split.
  - assumption.
  - intros s Hs. specialize (Hle s Hs). lia.
  - apply includes_false in Hin. apply NoDup_app. repeat split.
    + assumption.
    + intros x Hx Hx'. apply list_elem_of_singleton in Hx'. congruence.
    + apply NoDup_singleton.
  - intros s Hs. apply elem_of_app in Hs as [Hs | Hs].
    + specialize (Hle s Hs). lia.
    + apply list_elem_of_singleton in Hs. lia.
Qed.

Lemma markStepCompleted_currentStep n c :
  (currentStepOf c <= currentStepOf (Customer.markStepCompleted n c))%Z.
Proof.
  unfold currentStepOf, Customer.markStepCompleted.
  cbn [Customer.workflowState Customer.set_workflowState
       WorkflowState.currentStep].
  lia.
Qed.

Lemma markStepCompleted_completed n c :
  Customer.isStepCompleted n (Customer.markStepCompleted n c) = true.
Proof.
  unfold Customer.isStepCompleted, Customer.markStepCompleted.
  cbn [Customer.workflowState Customer.set_workflowState
       WorkflowState.completedSteps].
  destruct (Customer.includes (WorkflowState.completedSteps _) n) eqn:Hin;
    cbn [negb]; [exact Hin |].
  apply includes_true, elem_of_app. right. apply list_elem_of_singleton.
  reflexivity.
Qed.

Lemma apply_keepsProgress_invariant o c :
  keepsProgress o -> safeStep o ->
  ws_invariant (Customer.workflowState c) ->
  ws_invariant (Customer.workflowState (Customer.apply o c)).
Proof.
  destruct o as [n | u]; cbn [keepsProgress safeStep Customer.apply].
  - intros _. apply markStepCompleted_invariant.
  - intros [Hc Hs] _ Hinv. unfold ws_invariant, WorkflowState.spread in *.
    cbn. rewrite Hc, Hs. cbn. exact Hinv.
Qed.

Lemma apply_keepsProgress_currentStep o c :
  keepsProgress o ->
  (currentStepOf c <= currentStepOf (Customer.apply o c))%Z.
Proof.
  destruct o as [n | u]; cbn [keepsProgress Customer.apply].
  - intros _. apply markStepCompleted_currentStep.
  - intros [Hc _]. unfold currentStepOf, WorkflowState.spread. cbn.
    rewrite Hc. cbn. lia.
Qed.

Lemma run_snoc ops o c :
  Customer.run (ops ++ [o]) c = Customer.apply o (Customer.run ops c).
Proof. unfold Customer.run. rewrite foldl_app. reflexivity. Qed.

Lemma run_keepsProgress_invariant ops c :
  Forall keepsProgress ops -> Forall safeStep ops ->
  ws_invariant (Customer.workflowState c) ->
  ws_invariant (Customer.workflowState (Customer.run ops c)).
Proof.
  induction ops as [| o ops IH] using rev_ind; intros Hops Hsafe Hinv.
  - exact Hinv.
  - apply Forall_app in Hops as [Hops Ho].
    apply Forall_app in Hsafe as [Hsafe Hso]. rewrite run_snoc.
    apply apply_keepsProgress_invariant; [| | auto].
    + inversion Ho; assumption.
    + inversion Hso; assumption.
Qed.

Lemma new_invariant now data :
  (forall ws, CustomerData.workflowState data = Some ws -> ws_invariant ws) ->
  ws_invariant (Customer.workflowState (Customer.new now data)).
Proof.
  intros H. unfold ws_invariant. cbn.
  destruct (CustomerData.workflowState data) as [ws |]; cbn.
  - apply H. reflexivity.
  - split; [apply NoDup_nil_2 | intros s Hs; inversion Hs].
Qed.

(** C2, the claim as stated fails.  After [markStepCompleted(1)] the call
    [updateWorkflowState({ currentStep: 0 })] lowers the current step from
    2 to 0, below the completed step 1; a customer constructed from data
    whose workflow state lists step 1 twice has a duplicate from the
    start; and [markStepCompleted(2^53)] leaves the current step at 2^53,
    the completed id itself, because [2^53 + 1] is not a double. *)
Lemma C2_counterexample :
  let c := Customer.new 0 alice in
  let ops := [Customer.MarkStepCompleted 1;
              Customer.UpdateWorkflowState resetCurrentStep] in
  ~ ws_invariant (Customer.workflowState (Customer.run ops c)) /\
  (currentStepOf (Customer.run ops c)
   < currentStepOf (Customer.run [Customer.MarkStepCompleted 1] c))%Z /\
  ~ ws_invariant (Customer.workflowState (Customer.new 0 duplicated)) /\
  ~ ws_invariant
      (Customer.workflowState
         (Customer.run [Customer.MarkStepCompleted (2 ^ 53)] c)).
Proof.
  cbn zeta. split; [| split; [| split]].
  - intros [_ Hle]. specialize (Hle 1%Z).
    assert (1 + 1 <= 0)%Z; [| lia].
    apply Hle. vm_compute. apply list_elem_of_here.
  - vm_compute. reflexivity.
  - intros [Hnd _]. cbn in Hnd. apply NoDup_cons in Hnd as [Hnotin _].
    apply Hnotin. apply list_elem_of_here.
  - intros [_ Hle]. specialize (Hle (2 ^ 53)%Z).
    assert (2 ^ 53 + 1 <= 2 ^ 53)%Z; [| lia].
    apply Hle. vm_compute. apply list_elem_of_here.
Qed.

(** C2 (amended).  For a customer constructed from data that carries no
    workflow state, or one that satisfies the invariant, and for every
    sequence of [markStepCompleted] calls whose step ids are safe integers
    (below 2^53 in magnitude, where [stepNumber + 1] is exact) and of
    [updateWorkflowState] calls that do not assign [currentStep] or
    [completedSteps]: after every prefix of the sequence no step id occurs
    twice in [completedSteps] and [currentStep] is at least every
    completed step id plus one, and no operation of the sequence decreases
    [currentStep]. *)
Theorem C2_invariant_of_progress_preserving_operations now data ops :
  (forall ws, CustomerData.workflowState data = Some ws -> ws_invariant ws) ->
  Forall keepsProgress ops ->
  Forall safeStep ops ->
  let c := Customer.new now data in
  ws_invariant (Customer.workflowState (Customer.run ops c)) /\
  forall pre o post, ops = pre ++ o :: post ->
    ws_invariant (Customer.workflowState (Customer.run pre c)) /\
    (currentStepOf (Customer.run pre c)
     <= currentStepOf (Customer.run (pre ++ [o]) c))%Z.
Proof.
  intros Hdata Hops Hsafe c. split.
  - apply run_keepsProgress_invariant; [assumption | assumption |].
    apply new_invariant, Hdata.
  - intros pre o post ->. apply Forall_app in Hops as [Hpre Ho].
    apply Forall_app in Hsafe as [Hspre _].
    split.
    + apply run_keepsProgress_invariant; [assumption | assumption |].
      apply new_invariant, Hdata.
    + rewrite run_snoc. apply apply_keepsProgress_currentStep.
      inversion Ho; assumption.
Qed.

Lemma C2_witness :
  let c := Customer.new 0 alice in
  let ops := [Customer.MarkStepCompleted 1;
              Customer.UpdateWorkflowState (welcomeFlags 9);
              Customer.MarkStepCompleted 1;
              Customer.MarkStepCompleted 3] in
  ws_invariant (Customer.workflowState (Customer.run ops c)) /\
  forall pre o post, ops = pre ++ o :: post ->
    ws_invariant (Customer.workflowState (Customer.run pre c)) /\
    (currentStepOf (Customer.run pre c)
     <= currentStepOf (Customer.run (pre ++ [o]) c))%Z.
Proof.
  apply (C2_invariant_of_progress_preserving_operations 0 alice).
  - intros ws H. discriminate H.
  - repeat constructor.
  - repeat constructor; unfold safeInteger; cbn; lia.
Defined.

(** C8.  In every world that the engine reaches from start-up there is at
    most one armed timeout per customer id, and the timer table records
    it; [scheduleReminderCheck] first cancels the timer that the table
    records for the customer (its timeout is no longer armed afterwards)
    and then arms a new one, which the table records; and
    [cancelReminderTimer] for an id without an entry in the timer table
    returns and leaves the world, the timer table included, unchanged. *)
Theorem C8_at_most_one_pending_timer_per_customer :
  (forall brk now demo delay ts,
     let w := run ts (initialWorld brk now demo delay) in
     timers_wf w /\ atMostOnePending w) /\
  (forall w c,
     timers_wf w ->
     let w' := exec (workflowEngine.scheduleReminderCheck c) w in
     w' = armed c (exec (workflowEngine.cancelReminderTimer (Customer.id c)) w) /\
     (forall h, timers w !! Customer.id c = Some h -> timeouts w' !! h = None) /\
     timers w' !! Customer.id c = Some (nextTimeout w) /\
     timeouts w' !! nextTimeout w
       = Some (mkTimeoutTask (Customer.id c) (reminderDelay w)) /\
     timers_wf w' /\ atMostOnePending w') /\
  (forall w customerId,
     timers w !! customerId = None ->
     workflowEngine.cancelReminderTimer customerId w = (Normal tt, w)).
Proof.
  split; [| split].
  - intros brk now demo delay ts w.
    assert (timers_wf w) by apply run_wf, initialWorld_wf.
    split; [assumption | apply timers_wf_atMostOnePending; assumption].
  - intros w c Hwf w'.
    assert (Hw' : w' = armed c (cancelled (Customer.id c) w)).
    { unfold w', exec. rewrite scheduleReminderCheck_run. reflexivity. }
    assert (Hwf' : timers_wf w').
    { apply scheduleReminderCheck_wf, Hwf. }
    assert (Hnext : nextTimeout (cancelled (Customer.id c) w) = nextTimeout w)
      by apply cancelled_nextTimeout.
    assert (Hdelay : reminderDelay (cancelled (Customer.id c) w) = reminderDelay w).
    { unfold cancelled. destruct (timers w !! Customer.id c); reflexivity. }
    split; [| split; [| split; [| split; [| split]]]].
    + rewrite Hw'. unfold exec. rewrite cancelReminderTimer_run. reflexivity.
    + intros h Hh. rewrite Hw'. unfold armed. eff_run.
      rewrite Hnext, cancelled_timeouts, Hh.
      destruct Hwf as [_ Hbound]. pose proof (Hbound _ _ Hh).
      rewrite lookup_insert_ne by lia. apply lookup_delete_eq.
    + rewrite Hw'. unfold armed. eff_run. rewrite Hnext.
      apply lookup_insert_eq.
    + rewrite Hw'. unfold armed. eff_run. rewrite Hnext, Hdelay.
      apply lookup_insert_eq.
    + exact Hwf'.
    + apply timers_wf_atMostOnePending, Hwf'.
  - intros w customerId Hnone. rewrite cancelReminderTimer_run.
    unfold cancelled. rewrite Hnone. reflexivity.
Qed.

Lemma C8_witness :
  timers startup !! "c1" = None /\
  workflowEngine.cancelReminderTimer "c1" startup = (Normal tt, startup) /\
  timeouts (exec (workflowEngine.scheduleReminderCheck (Customer.new 0 alice))
              (exec (workflowEngine.scheduleReminderCheck (Customer.new 0 alice))
                 startup)) !! 0%nat = None.
Proof.
  destruct C8_at_most_one_pending_timer_per_customer as (Hreach & Hsched & Hcancel).
  split; [reflexivity |]. split.
  - apply Hcancel. reflexivity.
  - destruct (Hreach acceptAll 100%Z true 30000%Z []) as [Hwf0 _].
    destruct (Hsched startup (Customer.new 0 alice) Hwf0)
      as (_ & _ & Htable & _ & Hwf1 & _).
    destruct (Hsched _ (Customer.new 0 alice) Hwf1) as (_ & Hold & _).
    apply Hold. exact Htable.
Defined.

(** ** The event service *)

Lemma uuid_of_inj n m : uuid_of n = uuid_of m -> n = m.
Proof.
  unfold uuid_of. cbn. intros H. injection H as H.
  exact (inj pretty _ _ H).
Qed.

(** C5.  [publishEvent] throws 'Event service not connected' when
    [isConnected] is false, and then draws no id, reads no clock and sends
    nothing: the world is unchanged.  When connected and the send is
    accepted, it returns the envelope that carries the next id of the
    generator (different from every id drawn before), the given type, the
    clock reading and the given payload, and that envelope is the value
    of the record handed to the producer. *)
Theorem C5_publishEvent_connection_gate topic body w :
  (isConnected w = false ->
   eventService.publishEvent topic body w
   = (Throw (mkError "Event service not connected"), w)) /\
  (isConnected w = true -> broker w (sendCount w) = None ->
   let event := Event.mk (uuid_of (uuidCount w)) (clock w) body in
   let w' := exec (eventService.publishEvent topic body) w in
   result (eventService.publishEvent topic body) w = Normal event /\
   Event.type event = eventType body /\
   Event.body event = body /\
   Event.timestamp event = clock w /\
   (forall n, (n < uuidCount w)%nat -> uuid_of n <> Event.id event) /\
   uuidCount w' = S (uuidCount w) /\
   produced w'
   = produced w
     ++ [mkProducerRecord topic
           (string_or (data_customerId body) (Event.id event))
           event (eventType body) (Event.id event)]).
Proof.
  split.
  - intros Hoff. unfold eventService.publishEvent. rewrite bind_run.
    cbn [gets]. rewrite Hoff. reflexivity.
  - intros Hon Hok event w'. subst event w'.
    unfold eventService.publishEvent. eff_run. rewrite Hon. cbn [negb].
    eff_run. rewrite Hok. eff_run.
    repeat split.
    intros n Hn Heq. apply uuid_of_inj in Heq. cbn in Heq. lia.
Qed.

Lemma C5_witness :
  eventService.publishEvent topics.CUSTOMER_EVENTS (CustomerInactive "c1") offline
  = (Throw (mkError "Event service not connected"), offline) /\
  result (eventService.publishEvent topics.CUSTOMER_EVENTS (CustomerInactive "c1"))
    online
  = Normal (Event.mk (uuid_of 0) 100 (CustomerInactive "c1")).
Proof.
  split.
  - apply (C5_publishEvent_connection_gate _ _ offline). reflexivity.
  - apply (C5_publishEvent_connection_gate _ _ online); reflexivity.
Defined.

(** ** The handlers *)

Lemma cancelled_console customerId w :
  console (cancelled customerId w) = console w.
Proof. unfold cancelled. destruct (timers w !! customerId); reflexivity. Qed.

Lemma cancelled_produced customerId w :
  produced (cancelled customerId w) = produced w.
Proof. unfold cancelled. destruct (timers w !! customerId); reflexivity. Qed.

Lemma cancelled_customers customerId w :
  customers (cancelled customerId w) = customers w.
Proof. unfold cancelled. destruct (timers w !! customerId); reflexivity. Qed.

Lemma publishEvent_offline topic body w :
  isConnected w = false ->
  eventService.publishEvent topic body w
  = (Throw (mkError "Event service not connected"), w).
Proof.
  intros Hoff. unfold eventService.publishEvent. rewrite bind_run.
  cbn [gets]. rewrite Hoff. reflexivity.
Qed.

Lemma publishEvent_accepted topic body w :
  isConnected w = true -> broker w (sendCount w) = None ->
  eventService.publishEvent topic body w
  = (Normal (envelope body w), published topic body w).
Proof.
  intros Hon Hok. unfold eventService.publishEvent. eff_run.
  rewrite Hon. eff_run. rewrite Hok. reflexivity.
Qed.

Lemma published_core topic body w :
  customers (published topic body w) = customers w /\
  timers (published topic body w) = timers w /\
  timeouts (published topic body w) = timeouts w /\
  nextTimeout (published topic body w) = nextTimeout w /\
  isConnected (published topic body w) = isConnected w /\
  broker (published topic body w) = broker w /\
  sendCount (published topic body w) = S (sendCount w) /\
  console (published topic body w) = console w /\
  clock (published topic body w) = clock w.
Proof. repeat split. Qed.

Lemma sendWelcomeEmail_accepted c w :
  isConnected w = true -> broker w (sendCount w) = None ->
  emailService.sendWelcomeEmail c w
  = (Normal (welcomeMail c),
     mailed (welcomeMail c)
       ("Welcome email sent to " +:+ CustomerData.name c
        +:+ " (" +:+ CustomerData.email c +:+ ")") w).
Proof.
  intros Hon Hok. unfold emailService.sendWelcomeEmail,
    eventService.publishEmailSent. eff_run.
  rewrite publishEvent_accepted by assumption. reflexivity.
Qed.

Lemma switchAction_welcome c p :
  workflowEngine.switchAction "SEND_WELCOME_EMAIL" c p
  = (emailService.sendWelcomeEmail (Customer.toJSON c);;
     now ← newDate;
     mret (Customer.updateWorkflowState (welcomeFlags now) c)).
Proof. reflexivity. Qed.

Lemma customerObjOf_found wd c w :
  customers w !! customerId wd = Some c ->
  workflowEngine.customerObjOf wd w = (Normal c, w).
Proof.
  intros Hc. unfold workflowEngine.customerObjOf. eff_run. rewrite Hc.
  reflexivity.
Qed.

Lemma customerObjOf_rebuilt wd data w :
  customers w !! customerId wd = None ->
  customer wd = Some data ->
  workflowEngine.customerObjOf wd w = (Normal (Customer.new (clock w) data), w).
Proof.
  intros Hc Hdata. unfold workflowEngine.customerObjOf. eff_run.
  rewrite Hc, Hdata. reflexivity.
Qed.

Lemma executeWorkflowStep_welcome wd c w :
  workflowEngine.customerObjOf wd w = (Normal c, w) ->
  action wd = "SEND_WELCOME_EMAIL" ->
  isConnected w = true -> broker w (sendCount w) = None ->
  exists w',
    workflowEngine.executeWorkflowStep wd w = (Normal tt, w') /\
    customers w'
    = <[customerId wd :=
          Customer.markStepCompleted (stepId wd)
            (Customer.updateWorkflowState (welcomeFlags (clock w)) c)]>
        (customers w) /\
    console w' = console w ++ [welcomeMail (Customer.toJSON c)] /\
    timers w' = timers w /\ timeouts w' = timeouts w /\
    nextTimeout w' = nextTimeout w /\ reminderDelay w' = reminderDelay w /\
    demoMode w' = demoMode w.
Proof.
  intros Hc Hact Hon Hok.
  unfold workflowEngine.executeWorkflowStep.
  rewrite bind_run, Hc, Hact, switchAction_welcome. eff_run.
  rewrite sendWelcomeEmail_accepted by assumption.
  eexists. split; [reflexivity |]. repeat split.
Qed.

Lemma triggerWorkflowStep_welcome c w :
  customers w !! Customer.id c = Some c ->
  isConnected w = true ->
  broker w (sendCount w) = None -> broker w (S (sendCount w)) = None ->
  exists w',
    workflowEngine.triggerWorkflowStep c workflowSteps.STEP_1_WELCOME None w
    = (Normal tt, w') /\
    customers w'
    = <[Customer.id c :=
          Customer.markStepCompleted 1
            (Customer.updateWorkflowState (welcomeFlags (clock w)) c)]>
        (customers w) /\
    console w' = console w ++ [welcomeMail (Customer.toJSON c)] /\
    timers w' = timers w /\ timeouts w' = timeouts w /\
    nextTimeout w' = nextTimeout w /\ reminderDelay w' = reminderDelay w /\
    demoMode w' = demoMode w.
Proof.
  intros Hc Hon Hb1 Hb2.
  unfold workflowEngine.triggerWorkflowStep, eventService.publishWorkflowStep.
  eff_run. rewrite publishEvent_accepted by assumption.
  match goal with
  | |- context [workflowEngine.executeWorkflowStep ?wd ?w1] =>
      destruct (executeWorkflowStep_welcome wd c w1)
        as (w' & Hrun & Hcust & Hcons & Htim & Htos & Hnext & Hdel & Hdemo);
      [apply customerObjOf_found; exact Hc | reflexivity | exact Hon
      | exact Hb2 |]
  end.
  rewrite Hrun. exists w'. split; [reflexivity |].
  repeat split; assumption.
Qed.

Lemma handleCustomerSignup_success data w :
  isConnected w = true ->
  broker w (sendCount w) = None -> broker w (S (sendCount w)) = None ->
  let c0 := Customer.new (clock w) data in
  let c1 := Customer.markStepCompleted 1
              (Customer.updateWorkflowState (welcomeFlags (clock w)) c0) in
  let w' := exec (workflowEngine.handleCustomerSignup data) w in
  result (workflowEngine.handleCustomerSignup data) w = Normal tt /\
  customers w' = <[CustomerData.id data := c1]>
                   (<[CustomerData.id data := c0]> (customers w)) /\
  console w' = console w ++ [welcomeMail data] /\
  timers w' !! CustomerData.id data = Some (nextTimeout w) /\
  timeouts w' !! nextTimeout w
  = Some (mkTimeoutTask (CustomerData.id data) (reminderDelay w)).
Proof.
  intros Hon Hb1 Hb2 c0 c1 w'. subst w'.
  unfold workflowEngine.handleCustomerSignup. eff_run. fold c0.
  match goal with
  | |- context [workflowEngine.triggerWorkflowStep c0 _ None ?w1] =>
      destruct (triggerWorkflowStep_welcome c0 w1)
        as (w' & Hrun & Hcust & Hcons & Htim & Htos & Hnext & Hdel & Hdemo);
      [apply lookup_insert_eq | exact Hon | exact Hb1 | exact Hb2 |]
  end.
  rewrite Hrun. rewrite scheduleReminderCheck_run. cbn [fst snd].
  unfold armed. eff_run.
  rewrite cancelled_customers, cancelled_console, cancelled_nextTimeout.
  assert (Hdel' : forall k v, reminderDelay (cancelled k v) = reminderDelay v).
  { intros k v. unfold cancelled. destruct (timers v !! k); reflexivity. }
  rewrite Hdel', Hnext, Hdel.
  repeat split.
  - exact Hcust.
  - exact Hcons.
  - apply lookup_insert_eq.
  - apply lookup_insert_eq.
Qed.

(** C7.  After [handleCustomerSignup] has handled the signup of a new
    customer (the data carry no workflow state) with the event service
    connected and both sends accepted, so that the welcome email is
    dispatched, [getWorkflowStatus] for the customer shows step 1
    completed, steps 2 and 3 not completed, [completedSteps = [1]],
    [currentStep = 2] and [hasActiveReminder = true]; the timer table
    records a timeout for the customer and that timeout is armed. *)
Theorem C7_signup_then_workflow_status data w :
  CustomerData.workflowState data = None ->
  isConnected w = true ->
  broker w (sendCount w) = None -> broker w (S (sendCount w)) = None ->
  let w' := exec (workflowEngine.handleCustomerSignup data) w in
  result (workflowEngine.handleCustomerSignup data) w = Normal tt /\
  console w' = console w ++ [welcomeMail data] /\
  (exists h, timers w' !! CustomerData.id data = Some h /\
             timeouts w' !! h
             = Some (mkTimeoutTask (CustomerData.id data) (reminderDelay w))) /\
  exists status,
    workflowEngine.getWorkflowStatus (CustomerData.id data) w' = Some status /\
    let workflow := WorkflowStatus.workflow status in
    (fun s => (WorkflowStatus.id s, WorkflowStatus.completed s))
      <$> WorkflowStatus.steps workflow
    = [(1%Z, true); (2%Z, false); (3%Z, false)] /\
    WorkflowStatus.completedSteps workflow = [1%Z] /\
    WorkflowStatus.currentStep workflow = 2%Z /\
    WorkflowStatus.hasActiveReminder workflow = true.
Proof.
  intros Hnew Hon Hb1 Hb2 w'.
  destruct (handleCustomerSignup_success data w Hon Hb1 Hb2)
    as (Hres & Hcust & Hcons & Htimer & Harmed).
  fold w' in Hcust, Hcons, Htimer, Harmed.
  split; [exact Hres |]. split; [exact Hcons |].
  split; [exists (nextTimeout w); split; assumption |].
  unfold workflowEngine.getWorkflowStatus.
  rewrite Hcust, lookup_insert_eq, Htimer.
  assert (Hws : Customer.workflowState (Customer.new (clock w) data)
                = Customer.initialWorkflowState).
  { cbn. rewrite Hnew. reflexivity. }
  eexists. split; [reflexivity |].
  unfold Customer.isStepCompleted, Customer.markStepCompleted,
    Customer.updateWorkflowState.
  cbn [WorkflowStatus.workflow WorkflowStatus.steps WorkflowStatus.completedSteps
       WorkflowStatus.currentStep WorkflowStatus.hasActiveReminder
       Customer.workflowState Customer.set_workflowState].
  rewrite Hws. repeat split.
Qed.

Lemma C7_witness :
  exists status,
    workflowEngine.getWorkflowStatus "c1"
      (exec (workflowEngine.handleCustomerSignup alice) online) = Some status /\
    let workflow := WorkflowStatus.workflow status in
    (fun s => (WorkflowStatus.id s, WorkflowStatus.completed s))
      <$> WorkflowStatus.steps workflow
    = [(1%Z, true); (2%Z, false); (3%Z, false)] /\
    WorkflowStatus.completedSteps workflow = [1%Z] /\
    WorkflowStatus.currentStep workflow = 2%Z /\
    WorkflowStatus.hasActiveReminder workflow = true.
Proof.
  apply (C7_signup_then_workflow_status alice online); reflexivity.
Defined.

Lemma handleCustomerInactive_completed customerId c w :
  customers w !! customerId = Some c ->
  Customer.isStepCompleted 3 c = true ->
  workflowEngine.handleCustomerInactive customerId w = (Normal tt, w).
Proof.
  intros Hc Hdone. unfold workflowEngine.handleCustomerInactive. eff_run.
  rewrite Hc, Hdone. reflexivity.
Qed.

Lemma handleEvent_inactive_completed topic event customerId c w :
  Event.body event = CustomerInactive customerId ->
  customers w !! customerId = Some c ->
  Customer.isStepCompleted 3 c = true ->
  workflowEngine.handleEvent topic event w
  = (Normal tt,
     set_logs (fun l => l ++ [(INFO, "Processing workflow event: CUSTOMER_INACTIVE for customer "
                                     +:+ customerId)]) w).
Proof.
  intros Hbody Hc Hdone. unfold workflowEngine.handleEvent, Event.type.
  rewrite Hbody. eff_run.
  rewrite (handleCustomerInactive_completed customerId c) by assumption.
  reflexivity.
Qed.

Lemma fireTimeout_completed h task c w :
  timeouts w !! h = Some task ->
  customers w !! taskCustomerId task = Some c ->
  Customer.isStepCompleted 3 c = true ->
  workflowEngine.fireTimeout h w
  = (Normal tt, set_timeouts (delete h) (fun next => next) w).
Proof.
  intros Hh Hc Hdone.
  unfold workflowEngine.fireTimeout, workflowEngine.reminderCallback.
  eff_run. rewrite Hh. eff_run. rewrite Hc, Hdone. reflexivity.
Qed.

(** C6.  When step 3 is in the completed set of the customer of an armed
    timeout, firing the timeout only forgets the timeout: no
    customer-inactive event (no record at all) goes to the producer and no
    email is printed.  Handling a CUSTOMER_INACTIVE event for a customer
    whose completed set holds step 3 only writes the log line of
    [handleEvent]: nothing is published and no reminder is sent. *)
Theorem C6_no_reminder_once_step_3_is_completed w c :
  Customer.isStepCompleted 3 c = true ->
  (forall h task,
     timeouts w !! h = Some task ->
     customers w !! taskCustomerId task = Some c ->
     let w' := exec (workflowEngine.fireTimeout h) w in
     workflowEngine.fireTimeout h w
     = (Normal tt, set_timeouts (delete h) (fun next => next) w) /\
     produced w' = produced w /\ console w' = console w /\
     customers w' = customers w) /\
  (forall topic event customerId,
     Event.body event = CustomerInactive customerId ->
     customers w !! customerId = Some c ->
     let w' := exec (workflowEngine.handleEvent topic event) w in
     result (workflowEngine.handleEvent topic event) w = Normal tt /\
     produced w' = produced w /\ console w' = console w /\
     customers w' = customers w /\ timers w' = timers w /\
     timeouts w' = timeouts w).
Proof.
  intros Hdone. split.
  - intros h task Hh Hc w'. subst w'. unfold exec.
    rewrite (fireTimeout_completed h task c) by assumption.
    repeat split.
  - intros topic event customerId Hbody Hc w'. subst w'. unfold exec, result.
    rewrite (handleEvent_inactive_completed topic event customerId c)
      by assumption.
    repeat split.
Qed.

Lemma C6_witness :
  workflowEngine.fireTimeout 0 reminded
  = (Normal tt, set_timeouts (delete 0%nat) (fun next => next) reminded) /\
  produced (exec (workflowEngine.handleEvent topics.CUSTOMER_EVENTS inactiveEvent)
              reminded)
  = produced reminded.
Proof.
  destruct (C6_no_reminder_once_step_3_is_completed reminded aliceDone eq_refl)
    as [Hfire Hevent].
  split.
  - apply (Hfire 0%nat (mkTimeoutTask "c1" 30000)); reflexivity.
  - apply (Hevent topics.CUSTOMER_EVENTS inactiveEvent "c1"); reflexivity.
Defined.

Lemma handleProductPageVisit_completed visit c w :
  customers w !! visitCustomerId visit = Some c ->
  Customer.isStepCompleted 2 c = true ->
  let w' := exec (workflowEngine.handleProductPageVisit visit) w in
  result (workflowEngine.handleProductPageVisit visit) w = Normal tt /\
  console w' = console w /\ produced w' = produced w.
Proof.
  intros Hc Hdone w'. subst w'.
  unfold workflowEngine.handleProductPageVisit. eff_run. rewrite Hc.
  eff_run.
  change (Customer.isStepCompleted 2
            (Customer.set_metadata _ (Customer.updateLastActivity _ c)))
    with (Customer.isStepCompleted 2 c).
  rewrite Hdone. eff_run.
  rewrite cancelReminderTimer_run, scheduleReminderCheck_run. cbn [fst snd].
  unfold armed. eff_run.
  rewrite !cancelled_console, !cancelled_produced. repeat split.
Qed.

Lemma run_eta {A} (m : Eff A) w : m w = (result m w, exec m w).
Proof. unfold result, exec. destruct (m w); reflexivity. Qed.

Lemma handleEvent_signup_success topic event data w :
  Event.body event = CustomerSignup data ->
  isConnected w = true ->
  broker w (sendCount w) = None -> broker w (S (sendCount w)) = None ->
  let w' := exec (workflowEngine.handleEvent topic event) w in
  result (workflowEngine.handleEvent topic event) w = Normal tt /\
  console w' = console w ++ [welcomeMail data] /\
  customers w' !! CustomerData.id data
  = Some (Customer.markStepCompleted 1
            (Customer.updateWorkflowState (welcomeFlags (clock w))
               (Customer.new (clock w) data))).
Proof.
  intros Hbody Hon Hb1 Hb2 w'. subst w'.
  unfold workflowEngine.handleEvent, Event.type. rewrite Hbody. eff_run.
  match goal with
  | |- context [workflowEngine.handleCustomerSignup data ?w1] =>
      destruct (handleCustomerSignup_success data w1 Hon Hb1 Hb2)
        as (Hres & Hcust & Hcons & _ & _);
      rewrite (run_eta (workflowEngine.handleCustomerSignup data) w1), Hres
  end.
  split; [reflexivity |]. split; [exact Hcons |].
  unfold exec in *. cbn [fst snd] in *. rewrite Hcust.
  apply lookup_insert_eq.
Qed.

(** The signup event delivered twice: in the world where Alice is
    registered with step 1 completed, handling her signup event once more
    prints a second welcome email. *)
Lemma handleEvent_signup_twice :
  (exists c, customers welcomed !! "c1" = Some c /\
             Customer.isStepCompleted 1 c = true) /\
  console (exec (workflowEngine.handleEvent topics.CUSTOMER_EVENTS signupEvent)
             welcomed)
  = console welcomed ++ [welcomeMail alice] /\
  console welcomed = [welcomeMail alice].
Proof.
  split; [| split].
  - eexists. split; vm_compute; reflexivity.
  - vm_compute. reflexivity.
  - vm_compute. reflexivity.
Qed.

(** C1.  The gate that the claim states is there for steps 2 and 3 and
    missing for step 1.  Handling a PRODUCT_PAGE_VISIT event for a
    customer whose completed set holds step 2, or a CUSTOMER_INACTIVE
    event for a customer whose completed set holds step 3, prints no email
    and hands nothing to the producer.  [handleCustomerSignup] has no such
    test: for a customer who is registered with step 1 completed, with the
    event service connected and the sends accepted, a CUSTOMER_SIGNUP
    event prints the welcome email again, and the entry of the customer
    becomes the customer constructed from the data of the event with the
    welcome step applied, whatever the entry held before. *)
Theorem C1_discount_and_reminder_are_gated_welcome_is_not w topic event :
  (forall visit c,
     Event.body event = ProductPageVisit visit ->
     customers w !! visitCustomerId visit = Some c ->
     Customer.isStepCompleted 2 c = true ->
     let w' := exec (workflowEngine.handleEvent topic event) w in
     result (workflowEngine.handleEvent topic event) w = Normal tt /\
     console w' = console w /\ produced w' = produced w) /\
  (forall customerId c,
     Event.body event = CustomerInactive customerId ->
     customers w !! customerId = Some c ->
     Customer.isStepCompleted 3 c = true ->
     let w' := exec (workflowEngine.handleEvent topic event) w in
     result (workflowEngine.handleEvent topic event) w = Normal tt /\
     console w' = console w /\ produced w' = produced w) /\
  (forall data c,
     Event.body event = CustomerSignup data ->
     customers w !! CustomerData.id data = Some c ->
     Customer.isStepCompleted 1 c = true ->
     isConnected w = true ->
     broker w (sendCount w) = None -> broker w (S (sendCount w)) = None ->
     let w' := exec (workflowEngine.handleEvent topic event) w in
     result (workflowEngine.handleEvent topic event) w = Normal tt /\
     console w' = console w ++ [welcomeMail data] /\
     customers w' !! CustomerData.id data
     = Some (Customer.markStepCompleted 1
               (Customer.updateWorkflowState (welcomeFlags (clock w))
                  (Customer.new (clock w) data)))).
Proof.
  split; [| split].
  - intros visit c Hbody Hc Hdone w'. subst w'.
    unfold workflowEngine.handleEvent, Event.type. rewrite Hbody. eff_run.
    match goal with
    | |- context [workflowEngine.handleProductPageVisit visit ?w1] =>
        destruct (handleProductPageVisit_completed visit c w1 Hc Hdone)
          as (Hres & Hcons & Hprod);
        rewrite (run_eta (workflowEngine.handleProductPageVisit visit) w1), Hres
    end.
    repeat split; assumption.
  - intros customerId c Hbody Hc Hdone w'. subst w'. unfold exec, result.
    rewrite (handleEvent_inactive_completed topic event customerId c)
      by assumption.
    repeat split.
  - intros data c Hbody _ _ Hon Hb1 Hb2.
    apply handleEvent_signup_success; assumption.
Qed.

Lemma C1_witness :
  console (exec (workflowEngine.handleEvent topics.CUSTOMER_EVENTS visitEvent)
             reminded)
  = console reminded /\
  console (exec (workflowEngine.handleEvent topics.CUSTOMER_EVENTS inactiveEvent)
             reminded)
  = console reminded /\
  (Customer.isStepCompleted 1 aliceDone = true /\
   customers reminded !! "c1" = Some aliceDone /\
   let w' := exec (workflowEngine.handleEvent topics.CUSTOMER_EVENTS signupEvent)
               reminded in
   console w' = console reminded ++ [welcomeMail alice] /\
   customers w' !! "c1" = Some aliceWelcomed).
Proof.
  split; [| split].
  - destruct (C1_discount_and_reminder_are_gated_welcome_is_not reminded
                topics.CUSTOMER_EVENTS visitEvent) as (Hvisit & _ & _).
    apply (Hvisit shoes aliceDone); reflexivity.
  - destruct (C1_discount_and_reminder_are_gated_welcome_is_not reminded
                topics.CUSTOMER_EVENTS inactiveEvent) as (_ & Hinactive & _).
    apply (Hinactive "c1" aliceDone); reflexivity.
  - destruct (C1_discount_and_reminder_are_gated_welcome_is_not reminded
                topics.CUSTOMER_EVENTS signupEvent) as (_ & _ & Hsignup).
    destruct (Hsignup alice aliceDone) as (_ & Hcons & Hcust);
      [reflexivity .. |].
    split; [reflexivity |]. split; [reflexivity |].
    split; [exact Hcons | exact Hcust].
Defined.

(** ** Failed dispatch *)

#[local] Instance customers_env X : EnvFrame (fun w => customers w = X).
Proof. split; intros; assumption. Qed.

Lemma bind_thrown {A B} (m : Eff A) (k : A -> Eff B) w e :
  result m w = Throw e -> (m ≫= k) w = (Throw e, exec m w).
Proof.
  unfold result, exec. intros H. rewrite bind_run.
  destruct (m w) as [[a | e'] w1]; cbn in *; congruence.
Qed.

Lemma switchAction_fails wd c w :
  dispatchFails wd c w ->
  exists e w1,
    workflowEngine.switchAction (action wd) c (productData wd) w = (Throw e, w1) /\
    customers w1 = customers w.
Proof.
  intros Hfail.
  assert (Hframe : customers (exec (workflowEngine.switchAction (action wd) c
                                      (productData wd)) w) = customers w).
  { apply (switchAction_preserves (fun w' => customers w' = customers w)).
    reflexivity. }
  assert (exists e, result (workflowEngine.switchAction (action wd) c
                              (productData wd)) w = Throw e) as [e He].
  { destruct Hfail as [[Ha [e He]] | [[Ha [e He]] | [[Ha [e He]] | (H1 & H2 & H3)]]].
    - exists e. rewrite Ha. unfold result.
      change (workflowEngine.switchAction "SEND_WELCOME_EMAIL" c (productData wd))
        with (emailService.sendWelcomeEmail (Customer.toJSON c) ≫=
              (fun _ => now ← newDate;
                 mret (Customer.updateWorkflowState (welcomeFlags now) c))).
      rewrite (bind_thrown _ _ _ e He). reflexivity.
    - exists e. rewrite Ha. unfold result.
      change (workflowEngine.switchAction "SEND_DISCOUNT_EMAIL" c (productData wd))
        with (emailService.sendDiscountEmail (Customer.toJSON c) (productData wd) ≫=
              (fun _ => now ← newDate;
                 mret (Customer.updateWorkflowState
                         (WorkflowState.mkPartial None None None (Some true) None
                            (Some (Some now))) c))).
      rewrite (bind_thrown _ _ _ e He). reflexivity.
    - exists e. rewrite Ha. unfold result.
      change (workflowEngine.switchAction "SEND_REMINDER_EMAIL" c (productData wd))
        with (emailService.sendReminderEmail (Customer.toJSON c) ≫=
              (fun _ => now ← newDate;
                 mret (Customer.updateWorkflowState
                         (WorkflowState.mkPartial None None None None (Some true)
                            (Some (Some now))) c))).
      rewrite (bind_thrown _ _ _ e He). reflexivity.
    - eexists. unfold workflowEngine.switchAction.
      rewrite !bool_decide_eq_false_2 by assumption. reflexivity. }
  exists e, (exec (workflowEngine.switchAction (action wd) c (productData wd)) w).
  split; [| exact Hframe].
  rewrite run_eta, He. reflexivity.
Qed.

(** C4.  When the dispatch of the step fails (the email service throws on
    the email of the action, or the action is unknown),
    [executeWorkflowStep] catches the error and returns normally, and the
    registry is what it was: the step id is not added to
    [completedSteps], no flag is set, and a step that was not completed
    before is not completed after. *)
Theorem C4_failed_dispatch_leaves_step_incomplete wd c w :
  workflowEngine.customerObjOf wd w = (Normal c, w) ->
  dispatchFails wd c w ->
  let w' := exec (workflowEngine.executeWorkflowStep wd) w in
  result (workflowEngine.executeWorkflowStep wd) w = Normal tt /\
  customers w' = customers w /\
  (forall stored,
     customers w !! customerId wd = Some stored ->
     customers w' !! customerId wd = Some stored /\
     (Customer.isStepCompleted (stepId wd) stored = false ->
      exists after, customers w' !! customerId wd = Some after /\
                    Customer.isStepCompleted (stepId wd) after = false)) /\
  (customers w !! customerId wd = None -> customers w' !! customerId wd = None).
Proof.
  intros Hobj Hfail w'.
  destruct (switchAction_fails wd c w Hfail) as (e & w1 & Hrun & Hframe).
  assert (Hexec : workflowEngine.executeWorkflowStep wd w
                  = (Normal tt,
                     set_logs (fun l => l ++ [(ERROR, "Workflow step failed: "
                                                      +:+ stepName wd)]) w1)).
  { unfold workflowEngine.executeWorkflowStep. rewrite bind_run, Hobj.
    unfold tryCatch. rewrite bind_run, Hrun. reflexivity. }
  assert (Hcust : customers w' = customers w).
  { unfold w', exec. rewrite Hexec. exact Hframe. }
  split; [unfold result; rewrite Hexec; reflexivity |].
  split; [exact Hcust |]. rewrite Hcust. split.
  - intros stored Hs. split; [exact Hs |]. intros Hno. exists stored. auto.
  - auto.
Qed.

Lemma C4_witness :
  (result (workflowEngine.executeWorkflowStep strayData) offline = Normal tt /\
   customers (exec (workflowEngine.executeWorkflowStep strayData) offline)
   = customers offline) /\
  (result (workflowEngine.executeWorkflowStep unknownAction) welcomed = Normal tt /\
   customers (exec (workflowEngine.executeWorkflowStep unknownAction) welcomed)
   = customers welcomed).
Proof.
  split.
  - destruct (C4_failed_dispatch_leaves_step_incomplete strayData
                (Customer.new 100 alice) offline) as (Hres & Hcust & _).
    + reflexivity.
    + left. split; [reflexivity |]. eexists. reflexivity.
    + split; [exact Hres | exact Hcust].
  - destruct (C4_failed_dispatch_leaves_step_incomplete unknownAction
                aliceWelcomed welcomed) as (Hres & Hcust & _).
    + vm_compute. reflexivity.
    + right. right. right. repeat split; intros H; discriminate H.
    + split; [exact Hres | exact Hcust].
Defined.

(** ** The dispatch of an action *)

Lemma publishEvent_rejected topic body w e :
  isConnected w = true -> broker w (sendCount w) = Some e ->
  eventService.publishEvent topic body w
  = (Throw e,
     set_logs (fun l => l ++ [(ERROR, "Failed to publish event: "
                                      +:+ EventType_name (eventType body))])
       (set_producer (fun accepted => accepted) (set_uuidCount S w))).
Proof.
  intros Hon Hno. unfold eventService.publishEvent. eff_run.
  rewrite Hon. eff_run. rewrite Hno. reflexivity.
Qed.

Lemma publishEvent_fails topic body w :
  isConnected w = false \/ is_Some (broker w (sendCount w)) ->
  exists e, result (eventService.publishEvent topic body) w = Throw e /\
            console (exec (eventService.publishEvent topic body) w) = console w /\
            produced (exec (eventService.publishEvent topic body) w) = produced w /\
            customers (exec (eventService.publishEvent topic body) w) = customers w.
Proof.
  intros Hfail. destruct (isConnected w) eqn:Hon.
  - destruct Hfail as [Hoff | [e He]]; [discriminate |].
    exists e. unfold result, exec.
    rewrite (publishEvent_rejected topic body w e) by assumption.
    repeat split.
  - eexists. unfold result, exec.
    rewrite publishEvent_offline by assumption. repeat split.
Qed.

Lemma sendDiscountEmail_accepted c p w :
  isConnected w = true -> broker w (sendCount w) = None ->
  emailService.sendDiscountEmail c p w
  = (Normal (discountMail c p),
     mailed (discountMail c p)
       ("Discount email sent to " +:+ CustomerData.name c
        +:+ " (" +:+ CustomerData.email c +:+ ")") w).
Proof.
  intros Hon Hok. unfold emailService.sendDiscountEmail,
    eventService.publishEmailSent. eff_run.
  rewrite publishEvent_accepted by assumption. reflexivity.
Qed.

Lemma sendReminderEmail_accepted c w :
  isConnected w = true -> broker w (sendCount w) = None ->
  emailService.sendReminderEmail c w
  = (Normal (reminderMail c),
     mailed (reminderMail c)
       ("Reminder email sent to " +:+ CustomerData.name c
        +:+ " (" +:+ CustomerData.email c +:+ ")") w).
Proof.
  intros Hon Hok. unfold emailService.sendReminderEmail,
    eventService.publishEmailSent. eff_run.
  rewrite publishEvent_accepted by assumption. reflexivity.
Qed.

Lemma switchAction_accepted a c p w :
  knownAction a ->
  isConnected w = true -> broker w (sendCount w) = None ->
  exists w',
    workflowEngine.switchAction a c p w
    = (Normal (Customer.updateWorkflowState (flagsOf a (clock w)) c), w') /\
    console w' = console w ++ [mailOf a (Customer.toJSON c) p] /\
    customers w' = customers w /\ timers w' = timers w /\
    timeouts w' = timeouts w /\ nextTimeout w' = nextTimeout w /\
    reminderDelay w' = reminderDelay w /\ demoMode w' = demoMode w /\
    isConnected w' = isConnected w /\ broker w' = broker w /\
    clock w' = clock w /\ sendCount w' = S (sendCount w) /\
    length (produced w') = S (length (produced w)).
Proof.
  intros [-> | [-> | ->]] Hon Hok.
  - rewrite switchAction_welcome. eff_run.
    rewrite sendWelcomeEmail_accepted by assumption.
    eexists. split; [reflexivity |]. cbn.
    rewrite length_app. cbn. repeat split; lia.
  - change (workflowEngine.switchAction "SEND_DISCOUNT_EMAIL" c p)
      with (emailService.sendDiscountEmail (Customer.toJSON c) p;;
            now ← newDate;
            mret (Customer.updateWorkflowState (discountFlags now) c)).
    eff_run. rewrite sendDiscountEmail_accepted by assumption.
    eexists. split; [reflexivity |]. cbn.
    rewrite length_app. cbn. repeat split; lia.
  - change (workflowEngine.switchAction "SEND_REMINDER_EMAIL" c p)
      with (emailService.sendReminderEmail (Customer.toJSON c);;
            now ← newDate;
            mret (Customer.updateWorkflowState (reminderFlags now) c)).
    eff_run. rewrite sendReminderEmail_accepted by assumption.
    eexists. split; [reflexivity |]. cbn.
    rewrite length_app. cbn. repeat split; lia.
Qed.

Lemma executeWorkflowStep_accepted wd c w :
  workflowEngine.customerObjOf wd w = (Normal c, w) ->
  knownAction (action wd) ->
  isConnected w = true -> broker w (sendCount w) = None ->
  exists w',
    workflowEngine.executeWorkflowStep wd w = (Normal tt, w') /\
    customers w'
    = <[customerId wd :=
          Customer.markStepCompleted (stepId wd)
            (Customer.updateWorkflowState (flagsOf (action wd) (clock w)) c)]>
        (customers w) /\
    console w' = console w ++ [mailOf (action wd) (Customer.toJSON c) (productData wd)] /\
    timers w' = timers w /\ timeouts w' = timeouts w /\
    nextTimeout w' = nextTimeout w /\ reminderDelay w' = reminderDelay w /\
    demoMode w' = demoMode w /\ isConnected w' = isConnected w /\
    broker w' = broker w /\ clock w' = clock w /\
    sendCount w' = S (sendCount w) /\
    length (produced w') = S (length (produced w)).
Proof.
  intros Hc Hact Hon Hok.
  destruct (switchAction_accepted (action wd) c (productData wd) w Hact Hon Hok)
    as (w1 & Hrun & Hcons & Hcust & Htim & Htos & Hnext & Hdel & Hdemo & Hconn
        & Hbrk & Hclk & Hcnt & Hlen).
  unfold workflowEngine.executeWorkflowStep.
  rewrite bind_run, Hc. unfold tryCatch. rewrite bind_run, Hrun. eff_run.
  eexists. split; [reflexivity |]. cbn.
  rewrite Hcust. repeat split; assumption.
Qed.

Lemma triggerWorkflowStep_accepted c step extra w :
  customers w !! Customer.id c = Some c ->
  knownAction (actionOf step) ->
  isConnected w = true ->
  broker w (sendCount w) = None -> broker w (S (sendCount w)) = None ->
  exists w',
    workflowEngine.triggerWorkflowStep c step extra w = (Normal tt, w') /\
    customers w'
    = <[Customer.id c :=
          Customer.markStepCompleted (stepIdOf step)
            (Customer.updateWorkflowState (flagsOf (actionOf step) (clock w)) c)]>
        (customers w) /\
    console w' = console w ++ [mailOf (actionOf step) (Customer.toJSON c) extra] /\
    timers w' = timers w /\ timeouts w' = timeouts w /\
    nextTimeout w' = nextTimeout w /\ reminderDelay w' = reminderDelay w /\
    demoMode w' = demoMode w /\ isConnected w' = isConnected w /\
    broker w' = broker w /\ clock w' = clock w /\
    sendCount w' = S (S (sendCount w)) /\
    length (produced w') = S (S (length (produced w))).
Proof.
  intros Hc Hact Hon Hb1 Hb2.
  unfold workflowEngine.triggerWorkflowStep, eventService.publishWorkflowStep.
  eff_run. rewrite publishEvent_accepted by assumption.
  match goal with
  | |- context [workflowEngine.executeWorkflowStep ?wd ?w1] =>
      destruct (executeWorkflowStep_accepted wd c w1)
        as (w' & Hrun & Hcust & Hcons & Htim & Htos & Hnext & Hdel & Hdemo
            & Hconn & Hbrk & Hclk & Hcnt & Hlen);
      [apply customerObjOf_found; exact Hc | exact Hact | exact Hon
      | exact Hb2 |]
  end.
  rewrite Hrun. exists w'. split; [reflexivity |].
  cbn in Hlen. rewrite length_app in Hlen. cbn in Hlen.
  repeat split; try assumption. lia.
Qed.

Lemma switchAction_unavailable a c p w :
  knownAction a ->
  isConnected w = false \/ is_Some (broker w (sendCount w)) ->
  exists e w1,
    workflowEngine.switchAction a c p w = (Throw e, w1) /\
    console w1 = console w ++ [mailOf a (Customer.toJSON c) p] /\
    customers w1 = customers w /\ produced w1 = produced w.
Proof.
  intros Hact Hfail.
  assert (Hsend : forall mail line body, exists e w2,
            eventService.publishEvent topics.EMAIL_NOTIFICATIONS body
              (set_console (fun printed => printed ++ [mail])
                 (set_logs (fun l => l ++ [(INFO, line)]) w))
            = (Throw e, w2) /\
            console w2 = console w ++ [mail] /\
            customers w2 = customers w /\ produced w2 = produced w).
  { intros mail line body.
    destruct (publishEvent_fails topics.EMAIL_NOTIFICATIONS body
                (set_console (fun printed => printed ++ [mail])
                   (set_logs (fun l => l ++ [(INFO, line)]) w)) Hfail)
      as (e & Hres & Hcons & Hprod & Hcust).
    exists e. eexists. split; [rewrite run_eta, Hres; reflexivity |].
    split; [exact Hcons |]. split; [exact Hcust | exact Hprod]. }
  destruct Hact as [-> | [-> | ->]];
    [ rewrite switchAction_welcome
    | change (workflowEngine.switchAction "SEND_DISCOUNT_EMAIL" c p)
        with (emailService.sendDiscountEmail (Customer.toJSON c) p;;
              now ← newDate;
              mret (Customer.updateWorkflowState (discountFlags now) c))
    | change (workflowEngine.switchAction "SEND_REMINDER_EMAIL" c p)
        with (emailService.sendReminderEmail (Customer.toJSON c);;
              now ← newDate;
              mret (Customer.updateWorkflowState (reminderFlags now) c)) ];
    unfold emailService.sendWelcomeEmail, emailService.sendDiscountEmail,
      emailService.sendReminderEmail, eventService.publishEmailSent;
    eff_run;
    match goal with
    | |- context [eventService.publishEvent topics.EMAIL_NOTIFICATIONS ?b
                    (set_console (fun printed => printed ++ [?mail])
                       (set_logs (fun l => l ++ [(INFO, ?line)]) w))] =>
        destruct (Hsend mail line b) as (e & w2 & Hrun & Hc & Hcu & Hp);
        rewrite Hrun
    end;
    eff_run; exists e; eexists; (split; [reflexivity |]);
    cbn [console customers produced set_logs];
    (split; [exact Hc |]); (split; [exact Hcu | exact Hp]).
Qed.

Lemma executeWorkflowStep_unavailable wd c w :
  workflowEngine.customerObjOf wd w = (Normal c, w) ->
  knownAction (action wd) ->
  isConnected w = false \/ is_Some (broker w (sendCount w)) ->
  exists w',
    workflowEngine.executeWorkflowStep wd w = (Normal tt, w') /\
    customers w' = customers w /\
    console w'
    = console w ++ [mailOf (action wd) (Customer.toJSON c) (productData wd)] /\
    produced w' = produced w.
Proof.
  intros Hobj Hact Hfail.
  destruct (switchAction_unavailable (action wd) c (productData wd) w Hact Hfail)
    as (e & w1 & Hrun & Hcons & Hcust & Hprod).
  unfold workflowEngine.executeWorkflowStep. rewrite bind_run, Hobj.
  unfold tryCatch. rewrite bind_run, Hrun. eff_run.
  eexists. split; [reflexivity |]. cbn [customers console produced set_logs].
  split; [exact Hcust |]. split; [exact Hcons | exact Hprod].
Qed.

Lemma executeWorkflowStep_unknown wd c w :
  workflowEngine.customerObjOf wd w = (Normal c, w) ->
  ~ knownAction (action wd) ->
  workflowEngine.executeWorkflowStep wd w
  = (Normal tt,
     set_logs (fun l => l ++ [(ERROR, "Workflow step failed: " +:+ stepName wd)]) w).
Proof.
  intros Hobj Hact. unfold knownAction in Hact.
  unfold workflowEngine.executeWorkflowStep. rewrite bind_run, Hobj.
  unfold tryCatch, workflowEngine.switchAction. rewrite bind_run.
  rewrite !bool_decide_eq_false_2 by tauto. reflexivity.
Qed.

(** ** Events for an unknown customer *)

(** C3, the claim as stated fails for WORKFLOW_STEP events.  The registry
    of the connected start-up world is empty; handling a WORKFLOW_STEP
    event for customer "c1" whose payload carries the customer creates the
    entry "c1" and prints a welcome email. *)
Lemma C3_counterexample :
  customers online !! "c1" = None /\
  let w' := exec (workflowEngine.handleEvent topics.WORKFLOW_TRIGGERS strayStep)
              online in
  is_Some (customers w' !! "c1") /\ console w' = [welcomeMail alice].
Proof.
  split; [reflexivity |]. split.
  - vm_compute. eexists; reflexivity.
  - vm_compute. reflexivity.
Qed.

(** C3 (amended).  A PRODUCT_PAGE_VISIT or CUSTOMER_INACTIVE event whose
    customer id is not in the registry is logged and discarded: the
    handler returns, and the world differs from the one before only by the
    log line of [handleEvent] and the warning; registry, timers, producer
    and console are unchanged.  A WORKFLOW_STEP or WORKFLOW_TRIGGER event
    for an id that is not in the registry is not discarded when its
    payload carries the customer: [executeWorkflowStep] rebuilds the
    customer from the payload and runs the action on it.  When the action
    is one of the three and its email goes out (event service connected,
    send accepted), the rebuilt customer, with the flag of the action set
    and the step marked completed, is stored under the customer id of the
    event.  When the event service is disconnected or the send is
    rejected, the email is printed but nothing is stored and nothing
    reaches the producer; for an unknown action nothing is printed or
    stored.  When the payload carries no customer, the construction fails;
    [handleEvent] logs the error and nothing else changes. *)
Theorem C3_unknown_customer_visit_and_inactivity_are_discarded w topic event :
  (forall visit,
     Event.body event = ProductPageVisit visit ->
     customers w !! visitCustomerId visit = None ->
     workflowEngine.handleEvent topic event w
     = (Normal tt,
        set_logs (fun l => l ++ [(WARN, "Customer not found for product visit: "
                                        +:+ visitCustomerId visit)])
          (set_logs (fun l => l ++ [(INFO, "Processing workflow event: PRODUCT_PAGE_VISIT for customer "
                                           +:+ visitCustomerId visit)]) w))) /\
  (forall customerId,
     Event.body event = CustomerInactive customerId ->
     customers w !! customerId = None ->
     workflowEngine.handleEvent topic event w
     = (Normal tt,
        set_logs (fun l => l ++ [(WARN, "Customer not found for inactivity check: "
                                        +:+ customerId)])
          (set_logs (fun l => l ++ [(INFO, "Processing workflow event: CUSTOMER_INACTIVE for customer "
                                           +:+ customerId)]) w))) /\
  (forall wd data,
     Event.body event = WorkflowStepEvent wd \/ Event.body event = WorkflowTrigger wd ->
     customers w !! customerId wd = None ->
     customer wd = Some data ->
     let rebuilt := Customer.new (clock w) data in
     let mail := mailOf (action wd) (Customer.toJSON rebuilt) (productData wd) in
     let w' := exec (workflowEngine.handleEvent topic event) w in
     result (workflowEngine.handleEvent topic event) w = Normal tt /\
     (knownAction (action wd) ->
      isConnected w = true -> broker w (sendCount w) = None ->
      customers w'
      = <[customerId wd :=
            Customer.markStepCompleted (stepId wd)
              (Customer.updateWorkflowState (flagsOf (action wd) (clock w))
                 rebuilt)]>
          (customers w) /\
      console w' = console w ++ [mail]) /\
     (knownAction (action wd) ->
      isConnected w = false \/ is_Some (broker w (sendCount w)) ->
      customers w' = customers w /\ console w' = console w ++ [mail] /\
      produced w' = produced w) /\
     (~ knownAction (action wd) ->
      customers w' = customers w /\ console w' = console w /\
      produced w' = produced w)) /\
  (forall wd,
     Event.body event = WorkflowStepEvent wd \/ Event.body event = WorkflowTrigger wd ->
     customers w !! customerId wd = None ->
     customer wd = None ->
     let w' := exec (workflowEngine.handleEvent topic event) w in
     result (workflowEngine.handleEvent topic event) w = Normal tt /\
     customers w' = customers w /\ console w' = console w /\
     produced w' = produced w /\ timers w' = timers w /\
     timeouts w' = timeouts w /\
     (ERROR, "Error processing workflow event:") ∈ logs w').
Proof.
  split; [| split; [| split]].
  - intros visit Hbody Hc.
    unfold workflowEngine.handleEvent, Event.type,
      workflowEngine.handleProductPageVisit.
    rewrite Hbody. eff_run. rewrite Hc. reflexivity.
  - intros customerId Hbody Hc.
    unfold workflowEngine.handleEvent, Event.type,
      workflowEngine.handleCustomerInactive.
    rewrite Hbody. eff_run. rewrite Hc. reflexivity.
  - intros wd data Hbody Hc Hdata rebuilt mail w'. subst w'.
    split; [unfold workflowEngine.handleEvent; apply tryCatch_logged |].
    unfold workflowEngine.handleEvent, Event.type.
    destruct Hbody as [-> | ->]; eff_run;
      match goal with
      | |- context [workflowEngine.executeWorkflowStep wd ?w1] =>
          assert (Hobj : workflowEngine.customerObjOf wd w1 = (Normal rebuilt, w1))
            by (apply (customerObjOf_rebuilt wd data w1); assumption);
          split; [| split];
          [ intros Hact Hon Hok;
            destruct (executeWorkflowStep_accepted wd rebuilt w1 Hobj Hact Hon Hok)
              as (w2 & Hrun & Hcust & Hcons & _);
            rewrite Hrun; split; [exact Hcust | exact Hcons]
          | intros Hact Hfail;
            destruct (executeWorkflowStep_unavailable wd rebuilt w1 Hobj Hact Hfail)
              as (w2 & Hrun & Hcust & Hcons & Hprod);
            rewrite Hrun; split; [exact Hcust |]; split; [exact Hcons | exact Hprod]
          | intros Hact;
            rewrite (executeWorkflowStep_unknown wd rebuilt w1 Hobj Hact);
            repeat split ]
      end.
  - intros wd Hbody Hc Hdata w'. subst w'.
    unfold workflowEngine.handleEvent, Event.type,
      workflowEngine.executeWorkflowStep, workflowEngine.customerObjOf.
    destruct Hbody as [-> | ->]; eff_run; rewrite Hc, Hdata; eff_run;
      (split; [reflexivity |]); repeat (split; [reflexivity |]);
      rewrite !elem_of_app; right; apply list_elem_of_singleton; reflexivity.
Qed.

Lemma C3_witness :
  workflowEngine.handleEvent topics.CUSTOMER_EVENTS visitEvent online
  = (Normal tt,
     set_logs (fun l => l ++ [(WARN, "Customer not found for product visit: c1")])
       (set_logs (fun l => l ++ [(INFO, "Processing workflow event: PRODUCT_PAGE_VISIT for customer c1")])
          online)) /\
  (let w' := exec (workflowEngine.handleEvent topics.WORKFLOW_TRIGGERS strayStep)
               online in
   console w' = console online ++ [welcomeMail alice] /\
   customers w' = <["c1" := aliceWelcomed]> (customers online)) /\
  (let w' := exec (workflowEngine.handleEvent topics.WORKFLOW_TRIGGERS strayStep)
               offline in
   console w' = console offline ++ [welcomeMail alice] /\
   customers w' = customers offline).
Proof.
  split; [| split].
  - destruct (C3_unknown_customer_visit_and_inactivity_are_discarded online
                topics.CUSTOMER_EVENTS visitEvent) as (Hvisit & _ & _).
    apply (Hvisit shoes); reflexivity.
  - destruct (C3_unknown_customer_visit_and_inactivity_are_discarded online
                topics.WORKFLOW_TRIGGERS strayStep) as (_ & _ & Hstep & _).
    destruct (Hstep strayData alice) as (_ & Hsent & _);
      [left; reflexivity | reflexivity .. |].
    destruct Hsent as [Hcust Hcons];
      [left; reflexivity | reflexivity | reflexivity |].
    split; [exact Hcons | exact Hcust].
  - destruct (C3_unknown_customer_visit_and_inactivity_are_discarded offline
                topics.WORKFLOW_TRIGGERS strayStep) as (_ & _ & Hstep & _).
    destruct (Hstep strayData alice) as (_ & _ & Hlost & _);
      [left; reflexivity | reflexivity .. |].
    destruct Hlost as (Hcust & Hcons & _);
      [left; reflexivity | left; reflexivity |].
    split; [exact Hcons | exact Hcust].
Defined.

(** ** Signup replaces the entry *)

#[local] Instance customers_clock_env X Y :
  EnvFrame (fun w => customers w = X /\ clock w = Y).
Proof. split; intros; assumption. Qed.

Lemma executeWorkflowStep_welcome_customers wd c w :
  workflowEngine.customerObjOf wd w = (Normal c, w) ->
  action wd = "SEND_WELCOME_EMAIL" ->
  let w' := exec (workflowEngine.executeWorkflowStep wd) w in
  customers w' = customers w \/
  customers w'
  = <[customerId wd :=
        Customer.markStepCompleted (stepId wd)
          (Customer.updateWorkflowState (welcomeFlags (clock w)) c)]>
      (customers w).
Proof.
  intros Hobj Hact w'. subst w'. unfold exec, workflowEngine.executeWorkflowStep.
  rewrite bind_run, Hobj, Hact, switchAction_welcome.
  pose proof (sendWelcomeEmail_preserves
                (fun w' => customers w' = customers w /\ clock w' = clock w)
                (Customer.toJSON c) w (conj eq_refl eq_refl)) as [Hcust Hclock].
  unfold exec in Hcust, Hclock. unfold tryCatch. rewrite !bind_run.
  destruct (emailService.sendWelcomeEmail (Customer.toJSON c) w)
    as [[mail | e] w1]; cbn [snd] in Hcust, Hclock.
  - right. eff_run. rewrite Hcust, Hclock. reflexivity.
  - left. eff_run. exact Hcust.
Qed.

Lemma triggerWorkflowStep_welcome_customers c w :
  customers w !! Customer.id c = Some c ->
  let w' := exec (workflowEngine.triggerWorkflowStep c
                    workflowSteps.STEP_1_WELCOME None) w in
  customers w' = customers w \/
  customers w'
  = <[Customer.id c :=
        Customer.markStepCompleted 1
          (Customer.updateWorkflowState (welcomeFlags (clock w)) c)]>
      (customers w).
Proof.
  intros Hc w'. subst w'.
  unfold exec, workflowEngine.triggerWorkflowStep,
    eventService.publishWorkflowStep.
  unfold tryCatch. rewrite bind_run. cbn [logger.info logger.log modify].
  rewrite bind_run.
  match goal with
  | |- context [eventService.publishEvent ?t ?b ?w1] =>
      pose proof (publishEvent_preserves
                    (fun w' => customers w' = customers w /\ clock w' = clock w)
                    t b w1 (conj eq_refl eq_refl)) as [Hcust Hclock];
      unfold exec in Hcust, Hclock;
      destruct (eventService.publishEvent t b w1) as [[ev | e] w2];
      cbn [snd] in Hcust, Hclock
  end.
  - match goal with
    | |- context [workflowEngine.executeWorkflowStep ?wd w2] =>
        pose proof (executeWorkflowStep_welcome_customers wd c w2) as Hexec
    end.
    cbn zeta in Hexec. unfold exec in Hexec.
    rewrite Hcust, Hclock in Hexec.
    destruct Hexec as [H | H].
    + apply customerObjOf_found. cbn [customerId]. rewrite Hcust. exact Hc.
    + reflexivity.
    + left. destruct (workflowEngine.executeWorkflowStep _ w2) as [[[] | e] w3];
        cbn [snd] in *; exact H.
    + right. destruct (workflowEngine.executeWorkflowStep _ w2) as [[[] | e] w3];
        cbn [snd] in *; exact H.
  - left. eff_run. exact Hcust.
Qed.

Lemma handleCustomerSignup_customers data w :
  let c0 := Customer.new (clock w) data in
  let c1 := Customer.markStepCompleted 1
              (Customer.updateWorkflowState (welcomeFlags (clock w)) c0) in
  let w' := exec (workflowEngine.handleCustomerSignup data) w in
  result (workflowEngine.handleCustomerSignup data) w = Normal tt /\
  (customers w' = <[CustomerData.id data := c0]> (customers w) \/
   customers w' = <[CustomerData.id data := c1]>
                    (<[CustomerData.id data := c0]> (customers w))).
Proof.
  intros c0 c1 w'. subst w'.
  unfold result, exec, workflowEngine.handleCustomerSignup.
  rewrite bind_run. cbn [newDate gets]. fold c0. rewrite bind_run.
  cbn [modify]. rewrite bind_run. cbn [logger.info logger.log modify].
  rewrite bind_run.
  match goal with
  | |- context [workflowEngine.triggerWorkflowStep c0 ?step None ?w1] =>
      pose proof (triggerWorkflowStep_welcome_customers c0 w1) as Htrig;
      pose proof (tryCatch_logged
                    (logger.info ("Triggering workflow step: " +:+ stepNameOf step
                                  +:+ " for customer " +:+ Customer.name c0);;
                     let workflowData :=
                       mkWorkflowData (Customer.id c0) (stepIdOf step)
                         (stepNameOf step) (actionOf step)
                         (Some (Customer.toJSON c0)) None in
                     eventService.publishWorkflowStep workflowData;;
                     workflowEngine.executeWorkflowStep workflowData)
                    ("Failed to trigger workflow step " +:+ stepNameOf step +:+ ":")
                    w1) as Hres;
      change (result (workflowEngine.triggerWorkflowStep c0 step None) w1
              = Normal tt) in Hres;
      cbn zeta in Htrig; unfold exec in Htrig; unfold result in Hres;
      destruct (workflowEngine.triggerWorkflowStep c0 step None w1)
        as [[[] | e] w2];
      cbn [fst snd] in Htrig, Hres; [| discriminate Hres]
  end.
  rewrite scheduleReminderCheck_run. cbn [fst snd]. split; [reflexivity |].
  unfold armed. cbn [customers set_timers set_timeouts set_logs].
  rewrite cancelled_customers.
  destruct Htrig as [H | H]; [apply lookup_insert_eq | left | right]; exact H.
Qed.

Lemma handleCustomerSignup_offline data w :
  isConnected w = false ->
  customers (exec (workflowEngine.handleCustomerSignup data) w)
  = <[CustomerData.id data := Customer.new (clock w) data]> (customers w).
Proof.
  intros Hoff.
  unfold workflowEngine.handleCustomerSignup, workflowEngine.triggerWorkflowStep,
    eventService.publishWorkflowStep.
  eff_run. rewrite publishEvent_offline by exact Hoff.
  rewrite scheduleReminderCheck_run. cbn [fst snd]. unfold armed. eff_run.
  rewrite cancelled_customers. reflexivity.
Qed.

(** C10, the claim as stated fails.  Alice is registered; a CUSTOMER_SIGNUP
    event for her id whose data carry a workflow state (steps 1 and 2
    completed, current step 3) leaves that workflow state in the registry,
    not the initial one: exactly it when the event service is
    disconnected, and with [completedSteps = [1; 2]] when the welcome
    step runs. *)
Lemma C10_counterexample :
  is_Some (customers welcomed !! "c1") /\
  Customer.workflowState
    <$> customers (exec (workflowEngine.handleCustomerSignup returning)
                     (set_isConnected false welcomed)) !! "c1"
  = Some (WorkflowState.mk 3 [1%Z; 2%Z] true true false (Some 7%Z)) /\
  (fun c => WorkflowState.completedSteps (Customer.workflowState c))
    <$> customers (exec (workflowEngine.handleCustomerSignup returning)
                     welcomed) !! "c1"
  = Some [1%Z; 2%Z].
Proof.
  split; [| split].
  - vm_compute. eexists; reflexivity.
  - vm_compute. reflexivity.
  - vm_compute. reflexivity.
Qed.

(** C10 (amended).  Handling a CUSTOMER_SIGNUP event for an id that is in
    the registry replaces the stored customer by one built from the data
    of the event alone; the handler returns, and all other entries are
    untouched.  Nothing of the previous entry survives: id, email, name
    and preferences of the new entry are those of the data; its signup
    date, last activity and metadata are those of the data, or the time of
    the handling and empty metadata when the data carry none; its workflow
    state starts from the one of the data, or from the initial one
    ([currentStep = 0], no completed steps, all flags false) when the data
    carry none.  The entry that the handler leaves has that workflow state
    as it is when the event service is disconnected, and with step 1
    applied to it (step 1 among the completed steps, [currentStep] at
    least 2, [welcomeEmailSent] set, [lastEmailSent] the time of the
    handling) when the event service is connected and the sends are
    accepted; it is always one of the two. *)
Theorem C10_signup_replaces_the_entry_from_the_event_data data old w :
  customers w !! CustomerData.id data = Some old ->
  let ws0 := default (WorkflowState.mk 0 [] false false false None)
               (CustomerData.workflowState data) in
  let ws1 := WorkflowState.mk
               (Z.max (WorkflowState.currentStep ws0) 2)
               (if Customer.includes (WorkflowState.completedSteps ws0) 1
                then WorkflowState.completedSteps ws0
                else WorkflowState.completedSteps ws0 ++ [1%Z])
               true (WorkflowState.discountCodeSent ws0)
               (WorkflowState.reminderSent ws0) (Some (clock w)) in
  let built ws :=
    Customer.mk (CustomerData.id data) (CustomerData.email data)
      (CustomerData.name data)
      (default (clock w) (CustomerData.signupDate data))
      (default (clock w) (CustomerData.lastActivity data))
      (CustomerData.preferences data) ws
      (default (mkCustomerMetadata None ∅) (CustomerData.metadata data)) in
  let w' := exec (workflowEngine.handleCustomerSignup data) w in
  result (workflowEngine.handleCustomerSignup data) w = Normal tt /\
  (forall k, k <> CustomerData.id data -> customers w' !! k = customers w !! k) /\
  (customers w' !! CustomerData.id data = Some (built ws0) \/
   customers w' !! CustomerData.id data = Some (built ws1)) /\
  (isConnected w = false ->
   customers w' !! CustomerData.id data = Some (built ws0)) /\
  (isConnected w = true ->
   broker w (sendCount w) = None -> broker w (S (sendCount w)) = None ->
   customers w' !! CustomerData.id data = Some (built ws1)) /\
  (CustomerData.workflowState data = None ->
   ws0 = WorkflowState.mk 0 [] false false false None /\
   ws1 = WorkflowState.mk 2 [1%Z] true false false (Some (clock w))).
Proof.
  intros Hold ws0 ws1 built w'.
  set (c0 := Customer.new (clock w) data).
  set (c1 := Customer.markStepCompleted 1
               (Customer.updateWorkflowState (welcomeFlags (clock w)) c0)).
  assert (Hc0 : c0 = built ws0) by reflexivity.
  assert (Hc1 : c1 = built ws1).
  { unfold c1, c0, built, ws1, Customer.markStepCompleted,
      Customer.updateWorkflowState, Customer.new, Customer.set_workflowState,
      WorkflowState.spread, welcomeFlags.
    cbn [Customer.workflowState Customer.id Customer.email Customer.name
         Customer.signupDate Customer.lastActivity Customer.preferences
         Customer.metadata
         WorkflowState.currentStep WorkflowState.completedSteps
         WorkflowState.welcomeEmailSent WorkflowState.discountCodeSent
         WorkflowState.reminderSent WorkflowState.lastEmailSent
         WorkflowState.p_currentStep WorkflowState.p_completedSteps
         WorkflowState.p_welcomeEmailSent WorkflowState.p_discountCodeSent
         WorkflowState.p_reminderSent WorkflowState.p_lastEmailSent
         default].
    change (default Customer.initialWorkflowState
              (CustomerData.workflowState data)) with ws0.
    clearbody ws0.
    case (Customer.includes (WorkflowState.completedSteps ws0) 1);
      reflexivity. }
  destruct (handleCustomerSignup_customers data w) as [Hres Hw'].
  fold c0 c1 w' in Hw'. rewrite Hc0, Hc1 in Hw'.
  split; [exact Hres |]. split; [| split; [| split; [| split]]].
  - intros k Hk. destruct Hw' as [-> | ->];
      rewrite !lookup_insert_ne by congruence; reflexivity.
  - destruct Hw' as [-> | ->]; [left | right]; apply lookup_insert_eq.
  - intros Hoff. unfold w'. rewrite handleCustomerSignup_offline by exact Hoff.
    fold c0. rewrite Hc0. apply lookup_insert_eq.
  - intros Hon Hb1 Hb2.
    destruct (handleCustomerSignup_success data w Hon Hb1 Hb2)
      as (_ & Hcust & _).
    unfold w'. rewrite Hcust. fold c0 c1. rewrite Hc1. apply lookup_insert_eq.
  - intros Hnone. unfold ws1, ws0. rewrite Hnone. split; reflexivity.
Qed.

Lemma C10_witness :
  customers (exec (workflowEngine.handleCustomerSignup alice)
               (set_isConnected false welcomed)) !! "c1"
  = Some (Customer.mk "c1" "alice@x.com" "Alice" 5 100 ∅
            (WorkflowState.mk 0 [] false false false None)
            (mkCustomerMetadata None ∅)) /\
  customers (exec (workflowEngine.handleCustomerSignup returning) welcomed) !! "c1"
  = Some (Customer.mk "c1" "alice@x.com" "Alice" 5 100 ∅
            (WorkflowState.mk 3 [1%Z; 2%Z] true true false (Some 100%Z))
            (mkCustomerMetadata None ∅)).
Proof.
  split.
  - destruct (C10_signup_replaces_the_entry_from_the_event_data alice
                aliceWelcomed (set_isConnected false welcomed))
      as (_ & _ & _ & Hoff & _); [vm_compute; reflexivity |].
    apply Hoff. reflexivity.
  - destruct (C10_signup_replaces_the_entry_from_the_event_data returning
                aliceWelcomed welcomed)
      as (_ & _ & _ & _ & Hon & _); [vm_compute; reflexivity |].
    apply Hon; reflexivity.
Defined.

(** ** Queries for an unknown customer *)

(** C9, the claim as stated fails for the queries of the customer service.
    "abc" is not in the registry of the start-up world and does not pass
    the validation of the id: [getCustomerById] answers with the failure
    'Invalid customer ID format', not with 'Customer not found'. *)
Lemma C9_counterexample :
  customers online !! "abc" = None /\
  getCustomerById joiCustomerIdSchema "abc" online
  = (Normal (ApiResponse.mk false (Some "Invalid customer ID format") None None),
     online) /\
  getCustomerById joiCustomerIdSchema "abc" online
  <> (Normal (ApiResponse.mk false (Some "Customer not found") None None),
      online).
Proof.
  split; [reflexivity |]. split; [reflexivity |].
  intros H. discriminate H.
Qed.

(** C9 (amended).  For a customer id that is not in the registry, the
    queries of the engine return absent and do not throw: [getCustomer]
    is [undefined], [getWorkflowStatus] is [null], and
    [simulateTimePassage] returns without changing the world.  The
    queries of the customer service return a failure response, without
    throwing and without changing the world: its error is 'Customer not
    found' when the id passes the validation of [customerIdSchema], and
    the message of that validation when it does not, whatever the
    evaluation of the schema is. *)
Theorem C9_unknown_customer_queries_return_absent schema customerId w :
  customers w !! customerId = None ->
  workflowEngine.getCustomer customerId w = None /\
  workflowEngine.getWorkflowStatus customerId w = None /\
  workflowEngine.simulateTimePassage customerId w = (Normal tt, w) /\
  (schema customerId = None ->
   getCustomerById schema customerId w
   = (Normal (ApiResponse.mk false (Some "Customer not found") None None), w) /\
   getCustomerWorkflowStatus schema customerId w
   = (Normal (ApiResponse.mk false (Some "Customer not found") None None), w) /\
   simulateTimePassage schema customerId w
   = (Normal (ApiResponse.mk false (Some "Customer not found") None None), w)) /\
  (forall msg,
     schema customerId = Some msg ->
     getCustomerById schema customerId w
     = (Normal (ApiResponse.mk false (Some msg) None None), w) /\
     getCustomerWorkflowStatus schema customerId w
     = (Normal (ApiResponse.mk false (Some msg) None None), w) /\
     simulateTimePassage schema customerId w
     = (Normal (ApiResponse.mk false (Some msg) None None), w)).
Proof.
  intros Hc.
  assert (Hstatus : workflowEngine.getWorkflowStatus customerId w = None).
  { unfold workflowEngine.getWorkflowStatus. rewrite Hc. reflexivity. }
  split; [exact Hc |]. split; [exact Hstatus |]. split.
  { unfold workflowEngine.simulateTimePassage. eff_run. rewrite Hc.
    reflexivity. }
  unfold getCustomerById, getCustomerWorkflowStatus, simulateTimePassage,
    validateCustomerId, workflowEngine.getCustomer.
  split.
  - intros ->. cbn [isValid validationError negb]. eff_run.
    rewrite Hstatus, Hc. repeat split.
  - intros msg ->. cbn [isValid validationError negb]. eff_run.
    repeat split.
Qed.

Lemma C9_witness :
  getCustomerById joiCustomerIdSchema "123e4567-e89b-42d3-a456-426614174000" online
  = (Normal (ApiResponse.mk false (Some "Customer not found") None None), online) /\
  workflowEngine.getWorkflowStatus "123e4567-e89b-42d3-a456-426614174000" online
  = None /\
  getCustomerWorkflowStatus joiCustomerIdSchema "abc" online
  = (Normal (ApiResponse.mk false (Some "Invalid customer ID format") None None),
     online).
Proof.
  destruct (C9_unknown_customer_queries_return_absent joiCustomerIdSchema
              "123e4567-e89b-42d3-a456-426614174000" online eq_refl)
    as (_ & Hstatus & _ & Hvalid & _).
  destruct (C9_unknown_customer_queries_return_absent joiCustomerIdSchema
              "abc" online eq_refl)
    as (_ & _ & _ & _ & Hinvalid).
  split; [apply Hvalid; reflexivity |]. split; [exact Hstatus |].
  apply (Hinvalid "Invalid customer ID format"). reflexivity.
Defined.

(** * Further properties of the sources *)

(** ** The customer model *)

Lemma isStepCompleted_markStepCompleted m n c :
  Customer.isStepCompleted m (Customer.markStepCompleted n c)
  = bool_decide (m = n) || Customer.isStepCompleted m c.
Proof.
  unfold Customer.isStepCompleted, Customer.markStepCompleted.
  cbn [Customer.workflowState Customer.set_workflowState
       WorkflowState.completedSteps].
  destruct (Customer.includes (WorkflowState.completedSteps _) n) eqn:Hn;
    cbn [negb].
  - destruct (bool_decide (m = n)) eqn:Hm; [| reflexivity].
    apply bool_decide_eq_true in Hm. subst m. exact Hn.
  - unfold Customer.includes.
    destruct (bool_decide (m = n)) eqn:Hm.
    + apply bool_decide_eq_true in Hm. subst m. apply bool_decide_eq_true.
      apply elem_of_app. right. apply list_elem_of_singleton. reflexivity.
    + apply bool_decide_eq_false in Hm. cbn [orb]. apply bool_decide_ext.
      rewrite elem_of_app, list_elem_of_singleton. tauto.
Qed.

(** X1.  [markStepCompleted(n)] makes step [n] completed and changes the
    completion of no other step; a second call for the same step changes
    nothing at all; and a step that was not completed is appended at the
    end of [completedSteps]. *)
Theorem X1_markStepCompleted_is_idempotent n c :
  (forall m, Customer.isStepCompleted m (Customer.markStepCompleted n c)
             = bool_decide (m = n) || Customer.isStepCompleted m c) /\
  Customer.markStepCompleted n (Customer.markStepCompleted n c)
  = Customer.markStepCompleted n c /\
  (Customer.isStepCompleted n c = false ->
   WorkflowState.completedSteps
     (Customer.workflowState (Customer.markStepCompleted n c))
   = WorkflowState.completedSteps (Customer.workflowState c) ++ [n]).
Proof.
  split; [| split].
  - intros m. apply isStepCompleted_markStepCompleted.
  - pose proof (markStepCompleted_completed n c) as Hdone.
    unfold Customer.isStepCompleted in Hdone.
    unfold Customer.markStepCompleted at 1.
    rewrite Hdone. cbn [negb].
    unfold Customer.markStepCompleted, Customer.set_workflowState.
    cbn [Customer.workflowState Customer.id Customer.email Customer.name
         Customer.signupDate Customer.lastActivity Customer.preferences
         Customer.metadata WorkflowState.currentStep
         WorkflowState.completedSteps WorkflowState.welcomeEmailSent
         WorkflowState.discountCodeSent WorkflowState.reminderSent
         WorkflowState.lastEmailSent].
    f_equal. f_equal. lia.
  - intros Hno. unfold Customer.isStepCompleted in Hno.
    unfold Customer.markStepCompleted.
    cbn [Customer.workflowState Customer.set_workflowState
         WorkflowState.completedSteps].
    rewrite Hno. reflexivity.
Qed.

Lemma X1_witness :
  WorkflowState.completedSteps
    (Customer.workflowState (Customer.markStepCompleted 2 aliceWelcomed))
  = [1%Z; 2%Z].
Proof.
  apply (X1_markStepCompleted_is_idempotent 2 aliceWelcomed). reflexivity.
Defined.

Lemma new_toJSON now c : Customer.new now (Customer.toJSON c) = c.
Proof. destruct c. reflexivity. Qed.

(** X2.  [new Customer(customer.toJSON())] is the customer again, whatever
    the clock reads.  So the snapshot that [triggerWorkflowStep] puts into
    the payload of a workflow step is enough for [executeWorkflowStep]: on
    that payload [customers.get(customerId) || new Customer(customer)] is
    the registry entry of the id of the customer when there is one, and
    the customer itself when there is none. *)
Theorem X2_toJSON_constructor_round_trip now c step extra w :
  Customer.new now (Customer.toJSON c) = c /\
  let workflowData :=
    mkWorkflowData (Customer.id c) (stepIdOf step) (stepNameOf step)
      (actionOf step) (Some (Customer.toJSON c)) extra in
  workflowEngine.customerObjOf workflowData w
  = (Normal (default c (customers w !! Customer.id c)), w).
Proof.
  split; [apply new_toJSON |].
  intros workflowData. unfold workflowEngine.customerObjOf. eff_run.
  cbn [customerId customer workflowData].
  destruct (customers w !! Customer.id c) as [stored |]; [reflexivity |].
  eff_run. rewrite new_toJSON. reflexivity.
Qed.

(** ** The event service *)

(** X3.  When the event service is connected and the broker rejects the
    record, [publishEvent] logs the failure and rethrows the error of the
    broker; no record is added to what the producer has sent, and the
    registry, the timers and the console are untouched. *)
Theorem X3_publishEvent_rethrows_the_broker_error topic body w e :
  isConnected w = true -> broker w (sendCount w) = Some e ->
  let w' := exec (eventService.publishEvent topic body) w in
  result (eventService.publishEvent topic body) w = Throw e /\
  produced w' = produced w /\
  logs w' = logs w ++ [(ERROR, "Failed to publish event: "
                               +:+ EventType_name (eventType body))] /\
  customers w' = customers w /\ timers w' = timers w /\
  timeouts w' = timeouts w /\ console w' = console w.
Proof.
  intros Hon Hno w'. subst w'. unfold exec, result.
  rewrite (publishEvent_rejected topic body w e) by assumption.
  repeat split.
Qed.

Lemma X3_witness :
  result (eventService.publishEvent topics.CUSTOMER_EVENTS (CustomerInactive "c1"))
    (set_isConnected true (initialWorld rejectAll 0 true 30000))
  = Throw (mkError "broker unavailable").
Proof.
  apply (X3_publishEvent_rethrows_the_broker_error _ _
           (set_isConnected true (initialWorld rejectAll 0 true 30000)));
    reflexivity.
Defined.

(** X4.  The key of the Kafka message is the customer id of the payload
    when the payload has a non-empty [customerId], and the id of the event
    otherwise.  A CUSTOMER_SIGNUP payload has an [id] but no [customerId]:
    signup events are keyed by the event id, product-visit events by the
    customer id. *)
Theorem X4_message_key t body w :
  isConnected w = true -> broker w (sendCount w) = None ->
  exists r,
    produced (exec (eventService.publishEvent t body) w) = produced w ++ [r] /\
    topic r = t /\
    Event.body (value r) = body /\
    header_correlation_id r = Event.id (value r) /\
    (forall customerId, data_customerId body = Some customerId ->
       customerId <> "" -> key r = customerId) /\
    (data_customerId body = None \/ data_customerId body = Some "" ->
     key r = Event.id (value r)) /\
    (forall data, body = CustomerSignup data -> key r = Event.id (value r)) /\
    (forall visit, body = ProductPageVisit visit -> visitCustomerId visit <> "" ->
       key r = visitCustomerId visit).
Proof.
  intros Hon Hok. unfold exec.
  rewrite publishEvent_accepted by assumption. cbn [snd].
  eexists. split; [reflexivity |].
  cbn [topic value key header_correlation_id envelope Event.body Event.id].
  repeat split.
  - intros customerId -> Hne. cbn [string_or].
    rewrite bool_decide_eq_false_2 by assumption. reflexivity.
  - intros [-> | ->]; reflexivity.
  - intros data ->. reflexivity.
  - intros visit -> Hne. cbn [data_customerId string_or].
    rewrite bool_decide_eq_false_2 by assumption. reflexivity.
Qed.

Lemma X4_witness :
  exists r,
    produced (exec (eventService.publishEvent topics.CUSTOMER_EVENTS
                      (CustomerSignup alice)) online) = [r] /\
    key r = uuid_of 0.
Proof.
  destruct (X4_message_key topics.CUSTOMER_EVENTS (CustomerSignup alice) online
              eq_refl eq_refl) as (r & Hr & _ & _ & _ & _ & _ & Hkey & _).
  exists r. split; [exact Hr |].
  rewrite (Hkey alice eq_refl).
  cbn in Hr. injection Hr as <-. reflexivity.
Defined.

(** ** The email service *)

(** X5.  Each send method of the email service prints the email before it
    publishes the EMAIL_SENT event: when that publication fails (the event
    service is disconnected, or the broker rejects the record) the method
    throws although the email is on the console, and nothing was handed to
    the producer. *)
Theorem X5_email_is_printed_before_the_publication_fails c p w :
  isConnected w = false \/ is_Some (broker w (sendCount w)) ->
  (exists e, result (emailService.sendWelcomeEmail c) w = Throw e) /\
  console (exec (emailService.sendWelcomeEmail c) w) = console w ++ [welcomeMail c] /\
  produced (exec (emailService.sendWelcomeEmail c) w) = produced w /\
  (exists e, result (emailService.sendDiscountEmail c p) w = Throw e) /\
  console (exec (emailService.sendDiscountEmail c p) w)
  = console w ++ [discountMail c p] /\
  produced (exec (emailService.sendDiscountEmail c p) w) = produced w /\
  (exists e, result (emailService.sendReminderEmail c) w = Throw e) /\
  console (exec (emailService.sendReminderEmail c) w) = console w ++ [reminderMail c] /\
  produced (exec (emailService.sendReminderEmail c) w) = produced w.
Proof.
  intros Hfail.
  assert (Hsend : forall mail line w1,
            w1 = set_console (fun printed => printed ++ [mail])
                   (set_logs (fun l => l ++ [(INFO, line)]) w) ->
            forall body, exists e w2,
              eventService.publishEvent topics.EMAIL_NOTIFICATIONS body w1
              = (Throw e, w2) /\
              console w2 = console w ++ [mail] /\ produced w2 = produced w).
  { intros mail line w1 -> body.
    destruct (publishEvent_fails topics.EMAIL_NOTIFICATIONS body
                (set_console (fun printed => printed ++ [mail])
                   (set_logs (fun l => l ++ [(INFO, line)]) w)) Hfail)
      as (e & Hres & Hcons & Hprod & _).
    exists e. eexists. split; [rewrite run_eta, Hres; reflexivity |].
    split; [exact Hcons | exact Hprod]. }
  unfold emailService.sendWelcomeEmail, emailService.sendDiscountEmail,
    emailService.sendReminderEmail, eventService.publishEmailSent.
  eff_run.
  repeat match goal with
  | |- context [eventService.publishEvent topics.EMAIL_NOTIFICATIONS ?b
                  (set_console (fun printed => printed ++ [?mail])
                     (set_logs (fun l => l ++ [(INFO, ?line)]) w))] =>
      let e := fresh "e" in let w2 := fresh "w2" in
      let Hrun := fresh "Hrun" in let Hc := fresh "Hc" in let Hp := fresh "Hp" in
      destruct (Hsend mail line _ eq_refl b) as (e & w2 & Hrun & Hc & Hp);
      rewrite Hrun; clear Hrun
  end.
  eff_run. repeat split; eauto.
Qed.

Lemma X5_witness :
  console (exec (emailService.sendWelcomeEmail alice) offline) = [welcomeMail alice] /\
  produced (exec (emailService.sendWelcomeEmail alice) offline) = [].
Proof.
  destruct (X5_email_is_printed_before_the_publication_fails alice None offline)
    as (_ & Hcons & Hprod & _).
  - left. reflexivity.
  - split; [exact Hcons | exact Hprod].
Defined.

(** ** Successful steps *)

(** X6.  A product-page visit of a registered customer (stored under its
    own id) whose step 2 is not completed, with the event service
    connected and both sends accepted: the handler refreshes the last
    activity, records the visit in the metadata, sends the discount email
    with the category of the visit, completes step 2 on the refreshed
    customer, and arms a fresh inactivity timer for the customer. *)
Theorem X6_product_visit_completes_the_discount_step visit c w :
  customers w !! visitCustomerId visit = Some c ->
  Customer.id c = visitCustomerId visit ->
  Customer.isStepCompleted 2 c = false ->
  isConnected w = true ->
  broker w (sendCount w) = None -> broker w (S (sendCount w)) = None ->
  let lastVisit :=
    mkProductVisit (visitProductId visit) (visitProductName visit)
      (visitCategory visit) (default (clock w) (visitVisitedAt visit)) in
  let visited :=
    Customer.set_metadata
      (mkCustomerMetadata (Some lastVisit) (otherMetadata (Customer.metadata c)))
      (Customer.updateLastActivity (clock w) c) in
  let after :=
    Customer.markStepCompleted 2
      (Customer.updateWorkflowState (discountFlags (clock w)) visited) in
  let w' := exec (workflowEngine.handleProductPageVisit visit) w in
  result (workflowEngine.handleProductPageVisit visit) w = Normal tt /\
  customers w' !! visitCustomerId visit = Some after /\
  Customer.isStepCompleted 2 after = true /\
  WorkflowState.discountCodeSent (Customer.workflowState after) = true /\
  console w' = console w ++ [discountMail (Customer.toJSON visited) (Some lastVisit)] /\
  timers w' !! visitCustomerId visit = Some (nextTimeout w) /\
  timeouts w' !! nextTimeout w
  = Some (mkTimeoutTask (visitCustomerId visit) (reminderDelay w)).
Proof.
  intros Hc Hid Hno Hon Hb1 Hb2 lastVisit visited after w'. subst w'.
  unfold workflowEngine.handleProductPageVisit. eff_run. rewrite Hc.
  eff_run. fold lastVisit.
  change (Customer.set_metadata _ (Customer.updateLastActivity (clock w) c))
    with visited.
  change (Customer.isStepCompleted 2 visited) with (Customer.isStepCompleted 2 c).
  rewrite Hno. cbn [negb].
  assert (Hvid : Customer.id visited = visitCustomerId visit) by exact Hid.
  match goal with
  | |- context [workflowEngine.triggerWorkflowStep visited ?step ?extra ?w1] =>
      destruct (triggerWorkflowStep_accepted visited step extra w1)
        as (w2 & Hrun & Hcust & Hcons & Htim & Htos & Hnext & Hdel & Hdemo
            & _);
      [cbn [customers set_logs set_customers]; rewrite Hvid;
       apply lookup_insert_eq
      | right; left; reflexivity | exact Hon | exact Hb1 | exact Hb2 |]
  end.
  rewrite Hrun. cbn [fst snd]. rewrite cancelReminderTimer_run.
  rewrite scheduleReminderCheck_run. cbn [fst snd]. unfold armed. eff_run.
  rewrite !cancelled_customers, !cancelled_console, !cancelled_nextTimeout.
  assert (Hdel' : forall k v, reminderDelay (cancelled k v) = reminderDelay v).
  { intros k v. unfold cancelled. destruct (timers v !! k); reflexivity. }
  rewrite !Hdel', Hnext, Hdel, Hcust, Hcons, Hvid.
  cbn [customers set_logs set_customers console nextTimeout reminderDelay clock].
  split; [reflexivity |]. split; [apply lookup_insert_eq |].
  split; [apply markStepCompleted_completed |].
  split; [reflexivity |]. split; [reflexivity |].
  split; apply lookup_insert_eq.
Qed.

Lemma X6_witness :
  let w' := exec (workflowEngine.handleProductPageVisit shoes) welcomed in
  console w'
  = console welcomed
    ++ [mkEmailData "alice@x.com" discount "c1" (Some "Shoes")] /\
  timers w' !! "c1" = Some 1%nat.
Proof.
  destruct (X6_product_visit_completes_the_discount_step shoes aliceWelcomed
              welcomed)
    as (_ & _ & _ & _ & Hcons & Htimer & _);
    [vm_compute; reflexivity | reflexivity ..|].
  split; [exact Hcons | exact Htimer].
Defined.

(** X7.  A CUSTOMER_INACTIVE event for a registered customer (stored
    under its own id) whose step 3 is not completed, with the event
    service connected and both sends accepted: the reminder email is
    sent, step 3 is completed and [reminderSent] is set; the timer table
    is not touched. *)
Theorem X7_inactivity_completes_the_reminder_step customerId c w :
  customers w !! customerId = Some c ->
  Customer.id c = customerId ->
  Customer.isStepCompleted 3 c = false ->
  isConnected w = true ->
  broker w (sendCount w) = None -> broker w (S (sendCount w)) = None ->
  let after :=
    Customer.markStepCompleted 3
      (Customer.updateWorkflowState (reminderFlags (clock w)) c) in
  let w' := exec (workflowEngine.handleCustomerInactive customerId) w in
  result (workflowEngine.handleCustomerInactive customerId) w = Normal tt /\
  customers w' = <[customerId := after]> (customers w) /\
  Customer.isStepCompleted 3 after = true /\
  WorkflowState.reminderSent (Customer.workflowState after) = true /\
  console w' = console w ++ [reminderMail (Customer.toJSON c)] /\
  timers w' = timers w /\ timeouts w' = timeouts w.
Proof.
  intros Hc Hid Hno Hon Hb1 Hb2 after w'. subst w'.
  unfold workflowEngine.handleCustomerInactive. eff_run. rewrite Hc, Hno.
  cbn [negb].
  destruct (triggerWorkflowStep_accepted c
              (workflowSteps.STEP_3_REMINDER (reminderDelay w)) None w)
    as (w2 & Hrun & Hcust & Hcons & Htim & Htos & _);
    [rewrite Hid; exact Hc | right; right; reflexivity | assumption ..|].
  rewrite Hrun. cbn [fst snd]. rewrite Hid in Hcust.
  split; [reflexivity |]. split; [exact Hcust |].
  split; [apply markStepCompleted_completed |].
  split; [reflexivity |]. split; [exact Hcons |]. split; assumption.
Qed.

Lemma X7_witness :
  console (exec (workflowEngine.handleCustomerInactive "c1") welcomed)
  = console welcomed ++ [mkEmailData "alice@x.com" reminder "c1" None].
Proof.
  destruct (X7_inactivity_completes_the_reminder_step "c1" aliceWelcomed welcomed)
    as (_ & _ & _ & _ & Hcons & _);
    [vm_compute; reflexivity | reflexivity ..|].
  exact Hcons.
Defined.

(** ** Error containment *)

Lemma result_bind_normal {A B} (m : Eff A) (k : A -> Eff B) w a w1 :
  m w = (Normal a, w1) -> result (m ≫= k) w = result (k a) w1.
Proof. intros H. unfold result. rewrite bind_run, H. reflexivity. Qed.

(** X8.  [handleEvent] and [triggerWorkflowStep] never throw: whatever
    the event, the world and the broker do, they return normally.
    [executeWorkflowStep] throws in exactly one situation, when the
    customer is neither in the registry nor in the payload (the
    constructor reads [id] of [undefined]); the world is then unchanged,
    and [handleEvent] catches that error too. *)
Theorem X8_handlers_contain_errors :
  (forall topic event w,
     result (workflowEngine.handleEvent topic event) w = Normal tt) /\
  (forall c step extra w,
     result (workflowEngine.triggerWorkflowStep c step extra) w = Normal tt) /\
  (forall wd w,
     (exists e, result (workflowEngine.executeWorkflowStep wd) w = Throw e)
     <-> (customers w !! customerId wd = None /\ customer wd = None)) /\
  (forall wd w,
     customers w !! customerId wd = None -> customer wd = None ->
     exec (workflowEngine.executeWorkflowStep wd) w = w).
Proof.
  split; [| split; [| split]].
  - intros topic event w. apply tryCatch_logged.
  - intros c step extra w. apply tryCatch_logged.
  - intros wd w. unfold workflowEngine.executeWorkflowStep. split.
    + intros [e He].
      destruct (customers w !! customerId wd) as [c |] eqn:Hc.
      * rewrite (result_bind_normal _ _ _ _ _ (customerObjOf_found wd c w Hc)),
          tryCatch_logged in He.
        discriminate He.
      * destruct (customer wd) as [data |] eqn:Hd; [| split; reflexivity].
        rewrite (result_bind_normal _ _ _ _ _
                   (customerObjOf_rebuilt wd data w Hc Hd)),
          tryCatch_logged in He.
        discriminate He.
    + intros [Hc Hd]. eexists. unfold result, workflowEngine.customerObjOf.
      eff_run. rewrite Hc, Hd. reflexivity.
  - intros wd w Hc Hd.
    unfold exec, workflowEngine.executeWorkflowStep,
      workflowEngine.customerObjOf.
    eff_run. rewrite Hc, Hd. reflexivity.
Qed.

Lemma X8_witness :
  exec (workflowEngine.executeWorkflowStep unknownAction) online = online /\
  exists e, result (workflowEngine.executeWorkflowStep unknownAction) online
            = Throw e.
Proof.
  destruct X8_handlers_contain_errors as (_ & _ & Hiff & Hsame).
  split.
  - apply Hsame; reflexivity.
  - apply Hiff. split; reflexivity.
Defined.

(** ** The registry is keyed by the customer id *)

Lemma switchAction_normal a c p w c' w1 :
  workflowEngine.switchAction a c p w = (Normal c', w1) ->
  (exists u, c' = Customer.updateWorkflowState u c /\
             WorkflowState.p_currentStep u = None /\
             WorkflowState.p_completedSteps u = None) /\
  customers w1 = customers w /\ clock w1 = clock w.
Proof.
  intros Hrun.
  pose proof (switchAction_preserves
                (fun w' => customers w' = customers w /\ clock w' = clock w)
                a c p w (conj eq_refl eq_refl)) as Hframe.
  unfold exec in Hframe. rewrite Hrun in Hframe. split; [| exact Hframe].
  revert Hrun. unfold workflowEngine.switchAction.
  repeat case_bool_decide;
    try (intros [=]; fail);
    rewrite bind_run;
    match goal with
    | |- context [match ?send w with _ => _ end] =>
        destruct (send w) as [[mail | e] w2];
        [eff_run; intros [= <- <-]; eexists; repeat split
        | intros [=]]
    end.
Qed.

Lemma id_markStepCompleted n c :
  Customer.id (Customer.markStepCompleted n c) = Customer.id c.
Proof. reflexivity. Qed.

Lemma registry_keyed_insert k c w :
  registry_keyed w -> Customer.id c = k ->
  registry_keyed (set_customers (<[k := c]>) w).
Proof.
  intros Hw Hid k' c'. cbn [customers set_customers].
  destruct (decide (k = k')) as [-> | Hne].
  - rewrite lookup_insert_eq. intros [= <-]. exact Hid.
  - rewrite lookup_insert_ne by exact Hne. apply Hw.
Qed.

Lemma registry_keyed_same w w' :
  customers w' = customers w -> registry_keyed w -> registry_keyed w'.
Proof. intros Heq Hw k c. rewrite Heq. apply Hw. Qed.

#[local] Instance registry_keyed_env : EnvFrame registry_keyed.
Proof. split; intros; assumption. Qed.

Lemma executeWorkflowStep_keyed wd :
  (forall data, customer wd = Some data -> CustomerData.id data = customerId wd) ->
  preserves registry_keyed (workflowEngine.executeWorkflowStep wd).
Proof.
  intros Hcoh w Hw. unfold exec, workflowEngine.executeWorkflowStep.
  rewrite bind_run.
  assert (Hobj : (exists c, workflowEngine.customerObjOf wd w = (Normal c, w) /\
                            Customer.id c = customerId wd) \/
                 (exists e, workflowEngine.customerObjOf wd w = (Throw e, w))).
  { destruct (customers w !! customerId wd) as [c |] eqn:Hc.
    - left. exists c. split; [apply customerObjOf_found, Hc | apply Hw, Hc].
    - destruct (customer wd) as [data |] eqn:Hd.
      + left. eexists. split; [apply customerObjOf_rebuilt; eassumption |].
        apply Hcoh. reflexivity.
      + right. eexists. unfold workflowEngine.customerObjOf. eff_run.
        rewrite Hc, Hd. reflexivity. }
  destruct Hobj as [(c & -> & Hid) | (e & ->)]; [| exact Hw].
  unfold tryCatch. rewrite bind_run.
  destruct (workflowEngine.switchAction (action wd) c (productData wd) w)
    as [[c' | e] w1] eqn:Hrun.
  - destruct (switchAction_normal _ _ _ _ _ _ Hrun)
      as ((u & -> & _) & Hcust & _).
    eff_run. apply registry_keyed_insert; [| exact Hid].
    apply (registry_keyed_same w); assumption.
  - pose proof (switchAction_preserves (fun w' => customers w' = customers w)
                  (action wd) c (productData wd) w eq_refl) as Hcust.
    unfold exec in Hcust. rewrite Hrun in Hcust. eff_run.
    apply (registry_keyed_same w); assumption.
Qed.

Lemma triggerWorkflowStep_keyed c step extra :
  preserves registry_keyed (workflowEngine.triggerWorkflowStep c step extra).
Proof.
  unfold workflowEngine.triggerWorkflowStep, eventService.publishWorkflowStep.
  pose proof (publishEvent_preserves registry_keyed).
  assert (preserves registry_keyed
            (workflowEngine.executeWorkflowStep
               (mkWorkflowData (Customer.id c) (stepIdOf step) (stepNameOf step)
                  (actionOf step) (Some (Customer.toJSON c)) extra))).
  { apply executeWorkflowStep_keyed. intros data [= <-]. reflexivity. }
  preserves_auto.
Qed.

Lemma cancelReminderTimer_keyed customerId :
  preserves registry_keyed (workflowEngine.cancelReminderTimer customerId).
Proof.
  intros w Hw. unfold exec. rewrite cancelReminderTimer_run.
  apply (registry_keyed_same w); [apply cancelled_customers | exact Hw].
Qed.

Lemma scheduleReminderCheck_keyed c :
  preserves registry_keyed (workflowEngine.scheduleReminderCheck c).
Proof.
  intros w Hw. unfold exec. rewrite scheduleReminderCheck_run.
  apply (registry_keyed_same w); [| exact Hw].
  unfold armed. cbn. apply cancelled_customers.
Qed.

Lemma handleCustomerSignup_keyed data :
  preserves registry_keyed (workflowEngine.handleCustomerSignup data).
Proof.
  intros w Hw. unfold exec, workflowEngine.handleCustomerSignup.
  rewrite bind_run. cbn [newDate gets]. rewrite bind_run. cbn [modify].
  match goal with
  | |- registry_keyed (?rest ?w1).2 =>
      change (registry_keyed (exec rest w1));
      assert (Hrest : preserves registry_keyed rest);
      [| apply Hrest, registry_keyed_insert; [exact Hw | reflexivity]]
  end.
  pose proof triggerWorkflowStep_keyed. pose proof scheduleReminderCheck_keyed.
  preserves_auto.
Qed.

Lemma handleProductPageVisit_keyed visit :
  preserves registry_keyed (workflowEngine.handleProductPageVisit visit).
Proof.
  intros w Hw. unfold exec, workflowEngine.handleProductPageVisit.
  rewrite bind_run. cbn [gets].
  destruct (customers w !! visitCustomerId visit) as [c |] eqn:Hc;
    [| exact Hw].
  rewrite bind_run. cbn [newDate gets]. rewrite bind_run. cbn [newDate gets].
  rewrite bind_run. cbn [modify].
  match goal with
  | |- registry_keyed (?rest ?w1).2 =>
      change (registry_keyed (exec rest w1));
      assert (Hrest : preserves registry_keyed rest);
      [| apply Hrest, registry_keyed_insert; [exact Hw | exact (Hw _ _ Hc)]]
  end.
  pose proof triggerWorkflowStep_keyed. pose proof scheduleReminderCheck_keyed.
  pose proof cancelReminderTimer_keyed.
  preserves_auto.
Qed.

Lemma handleEvent_keyed topic event :
  coherent event ->
  preserves registry_keyed (workflowEngine.handleEvent topic event).
Proof.
  intros Hcoh. unfold workflowEngine.handleEvent, coherent in *.
  pose proof handleCustomerSignup_keyed. pose proof handleProductPageVisit_keyed.
  pose proof triggerWorkflowStep_keyed.
  destruct (Event.body event) eqn:Hbody;
    try (pose proof (executeWorkflowStep_keyed _ Hcoh));
    unfold workflowEngine.handleCustomerInactive; preserves_auto.
Qed.

Lemma transition_keyed t w :
  coherentTransition t -> registry_keyed w -> registry_keyed (transition t w).
Proof.
  destruct t as [topic event | handle | cid | connected | now'];
    cbn [transition coherentTransition]; intros Hcoh.
  - apply handleEvent_keyed, Hcoh.
  - assert (Hp : preserves registry_keyed
                   (workflowEngine.fireTimeout handle)).
    { unfold workflowEngine.fireTimeout, workflowEngine.reminderCallback,
        eventService.publishCustomerInactive.
      pose proof (publishEvent_preserves registry_keyed).
      preserves_auto. }
    exact (Hp w).
  - assert (Hp : preserves registry_keyed
                   (workflowEngine.simulateTimePassage cid)).
    { unfold workflowEngine.simulateTimePassage,
        eventService.publishCustomerInactive.
      pose proof (publishEvent_preserves registry_keyed).
      pose proof cancelReminderTimer_keyed.
      preserves_auto. }
    exact (Hp w).
  - intros Hw; exact Hw.
  - intros Hw; exact Hw.
Qed.

(** X9.  In every run from start-up in which the WORKFLOW_STEP and
    WORKFLOW_TRIGGER events that are delivered name the customer they
    carry ([customerId] is the [id] of the payload's [customer], as in
    the events that [triggerWorkflowStep] publishes), every entry of the
    registry is stored under its own id. *)
Theorem X9_registry_is_keyed_by_customer_id brk now demo delay ts :
  Forall coherentTransition ts ->
  registry_keyed (run ts (initialWorld brk now demo delay)).
Proof.
  assert (Hinit : registry_keyed (initialWorld brk now demo delay)).
  { intros k c Hl. cbn in Hl. rewrite lookup_empty in Hl. discriminate. }
  revert Hinit. generalize (initialWorld brk now demo delay).
  induction ts as [| t ts IH]; intros w Hw Hts; cbn.
  - exact Hw.
  - inversion Hts as [| ? ? Ht Hrest]; subst.
    apply IH; [apply transition_keyed; assumption | assumption].
Qed.

Lemma X9_witness :
  registry_keyed
    (run [SetConnected true; Deliver topics.CUSTOMER_EVENTS signupEvent;
          Deliver topics.WORKFLOW_TRIGGERS strayStep;
          Deliver topics.CUSTOMER_EVENTS visitEvent; Elapse 1]
       (initialWorld acceptAll 100 true 30000)).
Proof.
  apply X9_registry_is_keyed_by_customer_id.
  repeat constructor. cbn. intros data [= <-]. reflexivity.
Defined.

(** ** Activity always re-arms the timer *)

#[local] Instance timer_view_env X :
  EnvFrame (fun w => (timers w, timeouts w, nextTimeout w, reminderDelay w) = X).
Proof. split; intros; assumption. Qed.

#[local] Instance timer_view_registry X :
  RegistryFrame
    (fun w => (timers w, timeouts w, nextTimeout w, reminderDelay w) = X).
Proof. intros f w Hw. exact Hw. Qed.

Lemma triggerWorkflowStep_customers c step extra w :
  customers w !! Customer.id c = Some c ->
  let w' := exec (workflowEngine.triggerWorkflowStep c step extra) w in
  customers w' = customers w \/
  exists u, WorkflowState.p_currentStep u = None /\
            WorkflowState.p_completedSteps u = None /\
            customers w'
            = <[Customer.id c :=
                  Customer.markStepCompleted (stepIdOf step)
                    (Customer.updateWorkflowState u c)]> (customers w).
Proof.
  intros Hc w'. subst w'.
  unfold exec, workflowEngine.triggerWorkflowStep,
    eventService.publishWorkflowStep.
  unfold tryCatch. rewrite bind_run. cbn [logger.info logger.log modify].
  rewrite bind_run.
  match goal with
  | |- context [eventService.publishEvent ?t ?b ?w1] =>
      pose proof (publishEvent_preserves
                    (fun w' => customers w' = customers w) t b w1 eq_refl)
        as Hcust;
      unfold exec in Hcust;
      destruct (eventService.publishEvent t b w1) as [[ev | e] w2];
      cbn [snd] in Hcust
  end; [| left; eff_run; exact Hcust].
  unfold workflowEngine.executeWorkflowStep. rewrite bind_run.
  rewrite (customerObjOf_found _ c w2) by (cbn [customerId]; rewrite Hcust; exact Hc).
  unfold tryCatch. rewrite bind_run. cbn [action productData].
  destruct (workflowEngine.switchAction (actionOf step) c extra w2)
    as [[c' | e] w3] eqn:Hrun.
  - destruct (switchAction_normal _ _ _ _ _ _ Hrun)
      as ((u & -> & Hu1 & Hu2) & Hcust3 & _).
    right. exists u. eff_run. rewrite Hcust3, Hcust. auto.
  - pose proof (switchAction_preserves (fun w' => customers w' = customers w2)
                  (actionOf step) c extra w2 eq_refl) as Hcust3.
    unfold exec in Hcust3. rewrite Hrun in Hcust3. cbn [snd] in Hcust3.
    left. eff_run. rewrite Hcust3. exact Hcust.
Qed.

(** X10.  Every product-page visit of a registered customer (stored under
    its own id) counts as activity, whether or not the discount step was
    already completed and whether or not the event service works: the
    handler returns normally, the stored customer has the time of the
    handling as last activity and the visit as last product visit, the
    timeout that the timer table held for the customer is no longer
    armed, and a fresh timeout is armed and recorded for the customer. *)
Theorem X10_every_visit_refreshes_activity_and_rearms_the_timer visit c w :
  customers w !! visitCustomerId visit = Some c ->
  Customer.id c = visitCustomerId visit ->
  timers_wf w ->
  let lastVisit :=
    mkProductVisit (visitProductId visit) (visitProductName visit)
      (visitCategory visit) (default (clock w) (visitVisitedAt visit)) in
  let w' := exec (workflowEngine.handleProductPageVisit visit) w in
  result (workflowEngine.handleProductPageVisit visit) w = Normal tt /\
  (exists c', customers w' !! visitCustomerId visit = Some c' /\
              Customer.lastActivity c' = clock w /\
              lastProductVisit (Customer.metadata c') = Some lastVisit) /\
  (forall h, timers w !! visitCustomerId visit = Some h -> timeouts w' !! h = None) /\
  timers w' !! visitCustomerId visit = Some (nextTimeout w) /\
  timeouts w' !! nextTimeout w
  = Some (mkTimeoutTask (visitCustomerId visit) (reminderDelay w)).
Proof.
  intros Hc Hid [_ Hbound] lastVisit w'. subst w'.
  set (visited :=
         Customer.set_metadata
           (mkCustomerMetadata (Some lastVisit)
              (otherMetadata (Customer.metadata c)))
           (Customer.updateLastActivity (clock w) c)).
  assert (Hvid : Customer.id visited = visitCustomerId visit) by exact Hid.
  unfold workflowEngine.handleProductPageVisit. eff_run. rewrite Hc.
  eff_run. fold lastVisit.
  change (Customer.set_metadata _ (Customer.updateLastActivity (clock w) c))
    with visited.
  set (w1 := set_logs _ (set_customers _ w)).
  match goal with
  | |- context [(if ?b then ?t else ?e) w1] =>
      assert (Hstep : exists w2,
                (if b then t else e) w1 = (Normal tt, w2) /\
                (exists c', customers w2 !! visitCustomerId visit = Some c' /\
                            Customer.lastActivity c' = clock w /\
                            lastProductVisit (Customer.metadata c') = Some lastVisit) /\
                timers w2 = timers w /\ timeouts w2 = timeouts w /\
                nextTimeout w2 = nextTimeout w /\
                reminderDelay w2 = reminderDelay w)
  end.
  { assert (Hw1 : customers w1 !! visitCustomerId visit = Some visited).
    { subst w1. cbn [customers set_logs set_customers]. apply lookup_insert_eq. }
    destruct (negb (Customer.isStepCompleted 2 visited)).
    - eexists. split.
      + rewrite run_eta. f_equal. apply tryCatch_logged.
      + pose proof (triggerWorkflowStep_preserves
                      (fun w' => (timers w', timeouts w', nextTimeout w',
                                  reminderDelay w')
                                 = (timers w, timeouts w, nextTimeout w,
                                    reminderDelay w))
                      visited workflowSteps.STEP_2_DISCOUNT
                      (lastProductVisit (Customer.metadata visited)) w1 eq_refl)
          as Hview.
        injection Hview as Ht Hto Hn Hd.
        split; [| repeat split; assumption].
        destruct (triggerWorkflowStep_customers visited
                    workflowSteps.STEP_2_DISCOUNT
                    (lastProductVisit (Customer.metadata visited)) w1)
          as [Hsame | (u & _ & _ & Hins)].
        * rewrite Hvid. exact Hw1.
        * rewrite Hsame. exists visited. repeat split. exact Hw1.
        * rewrite Hins, Hvid, lookup_insert_eq. eexists.
          split; [reflexivity |]. split; reflexivity.
    - exists w1. split; [reflexivity |].
      split; [exists visited; repeat split; exact Hw1 | repeat split]. }
  destruct Hstep as (w2 & Hrun & (c' & Hc' & Hact & Hmeta) & Ht & Hto & Hn & Hd).
  rewrite Hrun. cbn [fst snd]. rewrite cancelReminderTimer_run.
  rewrite scheduleReminderCheck_run. cbn [fst snd]. rewrite Hvid.
  assert (Hcc : cancelled (visitCustomerId visit)
                  (cancelled (visitCustomerId visit) w2)
                = cancelled (visitCustomerId visit) w2).
  { unfold cancelled at 1. rewrite cancelled_timers, lookup_delete_eq.
    reflexivity. }
  rewrite Hcc. unfold armed. eff_run.
  rewrite cancelled_customers, cancelled_nextTimeout, cancelled_timeouts.
  assert (Hdel' : reminderDelay (cancelled (visitCustomerId visit) w2)
                  = reminderDelay w2).
  { unfold cancelled. destruct (timers w2 !! _); reflexivity. }
  rewrite Hdel', Hn, Hd, Ht, Hto, Hvid.
  split; [reflexivity |]. split; [exists c'; auto |].
  split; [| split; apply lookup_insert_eq].
  intros h Hh. rewrite Hh. pose proof (Hbound _ _ Hh).
  rewrite lookup_insert_ne by lia. apply lookup_delete_eq.
Qed.

Lemma X10_witness :
  let w' := exec (workflowEngine.handleProductPageVisit shoes) reminded in
  timeouts w' !! 0%nat = None /\ timers w' !! "c1" = Some 1%nat.
Proof.
  assert (Hwf : timers_wf reminded).
  { split.
    - intros h task Hl. cbn in Hl.
      destruct (decide (h = 0%nat)) as [-> | Hne].
      + rewrite lookup_insert_eq in Hl. injection Hl as <-. reflexivity.
      + rewrite lookup_insert_ne in Hl by congruence.
        rewrite lookup_empty in Hl. discriminate Hl.
    - intros k h Hl. cbn in Hl.
      destruct (decide (k = "c1")) as [-> | Hne].
      + rewrite lookup_insert_eq in Hl. injection Hl as <-. cbn. lia.
      + rewrite lookup_insert_ne in Hl by congruence.
        rewrite lookup_empty in Hl. discriminate Hl. }
  destruct (X10_every_visit_refreshes_activity_and_rearms_the_timer shoes
              aliceDone reminded eq_refl eq_refl Hwf)
    as (_ & _ & Hold & Hnew & _).
  split; [apply Hold; reflexivity | exact Hnew].
Defined.

(** ** Without the event service *)

(** X11.  With the event service disconnected, [handleCustomerSignup]
    still returns normally, registers the customer as constructed and arms
    the inactivity timer; the publication of the workflow step fails,
    which is logged, so no email is printed, nothing reaches the producer
    and step 1 of a new customer stays incomplete. *)
Theorem X11_signup_without_event_service data w :
  isConnected w = false ->
  let w' := exec (workflowEngine.handleCustomerSignup data) w in
  result (workflowEngine.handleCustomerSignup data) w = Normal tt /\
  customers w' = <[CustomerData.id data := Customer.new (clock w) data]> (customers w) /\
  console w' = console w /\ produced w' = produced w /\
  timers w' !! CustomerData.id data = Some (nextTimeout w) /\
  timeouts w' !! nextTimeout w
  = Some (mkTimeoutTask (CustomerData.id data) (reminderDelay w)) /\
  (ERROR, "Failed to trigger workflow step Send Welcome Email:") ∈ logs w' /\
  (CustomerData.workflowState data = None ->
   Customer.isStepCompleted 1 (Customer.new (clock w) data) = false).
Proof.
  intros Hoff w'. subst w'.
  unfold workflowEngine.handleCustomerSignup, workflowEngine.triggerWorkflowStep,
    eventService.publishWorkflowStep.
  eff_run. rewrite publishEvent_offline by exact Hoff.
  rewrite scheduleReminderCheck_run. cbn [fst snd]. unfold armed. eff_run.
  rewrite cancelled_customers, cancelled_console, cancelled_produced,
    cancelled_nextTimeout.
  assert (Hdel : forall k v, reminderDelay (cancelled k v) = reminderDelay v).
  { intros k v. unfold cancelled. destruct (timers v !! k); reflexivity. }
  assert (Hlogs : forall k v, exists extra, logs (cancelled k v) = logs v ++ extra).
  { intros k v. unfold cancelled. destruct (timers v !! k); cbn.
    - eexists. reflexivity.
    - exists []. symmetry. apply app_nil_r. }
  rewrite Hdel. cbn.
  repeat split; try apply lookup_insert_eq.
  - match goal with
    | |- _ ∈ logs (cancelled ?k ?v) ++ _ =>
        destruct (Hlogs k v) as [extra ->]
    end.
    cbn. rewrite !elem_of_app. left. left. right.
    apply list_elem_of_singleton. reflexivity.
  - intros Hnone. unfold Customer.isStepCompleted. cbn. rewrite Hnone.
    reflexivity.
Qed.

Lemma X11_witness :
  let w' := exec (workflowEngine.handleCustomerSignup alice) offline in
  console w' = [] /\ timers w' !! "c1" = Some 0%nat /\
  Customer.isStepCompleted 1 (Customer.new 100 alice) = false.
Proof.
  destruct (X11_signup_without_event_service alice offline eq_refl)
    as (_ & _ & Hcons & _ & Htimer & _ & _ & Hstep).
  split; [exact Hcons |]. split; [exact Htimer | apply Hstep; reflexivity].
Defined.

(** ** Fast-forwarding time *)

(** X12.  [simulateTimePassage] of the engine, for a registered customer
    with an entry in the timer table, connected and with the send
    accepted: the entry is removed and its timeout is no longer armed, and
    one CUSTOMER_INACTIVE event for the customer goes to the topic of the
    customer events.  The registry is unchanged: the reminder step runs
    only when that event is handled. *)
Theorem X12_simulateTimePassage_publishes_inactivity customerId c h w :
  customers w !! customerId = Some c ->
  timers w !! customerId = Some h ->
  isConnected w = true -> broker w (sendCount w) = None ->
  let w' := exec (workflowEngine.simulateTimePassage customerId) w in
  result (workflowEngine.simulateTimePassage customerId) w = Normal tt /\
  timers w' = delete customerId (timers w) /\
  timeouts w' = delete h (timeouts w) /\
  customers w' = customers w /\ console w' = console w /\
  (exists r, produced w' = produced w ++ [r] /\
             topic r = topics.CUSTOMER_EVENTS /\
             Event.body (value r) = CustomerInactive customerId) /\
  (exists status, workflowEngine.getWorkflowStatus customerId w' = Some status /\
     WorkflowStatus.hasActiveReminder (WorkflowStatus.workflow status) = false).
Proof.
  intros Hc Ht Hon Hok w'. subst w'.
  unfold workflowEngine.simulateTimePassage,
    eventService.publishCustomerInactive.
  eff_run. rewrite Hc, Ht. eff_run. rewrite cancelReminderTimer_run.
  cbn [fst snd].
  assert (Hcan : cancelled customerId
                   (set_logs (fun l => l ++ [(INFO, "Demo: Fast-forwarding time for customer "
                                                    +:+ Customer.name c)]) w)
                 = set_logs (fun l => l ++ [(INFO, "Cancelled reminder timer for customer "
                                                   +:+ customerId)])
                     (set_timers (delete customerId)
                        (set_timeouts (delete h) (fun next => next)
                           (set_logs (fun l => l ++ [(INFO, "Demo: Fast-forwarding time for customer "
                                                            +:+ Customer.name c)]) w)))).
  { unfold cancelled. cbn [timers set_logs]. rewrite Ht. reflexivity. }
  rewrite Hcan. rewrite publishEvent_accepted by assumption.
  cbn [fst snd]. unfold workflowEngine.getWorkflowStatus. cbn.
  rewrite Hc, lookup_delete_eq.
  repeat split.
  - eexists. repeat split.
  - eexists. split; reflexivity.
Qed.

Lemma X12_witness :
  let w' := exec (workflowEngine.simulateTimePassage "c1") welcomed in
  timers w' !! "c1" = None /\ length (produced w') = 3%nat.
Proof.
  destruct (X12_simulateTimePassage_publishes_inactivity "c1" aliceWelcomed 0%nat
              welcomed)
    as (_ & Htimers & _ & _ & _ & (r & Hr & _) & _);
    [vm_compute; reflexivity | reflexivity ..|].
  split.
  - rewrite Htimers. apply lookup_delete_eq.
  - rewrite Hr, length_app. reflexivity.
Defined.

(** X13.  [simulateTimePassage] cancels the timer before it publishes.
    When the publication fails because the event service is
    disconnected, the customer service answers 'Internal server error
    during time simulation', and the inactivity timer of the customer is
    gone: no entry in the timer table, no armed timeout, nothing
    published. *)
Theorem X13_failed_simulation_loses_the_timer schema customerId c h w :
  schema customerId = None ->
  customers w !! customerId = Some c ->
  timers w !! customerId = Some h ->
  isConnected w = false ->
  let w' := exec (simulateTimePassage schema customerId) w in
  result (simulateTimePassage schema customerId) w
  = Normal (ApiResponse.mk false
              (Some "Internal server error during time simulation") None None) /\
  timers w' !! customerId = None /\
  timeouts w' !! h = None /\
  produced w' = produced w /\ customers w' = customers w.
Proof.
  intros Hvalid Hc Ht Hoff w'. subst w'.
  unfold simulateTimePassage, validateCustomerId, workflowEngine.getCustomer,
    workflowEngine.simulateTimePassage, eventService.publishCustomerInactive.
  rewrite Hvalid. cbn [isValid validationError negb]. eff_run.
  repeat (first [rewrite Hc | rewrite Ht]; eff_run).
  rewrite cancelReminderTimer_run. cbn [fst snd].
  rewrite publishEvent_offline.
  - cbn [fst snd]. eff_run.
    rewrite cancelled_timers, cancelled_timeouts, cancelled_produced,
      cancelled_customers.
    cbn [timers timeouts produced customers set_logs]. rewrite Ht.
    repeat split; apply lookup_delete_eq.
  - unfold cancelled. cbn [timers set_logs]. rewrite Ht. exact Hoff.
Qed.

Lemma X13_witness :
  let w := set_isConnected false
             (set_customers (<["123e4567-e89b-42d3-a456-426614174000" := aliceDone]>)
                (set_timers (<["123e4567-e89b-42d3-a456-426614174000" := 0%nat]>)
                   offline)) in
  timers (exec (simulateTimePassage joiCustomerIdSchema
                  "123e4567-e89b-42d3-a456-426614174000") w)
    !! "123e4567-e89b-42d3-a456-426614174000" = None.
Proof.
  apply (X13_failed_simulation_loses_the_timer joiCustomerIdSchema
           "123e4567-e89b-42d3-a456-426614174000" aliceDone 0%nat);
    reflexivity.
Defined.

(** X14.  For a registered customer without an entry in the timer table,
    [simulateTimePassage] of the customer service reports success ('Time
    passage simulated! ...') although nothing happens: the world is
    unchanged, no event is published. *)
Theorem X14_simulation_without_timer_reports_success schema customerId c w :
  schema customerId = None ->
  customers w !! customerId = Some c ->
  timers w !! customerId = None ->
  simulateTimePassage schema customerId w
  = (Normal (ApiResponse.mk true None
               (Some "Time passage simulated! Reminder email should be triggered if applicable.")
               (Some customerId)),
     w).
Proof.
  intros Hvalid Hc Ht.
  unfold simulateTimePassage, validateCustomerId, workflowEngine.getCustomer,
    workflowEngine.simulateTimePassage.
  rewrite Hvalid. cbn [isValid validationError negb]. eff_run.
  repeat (first [rewrite Hc | rewrite Ht]; eff_run). reflexivity.
Qed.

Lemma X14_witness :
  let w := set_customers (<["123e4567-e89b-42d3-a456-426614174000" := aliceDone]>)
             online in
  exec (simulateTimePassage joiCustomerIdSchema
          "123e4567-e89b-42d3-a456-426614174000") w = w.
Proof.
  cbn zeta. unfold exec.
  rewrite (X14_simulation_without_timer_reports_success joiCustomerIdSchema
             "123e4567-e89b-42d3-a456-426614174000" aliceDone);
    reflexivity.
Defined.

(** X15.  The callback of a timeout does not remove the entry of the
    timer table.  After the timeout of a registered customer has fired,
    no timeout is armed for the customer, but the timer table still holds
    the handle, so [getWorkflowStatus] keeps reporting
    [hasActiveReminder = true]. *)
Theorem X15_fired_timer_stays_in_the_timer_table h task c w :
  timers_wf w ->
  timeouts w !! h = Some task ->
  customers w !! taskCustomerId task = Some c ->
  let w' := exec (workflowEngine.fireTimeout h) w in
  timers w' = timers w /\
  timers w' !! taskCustomerId task = Some h /\
  (forall h' task', timeouts w' !! h' = Some task' ->
     taskCustomerId task' <> taskCustomerId task) /\
  exists status,
    workflowEngine.getWorkflowStatus (taskCustomerId task) w' = Some status /\
    WorkflowStatus.hasActiveReminder (WorkflowStatus.workflow status) = true.
Proof.
  intros [Harmed Hbound] Hh Hc w'.
  assert (Hview : (customers w', timers w', timeouts w')
                  = (customers w, timers w, delete h (timeouts w))).
  { subst w'. unfold exec, workflowEngine.fireTimeout. eff_run. rewrite Hh.
    eff_run.
    match goal with
    | |- context [workflowEngine.reminderCallback task ?w1] =>
        assert (Hp : preserves
                       (fun v => (customers v, timers v, timeouts v)
                                 = (customers w, timers w, delete h (timeouts w)))
                       (workflowEngine.reminderCallback task));
        [| exact (Hp w1 eq_refl)]
    end.
    assert (Henv : EnvFrame
                     (fun v => (customers v, timers v, timeouts v)
                               = (customers w, timers w, delete h (timeouts w)))).
    { split; intros; assumption. }
    unfold workflowEngine.reminderCallback,
      eventService.publishCustomerInactive.
    pose proof (publishEvent_preserves _ (EnvFrame0 := Henv)).
    preserves_auto. }
  injection Hview as Hcust Htim Hto.
  pose proof (Harmed _ _ Hh) as Hentry.
  split; [exact Htim |]. split; [rewrite Htim; exact Hentry |]. split.
  - intros h' task' Hl Heq. rewrite Hto in Hl.
    apply lookup_delete_Some in Hl as [Hne Hl].
    pose proof (Harmed _ _ Hl) as Hentry'. rewrite Heq in Hentry'. congruence.
  - unfold workflowEngine.getWorkflowStatus. rewrite Hcust, Hc, Htim, Hentry.
    eexists. split; reflexivity.
Qed.

Lemma reminded_wf : timers_wf reminded.
Proof.
  split.
  - intros h task Hl. cbn in Hl.
    destruct (decide (h = 0%nat)) as [-> | Hne].
    + rewrite lookup_insert_eq in Hl. injection Hl as <-. reflexivity.
    + rewrite lookup_insert_ne in Hl by congruence.
      rewrite lookup_empty in Hl. discriminate Hl.
  - intros k h Hl. cbn in Hl.
    destruct (decide (k = "c1")) as [-> | Hne].
    + rewrite lookup_insert_eq in Hl. injection Hl as <-. cbn. lia.
    + rewrite lookup_insert_ne in Hl by congruence.
      rewrite lookup_empty in Hl. discriminate Hl.
Qed.

Lemma X15_witness :
  timers (exec (workflowEngine.fireTimeout 0) reminded) !! "c1" = Some 0%nat /\
  forall h' task',
    timeouts (exec (workflowEngine.fireTimeout 0) reminded) !! h' = Some task' ->
    taskCustomerId task' <> "c1".
Proof.
  destruct (X15_fired_timer_stays_in_the_timer_table 0%nat
              (mkTimeoutTask "c1" 30000) aliceDone reminded reminded_wf
              eq_refl eq_refl)
    as (_ & Hentry & Hnone & _).
  split; [exact Hentry | exact Hnone].
Defined.

(** ** The customer service: commands *)

Lemma status_after_signup data w w' :
  CustomerData.workflowState data = None ->
  customers w' !! CustomerData.id data
  = Some (Customer.markStepCompleted 1
            (Customer.updateWorkflowState (welcomeFlags (clock w))
               (Customer.new (clock w) data))) ->
  is_Some (timers w' !! CustomerData.id data) ->
  exists status,
    workflowEngine.getWorkflowStatus (CustomerData.id data) w' = Some status /\
    WorkflowStatus.completedSteps (WorkflowStatus.workflow status) = [1%Z] /\
    WorkflowStatus.currentStep (WorkflowStatus.workflow status) = 2%Z /\
    WorkflowStatus.hasActiveReminder (WorkflowStatus.workflow status) = true.
Proof.
  intros Hnew Hcust [h Htimer].
  unfold workflowEngine.getWorkflowStatus. rewrite Hcust, Htimer.
  assert (Hws : Customer.workflowState (Customer.new (clock w) data)
                = Customer.initialWorkflowState).
  { cbn. rewrite Hnew. reflexivity. }
  eexists. split; [reflexivity |].
  unfold Customer.markStepCompleted, Customer.updateWorkflowState.
  cbn [WorkflowStatus.workflow WorkflowStatus.completedSteps
       WorkflowStatus.currentStep WorkflowStatus.hasActiveReminder
       Customer.workflowState Customer.set_workflowState].
  rewrite Hws. repeat split.
Qed.

Lemma createCustomer_accepted joi req w :
  customerSignupSchema joi req = [] ->
  isConnected w = true -> broker w (sendCount w) = None ->
  let data :=
    CustomerData.mk (uuid_of (uuidCount w)) (requestEmail req) (requestName req)
      (Some (clock w)) None (default ∅ (requestPreferences req)) None None in
  createCustomer joi req w
  = (Normal (ApiResponse.mk true None
               (Some "Customer signup successful! Welcome email will be sent shortly.")
               (Some data)),
     set_logs (fun l => l ++ [(INFO, "New customer created: " +:+ requestName req
                                     +:+ " (" +:+ requestEmail req +:+ ")")])
       (published topics.CUSTOMER_EVENTS (CustomerSignup data)
          (set_uuidCount S w))).
Proof.
  intros Hvalid Hon Hok data. unfold createCustomer,
    eventService.publishCustomerSignup.
  rewrite Hvalid. cbn [validateWithJoi isValid negb]. eff_run.
  rewrite publishEvent_accepted by assumption. reflexivity.
Qed.

(** X16.  The round trip of a signup through the bus.  [createCustomer]
    with valid input, connected and with the sends accepted, answers with
    the new customer data (a fresh id, the name and email of the request)
    and publishes one CUSTOMER_SIGNUP event on the customer-events
    topic; it does not register the customer.  Once [handleEvent] has
    handled that event, the workflow status of the customer shows
    [completedSteps = [1]], [currentStep = 2] and an active reminder. *)
Theorem X16_createCustomer_then_handleEvent joi req w :
  customerSignupSchema joi req = [] ->
  isConnected w = true ->
  broker w (sendCount w) = None -> broker w (S (sendCount w)) = None ->
  broker w (S (S (sendCount w))) = None ->
  exists data event w1,
    createCustomer joi req w
    = (Normal (ApiResponse.mk true None
                 (Some "Customer signup successful! Welcome email will be sent shortly.")
                 (Some data)), w1) /\
    CustomerData.id data = uuid_of (uuidCount w) /\
    CustomerData.name data = requestName req /\
    CustomerData.email data = requestEmail req /\
    produced w1
    = produced w ++ [mkProducerRecord topics.CUSTOMER_EVENTS (Event.id event)
                       event CUSTOMER_SIGNUP (Event.id event)] /\
    Event.body event = CustomerSignup data /\
    customers w1 = customers w /\
    let w2 := exec (workflowEngine.handleEvent topics.CUSTOMER_EVENTS event) w1 in
    console w2 = console w ++ [welcomeMail data] /\
    exists status,
      workflowEngine.getWorkflowStatus (CustomerData.id data) w2 = Some status /\
      WorkflowStatus.completedSteps (WorkflowStatus.workflow status) = [1%Z] /\
      WorkflowStatus.currentStep (WorkflowStatus.workflow status) = 2%Z /\
      WorkflowStatus.hasActiveReminder (WorkflowStatus.workflow status) = true.
Proof.
  intros Hvalid Hon Hb0 Hb1 Hb2.
  pose proof (createCustomer_accepted joi req w Hvalid Hon Hb0) as Hcreate.
  cbn zeta in Hcreate.
  set (data := CustomerData.mk (uuid_of (uuidCount w)) (requestEmail req)
                 (requestName req) (Some (clock w)) None
                 (default ∅ (requestPreferences req)) None None) in *.
  set (w1 := set_logs _ (published _ _ _)) in Hcreate.
  exists data, (envelope (CustomerSignup data) (set_uuidCount S w)), w1.
  split; [exact Hcreate |].
  do 6 (split; [reflexivity |]). intros w2. subst w2.
  unfold workflowEngine.handleEvent, Event.type, exec.
  cbn [envelope Event.body]. unfold tryCatch. rewrite bind_run.
  cbn [logger.info logger.log modify].
  set (w1' := set_logs _ w1).
  destruct (handleCustomerSignup_success data w1')
    as (Hres & Hcust & Hcons & Htimer & _); [exact Hon | exact Hb1 | exact Hb2 |].
  rewrite (run_eta (workflowEngine.handleCustomerSignup data) w1'), Hres.
  cbn [fst snd]. split; [exact Hcons |].
  apply (status_after_signup data w1').
  - reflexivity.
  - rewrite Hcust. apply lookup_insert_eq.
  - rewrite Htimer. eexists; reflexivity.
Qed.

Lemma X16_witness :
  exists data event w1,
    createCustomer joiSchemas aliceRequest online
    = (Normal (ApiResponse.mk true None
                 (Some "Customer signup successful! Welcome email will be sent shortly.")
                 (Some data)), w1) /\
    console (exec (workflowEngine.handleEvent topics.CUSTOMER_EVENTS event) w1)
    = [welcomeMail data].
Proof.
  destruct (X16_createCustomer_then_handleEvent joiSchemas aliceRequest online)
    as (data & event & w1 & Hrun & _ & _ & _ & _ & _ & _ & Hcons & _);
    [reflexivity ..|].
  exists data, event, w1. split; [exact Hrun | exact Hcons].
Defined.

Lemma createCustomer_customers joi req :
  forall X, preserves (fun w => customers w = X) (createCustomer joi req).
Proof.
  intros X. unfold createCustomer, eventService.publishCustomerSignup, newDate.
  pose proof (publishEvent_preserves (fun w => customers w = X)).
  pose proof (uuidv4_preserves (fun w => customers w = X)).
  destruct (isValid (validateWithJoi (customerSignupSchema joi req)));
    cbn [negb]; preserves_auto.
Qed.

(** X17.  [createCustomer] never throws and never touches the registry.
    With invalid input it answers with the validation messages joined by
    ', ' and changes nothing (no id is drawn, nothing is published); with
    valid input and the event service disconnected it answers 'Internal
    server error during signup' and nothing is published. *)
Theorem X17_createCustomer_failures joi req w :
  customers (exec (createCustomer joi req) w) = customers w /\
  (exists response, result (createCustomer joi req) w = Normal response) /\
  (customerSignupSchema joi req <> [] ->
   createCustomer joi req w
   = (Normal (ApiResponse.mk false
                (Some (String.concat ", " (customerSignupSchema joi req)))
                None None), w)) /\
  (customerSignupSchema joi req = [] -> isConnected w = false ->
   result (createCustomer joi req) w
   = Normal (ApiResponse.mk false (Some "Internal server error during signup")
               None None) /\
   produced (exec (createCustomer joi req) w) = produced w).
Proof.
  split; [apply (createCustomer_customers joi req (customers w) w eq_refl) |].
  split; [| split].
  - unfold result, createCustomer, tryCatch.
    match goal with
    | |- context [match ?m w with _ => _ end] => destruct (m w) as [[a | e] w1]
    end; eexists; reflexivity.
  - intros Hbad. unfold createCustomer.
    destruct (customerSignupSchema joi req) as [| m ms]; [congruence |].
    reflexivity.
  - intros Hvalid Hoff. unfold result, exec, createCustomer,
      eventService.publishCustomerSignup.
    rewrite Hvalid. cbn [validateWithJoi isValid negb]. eff_run.
    rewrite publishEvent_offline by exact Hoff. split; reflexivity.
Qed.

Lemma X17_witness :
  createCustomer joiSchemas (mkCustomerSignupRequest "" "" None) online
  = (Normal (ApiResponse.mk false (Some "Name is required, Email is required")
               None None), online) /\
  produced (exec (createCustomer joiSchemas aliceRequest) offline) = [].
Proof.
  split.
  - apply (X17_createCustomer_failures joiSchemas
             (mkCustomerSignupRequest "" "" None) online).
    intros H. discriminate H.
  - apply (X17_createCustomer_failures joiSchemas aliceRequest offline);
      reflexivity.
Defined.

(** X18.  [recordProductVisit] for an id that passes the validation of
    the id.  Visit data that fail their validation are answered with the
    validation messages joined by ', ', whether or not the customer is
    registered, and nothing changes.  With valid visit data, an id that is
    not registered is answered with 'Customer not found' and nothing
    changes; for a registered customer, connected and with the send
    accepted, one PRODUCT_PAGE_VISIT event is published for that customer
    whose category is the one of the request, or 'General' when the
    request has none, and whose visit time is the clock reading; the
    registry is unchanged until the event is handled. *)
Theorem X18_recordProductVisit joi customerId req w :
  customerIdSchema joi customerId = None ->
  (productVisitSchema joi req <> [] ->
   recordProductVisit joi customerId req w
   = (Normal (ApiResponse.mk false
                (Some (String.concat ", " (productVisitSchema joi req)))
                None None), w)) /\
  (productVisitSchema joi req = [] ->
   customers w !! customerId = None ->
   recordProductVisit joi customerId req w
   = (Normal (ApiResponse.mk false (Some "Customer not found") None None), w)) /\
  (forall c,
     productVisitSchema joi req = [] ->
     customers w !! customerId = Some c ->
     isConnected w = true -> broker w (sendCount w) = None ->
     let visit :=
       mkVisitData customerId (requestProductId req) (requestProductName req)
         (string_or (requestCategory req) "General") (Some (clock w)) in
     let w' := exec (recordProductVisit joi customerId req) w in
     result (recordProductVisit joi customerId req) w
     = Normal (ApiResponse.mk true None
                 (Some "Product page visit recorded! Discount email may be triggered.")
                 (Some visit)) /\
     (exists r, produced w' = produced w ++ [r] /\
                topic r = topics.CUSTOMER_EVENTS /\
                Event.body (value r) = ProductPageVisit visit) /\
     customers w' = customers w).
Proof.
  intros Hid. split; [| split].
  - intros Hbad. unfold recordProductVisit, validateCustomerId.
    rewrite Hid. cbn [isValid validationError negb].
    destruct (productVisitSchema joi req) as [| m ms]; [congruence |].
    reflexivity.
  - intros Hvisit Hc. unfold recordProductVisit, validateCustomerId,
      workflowEngine.getCustomer.
    rewrite Hid, Hvisit. cbn [validateWithJoi isValid negb]. eff_run.
    rewrite Hc. reflexivity.
  - intros c Hvisit Hc Hon Hok visit w'. subst w'.
    unfold result, exec, recordProductVisit, validateCustomerId,
      workflowEngine.getCustomer, eventService.publishProductPageVisit.
    rewrite Hid, Hvisit. cbn [validateWithJoi isValid negb]. eff_run.
    rewrite Hc. eff_run. rewrite publishEvent_accepted by assumption.
    cbn [fst snd]. split; [reflexivity |]. split; [| reflexivity].
    eexists. split; [reflexivity |]. split; reflexivity.
Qed.

Lemma X18_witness :
  let id := "123e4567-e89b-42d3-a456-426614174000" in
  let registered := set_customers (<[id := aliceDone]>) online in
  recordProductVisit joiSchemas id shoesRequest online
  = (Normal (ApiResponse.mk false (Some "Customer not found") None None), online) /\
  result (recordProductVisit joiSchemas id shoesRequest) registered
  = Normal (ApiResponse.mk true None
              (Some "Product page visit recorded! Discount email may be triggered.")
              (Some (mkVisitData id "P1" "Runner" "Shoes" (Some 100%Z)))) /\
  result (recordProductVisit joiSchemas id (mkProductVisitRequest "P1" "Runner" None))
    registered
  = Normal (ApiResponse.mk true None
              (Some "Product page visit recorded! Discount email may be triggered.")
              (Some (mkVisitData id "P1" "Runner" "General" (Some 100%Z)))) /\
  recordProductVisit joiSchemas id (mkProductVisitRequest "" "R" None) registered
  = (Normal (ApiResponse.mk false
               (Some "Product ID is required, Product name must be at least 2 characters long")
               None None), registered).
Proof.
  intros id registered.
  destruct (X18_recordProductVisit joiSchemas id shoesRequest online eq_refl)
    as (_ & Hnone & _).
  destruct (X18_recordProductVisit joiSchemas id shoesRequest registered eq_refl)
    as (_ & _ & Hshoes).
  destruct (X18_recordProductVisit joiSchemas id
              (mkProductVisitRequest "P1" "Runner" None) registered eq_refl)
    as (_ & _ & Hgeneral).
  destruct (X18_recordProductVisit joiSchemas id
              (mkProductVisitRequest "" "R" None) registered eq_refl)
    as (Hbad & _).
  split; [apply Hnone; reflexivity |].
  split; [apply (Hshoes aliceDone); reflexivity |].
  split; [apply (Hgeneral aliceDone); reflexivity |].
  apply Hbad. intros H. discriminate H.
Defined.

(** ** The customer controller *)



(** ** The remaining queries *)

(** X20.  The workflow status of a registered customer lists the three
    steps in order, each with its completion; every completed step
    carries the same [completedAt], the time of the last email sent, and
    every step that is not completed carries none. *)
Theorem X20_workflow_status_steps customerId c w :
  customers w !! customerId = Some c ->
  exists status,
    workflowEngine.getWorkflowStatus customerId w = Some status /\
    WorkflowStatus.id <$> WorkflowStatus.steps (WorkflowStatus.workflow status)
    = [1%Z; 2%Z; 3%Z] /\
    (forall s, s ∈ WorkflowStatus.steps (WorkflowStatus.workflow status) ->
       WorkflowStatus.completed s = Customer.isStepCompleted (WorkflowStatus.id s) c /\
       WorkflowStatus.completedAt s
       = if WorkflowStatus.completed s
         then WorkflowState.lastEmailSent (Customer.workflowState c)
         else None) /\
    WorkflowStatus.hasActiveReminder (WorkflowStatus.workflow status)
    = bool_decide (is_Some (timers w !! customerId)).
Proof.
  intros Hc. unfold workflowEngine.getWorkflowStatus. rewrite Hc.
  eexists. split; [reflexivity |]. split; [reflexivity |]. split; [| reflexivity].
  intros s Hs. cbn in Hs.
  repeat (apply elem_of_cons in Hs as [-> | Hs]; [split; reflexivity |]).
  inversion Hs.
Qed.

Lemma X20_witness :
  exists status,
    workflowEngine.getWorkflowStatus "c1" welcomed = Some status /\
    WorkflowStatus.completedAt
      <$> WorkflowStatus.steps (WorkflowStatus.workflow status)
    = [Some 100%Z; None; None].
Proof.
  destruct (X20_workflow_status_steps "c1" aliceWelcomed welcomed)
    as (status & Hstatus & _); [vm_compute; reflexivity |].
  exists status. split; [exact Hstatus |].
  vm_compute in Hstatus. injection Hstatus as <-. reflexivity.
Defined.

(** X21.  A WORKFLOW_STEP (or WORKFLOW_TRIGGER) event is executed without
    an idempotency check.  For a registered customer whose step is
    already completed, connected and with the send accepted, handling the
    event prints the email of the action once more; the completed steps
    of the stored customer stay as they were, without a duplicate. *)
Theorem X21_workflow_step_event_sends_again topic event wd c w :
  Event.body event = WorkflowStepEvent wd \/ Event.body event = WorkflowTrigger wd ->
  customers w !! customerId wd = Some c ->
  knownAction (action wd) ->
  Customer.isStepCompleted (stepId wd) c = true ->
  isConnected w = true -> broker w (sendCount w) = None ->
  let w' := exec (workflowEngine.handleEvent topic event) w in
  console w' = console w ++ [mailOf (action wd) (Customer.toJSON c) (productData wd)] /\
  exists after,
    customers w' !! customerId wd = Some after /\
    WorkflowState.completedSteps (Customer.workflowState after)
    = WorkflowState.completedSteps (Customer.workflowState c).
Proof.
  intros Hbody Hc Hact Hdone Hon Hok w'. subst w'.
  unfold workflowEngine.handleEvent, Event.type, exec.
  destruct Hbody as [-> | ->]; eff_run;
    match goal with
    | |- context [workflowEngine.executeWorkflowStep wd ?w1] =>
        destruct (executeWorkflowStep_accepted wd c w1)
          as (w2 & Hrun & Hcust & Hcons & _);
        [apply customerObjOf_found; exact Hc | assumption ..|];
        rewrite Hrun; cbn [fst snd]
    end;
    (split; [exact Hcons |]);
    rewrite Hcust, lookup_insert_eq; eexists; (split; [reflexivity |]);
    unfold Customer.isStepCompleted in Hdone;
    unfold Customer.markStepCompleted, Customer.updateWorkflowState, flagsOf,
      WorkflowState.spread;
    cbn [Customer.workflowState Customer.set_workflowState
         WorkflowState.completedSteps];
    repeat case_bool_decide;
    cbn [welcomeFlags discountFlags reminderFlags
         WorkflowState.p_completedSteps default];
    rewrite Hdone; reflexivity.
Qed.

Lemma X21_witness :
  console (exec (workflowEngine.handleEvent topics.WORKFLOW_TRIGGERS strayStep)
             welcomed)
  = [welcomeMail alice; welcomeMail alice].
Proof.
  destruct (X21_workflow_step_event_sends_again topics.WORKFLOW_TRIGGERS
              strayStep strayData aliceWelcomed welcomed)
    as [Hcons _];
    [left; reflexivity | vm_compute; reflexivity | left; reflexivity
    | reflexivity ..|].
  exact Hcons.
Defined.

(** X22.  [processEmailQueue] with a type other than 'welcome',
    'discount' and 'reminder' throws 'Unknown email type: ...' and does
    nothing else.  With 'discount', connected and with the send accepted,
    it prints the discount email for the category of the product data, or
    for 'amazing products' when there are no product data or the category
    is empty. *)
Theorem X22_processEmailQueue kind c data w :
  (kind <> "welcome" -> kind <> "discount" -> kind <> "reminder" ->
   processEmailQueue kind c data w
   = (Throw (mkError ("Unknown email type: " +:+ kind)), w)) /\
  (kind = "discount" ->
   isConnected w = true -> broker w (sendCount w) = None ->
   exists mail,
     result (processEmailQueue kind c data) w = Normal mail /\
     console (exec (processEmailQueue kind c data) w) = console w ++ [mail] /\
     to mail = CustomerData.email c /\
     productCategory mail
     = Some (match data with
             | Some visit => if bool_decide (category visit = "")
                             then "amazing products" else category visit
             | None => "amazing products"
             end)).
Proof.
  split.
  - intros H1 H2 H3. unfold processEmailQueue.
    rewrite !bool_decide_eq_false_2 by assumption. reflexivity.
  - intros -> Hon Hok. exists (discountMail c data).
    change (processEmailQueue "discount" c data)
      with (emailService.sendDiscountEmail c data).
    unfold result, exec. rewrite sendDiscountEmail_accepted by assumption.
    repeat split. destruct data; reflexivity.
Qed.

Lemma X22_witness :
  processEmailQueue "sms" alice None online
  = (Throw (mkError "Unknown email type: sms"), online) /\
  exists mail,
    result (processEmailQueue "discount" alice None) online = Normal mail /\
    productCategory mail = Some "amazing products".
Proof.
  destruct (X22_processEmailQueue "sms" alice None online) as [Hunknown _].
  destruct (X22_processEmailQueue "discount" alice None online)
    as [_ Hdiscount].
  split.
  - apply Hunknown; intros H; discriminate H.
  - destruct (Hdiscount eq_refl eq_refl eq_refl) as (mail & Hres & _ & _ & Hcat).
    exists mail. split; [exact Hres | exact Hcat].
Defined.

(** ** The timeout callback *)

(** X24.  When an armed timeout fires for a registered customer whose
    step 3 is not completed, connected and with the send accepted, the
    callback publishes one CUSTOMER_INACTIVE event for the id of that
    customer on the customer-events topic and sends no email itself; the
    registry is unchanged.  When the customer of the timeout is not in
    the registry, firing only forgets the timeout. *)
Theorem X24_fired_timer_publishes_inactivity h task w :
  timeouts w !! h = Some task ->
  (forall c,
     customers w !! taskCustomerId task = Some c ->
     Customer.isStepCompleted 3 c = false ->
     isConnected w = true -> broker w (sendCount w) = None ->
     let w' := exec (workflowEngine.fireTimeout h) w in
     result (workflowEngine.fireTimeout h) w = Normal tt /\
     (exists r, produced w' = produced w ++ [r] /\
                topic r = topics.CUSTOMER_EVENTS /\
                Event.body (value r) = CustomerInactive (Customer.id c)) /\
     console w' = console w /\ customers w' = customers w /\
     timeouts w' = delete h (timeouts w)) /\
  (customers w !! taskCustomerId task = None ->
   workflowEngine.fireTimeout h w
   = (Normal tt, set_timeouts (delete h) (fun next => next) w)).
Proof.
  intros Hh. split.
  - intros c Hc Hno Hon Hok w'. subst w'.
    unfold result, exec, workflowEngine.fireTimeout,
      workflowEngine.reminderCallback, eventService.publishCustomerInactive.
    eff_run. rewrite Hh. eff_run. rewrite Hc, Hno. cbn [negb]. eff_run.
    rewrite publishEvent_accepted by assumption. cbn [fst snd].
    split; [reflexivity |]. split; [| repeat split].
    eexists. split; [reflexivity |]. split; reflexivity.
  - intros Hc. unfold workflowEngine.fireTimeout,
      workflowEngine.reminderCallback.
    eff_run. rewrite Hh. eff_run. rewrite Hc. reflexivity.
Qed.

Lemma X24_witness :
  (let w' := exec (workflowEngine.fireTimeout 0) welcomed in
   result (workflowEngine.fireTimeout 0) welcomed = Normal tt /\
   (exists r, produced w' = produced welcomed ++ [r] /\
              topic r = topics.CUSTOMER_EVENTS /\
              Event.body (value r) = CustomerInactive "c1") /\
   console w' = console welcomed /\ customers w' = customers welcomed /\
   timeouts w' = delete 0%nat (timeouts welcomed)) /\
  (let w := set_timers (<["c1" := 0%nat]>)
              (set_timeouts (<[0%nat := mkTimeoutTask "c1" 30000]>) S online) in
   workflowEngine.fireTimeout 0 w
   = (Normal tt, set_timeouts (delete 0%nat) (fun next => next) w)).
Proof.
  split.
  - destruct (X24_fired_timer_publishes_inactivity 0%nat
                (mkTimeoutTask "c1" 30000) welcomed) as [Hfire _];
      [vm_compute; reflexivity |].
    apply (Hfire aliceWelcomed); vm_compute; reflexivity.
  - cbn zeta.
    apply (X24_fired_timer_publishes_inactivity 0%nat (mkTimeoutTask "c1" 30000));
      reflexivity.
Defined.
